(** * iDebugConsole: a shallow embedding of [src/iDebugConsole.js]

    The development follows the three components of the script:
    the [Debugger] prototype (gating of the synthesized [debug] entry
    points), [LogLocation] (call-site resolution) and the [Profiler]
    prototype (stop-watch, decorator, group registry and report).

    JavaScript objects used as dictionaries are finite maps over their own
    properties, with the properties they inherit from [Object.prototype]
    kept beside them; object references are locations into a store, and
    every function that can throw returns a [result] together with the
    state it leaves behind. *)

From Stdlib Require Import ZArith QArith Qround Qabs Lia Lqa.
From Stdlib Require Import Ascii String DecimalString DecimalNat.
From stdpp Require Import gmap strings list fin_maps.

Local Open Scope string_scope.

(** ** JavaScript values *)

Module JS.

(** Object references. *)
Definition loc := nat.

(** The values that reach the code under study.  Numbers in value position
    are integral ([VNum]) or [NaN]; timing values, which need fractions,
    are kept apart as rationals in [Profiler]. *)
Inductive value :=
  | VUndefined
  | VNull
  | VBool (b : bool)
  | VNum (z : Z)
  | VNaN
  | VStr (s : string)
  | VObj (l : loc).

#[global] Instance value_eq_dec : EqDecision value.
Proof. solve_decision. Defined.

(** [ToBoolean]. *)
Definition truthy (v : value) : bool :=
  match v with
  | VUndefined | VNull | VNaN => false
  | VBool b => b
  | VNum z => negb (z =? 0)%Z
  | VStr s => negb (String.eqb s "")
  | VObj _ => true
  end.

(** [a || b] and [a && b] return one of their operands. *)
Definition js_or (a b : value) : value := if truthy a then a else b.
Definition js_and (a b : value) : value := if truthy a then b else a.

Inductive jstype := TUndefined | TObject | TBoolean | TNumber | TString.

#[global] Instance jstype_eq_dec : EqDecision jstype.
Proof. solve_decision. Defined.

(** [typeof v]; note [typeof null == 'object']. *)
Definition typeof (v : value) : jstype :=
  match v with
  | VUndefined => TUndefined
  | VNull | VObj _ => TObject
  | VBool _ => TBoolean
  | VNum _ | VNaN => TNumber
  | VStr _ => TString
  end.

(** [v == undefined] (loose): true of [undefined] and [null] only. *)
Definition loosely_undefined (v : value) : bool :=
  match v with VUndefined | VNull => true | _ => false end.

Definition string_of_Z (z : Z) : string :=
  NilZero.string_of_int (Z.to_int z).

Definition string_of_nat (n : nat) : string :=
  NilZero.string_of_uint (Nat.to_uint n).

(** [ToString], as used for property keys and string concatenation.  An
    integer is written with all its digits, as [String] does below
    [10^21]; an object as a plain object is. *)
Definition to_string (v : value) : string :=
  match v with
  | VUndefined => "undefined"
  | VNull => "null"
  | VBool true => "true"
  | VBool false => "false"
  | VNum z => string_of_Z z
  | VNaN => "NaN"
  | VStr s => s
  | VObj _ => "[object Object]"
  end.

(** The built-in properties of [Object.prototype], which every object
    literal inherits: a lookup [o[k]] that finds no own property [k] finds
    them.  None of them is enumerable, so [for (k in o)] does not see them.
    All are methods but [__proto__], an accessor that reads the prototype
    itself. *)
Definition object_prototype_names : list string :=
  ["constructor"; "__defineGetter__"; "__defineSetter__"; "hasOwnProperty";
   "__lookupGetter__"; "__lookupSetter__"; "isPrototypeOf";
   "propertyIsEnumerable"; "toString"; "valueOf"; "__proto__"; "toLocaleString"].

(** The built-ins as objects of a store, standing from [base] on. *)
Definition builtins_at (base : loc) : gmap string loc :=
  list_to_map (zip object_prototype_names
                 (seq base (length object_prototype_names))).

(** What can be thrown: a [TypeError] raised by the engine, or the string
    given to a [throw] statement. *)
Inductive exn :=
  | TypeError (msg : string)
  | Thrown (msg : string).

Inductive result (A : Type) :=
  | Ok (a : A)
  | Throw (e : exn).
Arguments Ok {A} a.
Arguments Throw {A} e.

(** State and exceptions: a computation returns its outcome and the state
    it leaves, also when it throws. *)
Definition M (S A : Type) : Type := S -> result A * S.

Definition ret {S A} (a : A) : M S A := fun s => (Ok a, s).
Definition throw {S A} (e : exn) : M S A := fun s => (Throw e, s).
Definition bind {S A B} (m : M S A) (k : A -> M S B) : M S B :=
  fun s => match m s with
           | (Ok a, s') => k a s'
           | (Throw e, s') => (Throw e, s')
           end.
Definition get {S} : M S S := fun s => (Ok s, s).
Definition modify {S} (f : S -> S) : M S unit := fun s => (Ok tt, f s).

(** [for (x in xs) body(x)]: the bodies run in order, a throw ends the loop. *)
Fixpoint for_each {S A} (xs : list A) (body : A -> M S unit) : M S unit :=
  match xs with
  | [] => ret tt
  | x :: xs' => bind (body x) (fun _ => for_each xs' body)
  end.

End JS.

Import JS.

Declare Scope js_scope.
Delimit Scope js_scope with js.
Notation "x <~ m ;; k" := (bind m (fun x => k))
  (at level 100, m at next level, right associativity) : js_scope.
Notation "m ;;; k" := (bind m (fun _ => k))
  (at level 100, right associativity) : js_scope.

(** ** The Debugger prototype *)

Module Debugger.

(** What a synthesized [debug] entry point is: the function [debug(level)]
    returned when it ran. *)
Inductive entry :=
  | ENoop                                     (* function () {} *)
  | EView (level : string)                    (* view.output.bind(this, level) *)
  | EConsole (level : string) (bound : list value).
                                 (* console[level].bind(window.console, arguments) *)

(** A registered object: its [_debug] property, its [debug] function and
    the per-level functions hung on it ([obj.debug[f]]).  An object never
    registered has none of them. *)
Record dobj := {
  _debug : value;
  debug_fn : option entry;
  debug_levels : gmap string entry
}.

Definition fresh_obj : dobj :=
  {| _debug := VUndefined; debug_fn := None; debug_levels := ∅ |}.

(** What reaches a sink. *)
Inductive event :=
  | ConsoleCall (level : string) (bound : list value) (args : list value)
  | ViewOutput (level : string) (args : list value)
  | MissingStateWarning.

(** The closure variables of the prototype ([allDebuggers], [globalDebug],
    [view]), what a call of [view.output] ends in (the view's own state is
    not followed), the built-in properties that a dictionary of objects
    inherits from [Object.prototype], each with the object found there, the
    store of objects, the names of the functions of [console], and the
    output the Debugger has emitted so far (latest last). *)
Record world := {
  allDebuggers : list loc;
  globalDebug : value;
  view : bool;
  view_output : string -> list value -> result unit;
  object_prototype : gmap string loc;
  heap : loc -> dobj;
  console_fns : list string;
  emitted : list event
}.

Definition set_globalDebug (v : value) (w : world) : world :=
  {| allDebuggers := allDebuggers w; globalDebug := v; view := view w;
     view_output := view_output w; object_prototype := object_prototype w;
     heap := heap w; console_fns := console_fns w; emitted := emitted w |}.

Definition set_view (b : bool) (w : world) : world :=
  {| allDebuggers := allDebuggers w; globalDebug := globalDebug w; view := b;
     view_output := view_output w; object_prototype := object_prototype w;
     heap := heap w; console_fns := console_fns w; emitted := emitted w |}.

Definition set_heap (h : loc -> dobj) (w : world) : world :=
  {| allDebuggers := allDebuggers w; globalDebug := globalDebug w; view := view w;
     view_output := view_output w; object_prototype := object_prototype w;
     heap := h; console_fns := console_fns w; emitted := emitted w |}.

Definition push_debugger (l : loc) (w : world) : world :=
  {| allDebuggers := allDebuggers w ++ [l]; globalDebug := globalDebug w;
     view := view w; view_output := view_output w;
     object_prototype := object_prototype w; heap := heap w;
     console_fns := console_fns w; emitted := emitted w |}.

Definition emit (e : event) (w : world) : world :=
  {| allDebuggers := allDebuggers w; globalDebug := globalDebug w; view := view w;
     view_output := view_output w; object_prototype := object_prototype w;
     heap := heap w; console_fns := console_fns w; emitted := emitted w ++ [e] |}.

Definition set_view_output (out : string -> list value -> result unit) (w : world)
  : world :=
  {| allDebuggers := allDebuggers w; globalDebug := globalDebug w; view := view w;
     view_output := out; object_prototype := object_prototype w;
     heap := heap w; console_fns := console_fns w; emitted := emitted w |}.

Definition update_obj (l : loc) (f : dobj -> dobj) (h : loc -> dobj) : loc -> dobj :=
  fun l' => if decide (l' = l) then f (h l') else h l'.

Definition with_debug (v : value) (o : dobj) : dobj :=
  {| _debug := v; debug_fn := debug_fn o; debug_levels := debug_levels o |}.

Definition with_debug_fn (e : entry) (o : dobj) : dobj :=
  {| _debug := _debug o; debug_fn := Some e; debug_levels := ∅ |}.

Definition with_debug_level (f : string) (e : entry) (o : dobj) : dobj :=
  {| _debug := _debug o; debug_fn := debug_fn o;
     debug_levels := <[f := e]> (debug_levels o) |}.

(** A Debugger instance: [this._objects], keys to object references.  Two
    keys may hold the same reference. *)
Record t := { _objects : gmap string loc }.

Local Open Scope js_scope.

(** [global(state)]: the setter branch returns nothing. *)
Definition global (state : value) : M world value :=
  if truthy state then modify (set_globalDebug state) ;;; ret VUndefined
  else w <~ get ;; ret (globalDebug w).

(** [state()]. *)
Definition state (d : t) (w : world) : gmap string string :=
  (fun l => if truthy (_debug (heap w l)) then "on" else "off") <$> _objects d.

(** [setState(state, key)]; [key] is [None] when the argument is left out. *)
Definition key_given (key : option string) : bool :=
  match key with Some k => negb (String.eqb k "") | None => false end.

Definition assign_debug (l : loc) (v : value) : M world unit :=
  modify (fun w => set_heap (update_obj l (with_debug v) (heap w)) w).

(** [this._objects[key]]: the object under an own key of the dictionary, or
    else the built-in it inherits under that name (under [__proto__], the
    prototype itself). *)
Definition lookup_object (d : t) (w : world) (key : string) : option loc :=
  match _objects d !! key with
  | Some l => Some l
  | None => object_prototype w !! key
  end.

Definition setState (d : t) (st : value) (key : option string)
  : M world (gmap string string) :=
  (if key_given key then
     w <~ get ;;
     match lookup_object d w (default "" key) with
     | Some l => assign_debug l st
     | None => throw (TypeError "Cannot set property '_debug' of undefined")
     end
   else
     for_each (map_to_list (_objects d)) (fun kl => assign_debug kl.2 st)) ;;;
  w <~ get ;; ret (state d w).

Definition off (d : t) (key : option string) := setState d (VBool false) key.

(** [debug.call(obj, level)]: the gate is read here, when the entry point
    is made. *)
Definition debug (this : loc) (level : option string) : M world entry :=
  w <~ get ;;
  let lvl := match level with Some f => if String.eqb f "" then "log" else f
                            | None => "log" end in
  if negb (truthy (globalDebug w)) || negb (truthy (_debug (heap w this)))
  then ret ENoop
  else if view w then ret (EView lvl)
  else if bool_decide (lvl ∈ console_fns w)
       then ret (EConsole lvl match level with Some f => [VStr f] | None => [] end)
       else throw (TypeError "Cannot read property 'bind' of undefined").

(** [init(state)]: the warning about a missing state is a call of
    [console.log]. *)
Definition init (d : t) (st : value) : M world unit :=
  (if negb (truthy st) && negb (bool_decide (st = VBool false))
   then w <~ get ;;
        if bool_decide ("log" ∈ console_fns w)
        then modify (emit MissingStateWarning)
        else throw (TypeError "console.log is not a function")
   else ret tt) ;;;
  setState d st None ;;;
  for_each (map_to_list (_objects d)) (fun kl =>
    let obj := kl.2 in
    modify (push_debugger obj) ;;;
    e <~ debug obj None ;;
    modify (fun w => set_heap (update_obj obj (with_debug_fn e) (heap w)) w) ;;;
    w <~ get ;;
    for_each (console_fns w) (fun f =>
      e' <~ debug obj (Some f) ;;
      modify (fun w => set_heap (update_obj obj (with_debug_level f e') (heap w)) w))).

(** [new Debugger(objects, state)]. *)
Definition new (objects : gmap string loc) (st : value) : M world t :=
  let d := {| _objects := objects |} in
  init d st ;;; ret d.

(** [initView]: [made] is what [new DebuggerView(state, options)] ends in,
    a throw, or a view with what its [output] does; only a view that was
    made is stored. *)
Definition initView (made : result (string -> list value -> result unit))
  : M world unit :=
  match made with
  | Ok out => modify (fun w => set_view_output out (set_view true w))
  | Throw e => throw e
  end.

(** Calling an entry point with [args]: a view-bound one hands them to
    [view.output], and ends as that does. *)
Definition run_entry (e : entry) (args : list value) : M world unit :=
  match e with
  | ENoop => ret tt
  | EView level =>
      modify (emit (ViewOutput level args)) ;;;
      w <~ get ;; fun s => (view_output w level args, s)
  | EConsole level bound => modify (emit (ConsoleCall level bound args))
  end.

(** [obj.debug(args)] ([level = None]) and [obj.debug[f](args)]. *)
Definition call_debug (obj : loc) (level : option string) (args : list value)
  : M world unit :=
  w <~ get ;;
  let fn := match level with
            | None => debug_fn (heap w obj)
            | Some f => debug_levels (heap w obj) !! f
            end in
  match fn with
  | Some e => run_entry e args
  | None => throw (TypeError "debug is not a function")
  end.

(** The state right after the script is loaded with [window.iDebugMode]
    set to [mode], before any Debugger is made; there is no view yet, and
    the built-ins of [Object.prototype] stand in the store from location
    1000 on. *)
Definition loaded (mode : value) (fns : list string) : world :=
  {| allDebuggers := [];
     globalDebug := if bool_decide (mode = VUndefined) then VBool false else mode;
     view := false; view_output := fun _ _ => Ok tt;
     object_prototype := builtins_at 1000;
     heap := fun _ => fresh_obj; console_fns := fns; emitted := [] |}.

(** Loading the script: the function that builds [Profiler.prototype] begins
    with [console.info(navigator.userAgent)] (line 978), so without
    [console.info] the script stops there and nothing of it is defined. *)
Definition load (mode : value) (fns : list string) : result world :=
  if bool_decide ("info" ∈ fns) then Ok (loaded mode fns)
  else Throw (TypeError "console.info is not a function").

End Debugger.

(** ** LogLocation: the call-site resolver *)

Module LogLocation.

(** [s.split(c)] for a one-character separator: never empty. *)
Fixpoint split_on (c : ascii) (s : string) : list string :=
  match s with
  | EmptyString => [""]
  | String a s' =>
      if Ascii.eqb a c then "" :: split_on c s'
      else match split_on c s' with
           | h :: t => String a h :: t
           | [] => [String a ""]
           end
  end.

(** [parts.join(sep)]. *)
Fixpoint join (sep : string) (parts : list string) : string :=
  match parts with
  | [] => ""
  | [p] => p
  | p :: rest => p +:+ sep +:+ join sep rest
  end.

(** [s.replace(c, '')] with a string pattern: the first occurrence only. *)
Fixpoint remove_first (c : ascii) (s : string) : string :=
  match s with
  | EmptyString => ""
  | String a s' => if Ascii.eqb a c then s' else String a (remove_first c s')
  end.

(** [a.slice(start)]: a negative start counts from the end. *)
Definition js_slice {A} (start : Z) (l : list A) : list A :=
  let len := Z.of_nat (length l) in
  let k := if (start <? 0)%Z then Z.max (len + start) 0 else Z.min start len in
  drop (Z.to_nat k) l.

Definition of_option (o : option string) : value :=
  match o with Some s => VStr s | None => VUndefined end.

(** The constructor's [options]; [{}] has every field undefined. *)
Record options := {
  o_url : value;
  o_line : value;
  o_offset : option Z
}.

Definition no_options : options :=
  {| o_url := VUndefined; o_line := VUndefined; o_offset := None |}.

(** The caught [Error], with the properties the code reads from it. *)
Record error := {
  e_stack : option string;
  e_url : value;
  e_line : value;
  e_lineNumber : value;
  e_column : value
}.

(** A function object as [getStack]'s fallback sees it: the name that
    [/function\s(\w+?)\s*\(/] captures in its source text, if it matches,
    and its [callee] property. *)
Inductive fnobj :=
  | Fn (decl_name : option string)                       (* no [callee] *)
  | FnCallee (decl_name : option string) (callee : fnobj).

(** [arguments.callee] inside [getStack]: the function itself, which has no
    [callee] property. *)
Definition getStack_fn : fnobj := Fn (Some "getStack").

Definition baseIndex : Z := 4.

(** The [while (currentFunction)] loop. *)
Fixpoint walk_callees (f : fnobj) (stackA : list string) : list string :=
  match f with
  | Fn name => (stackA ++ [default "anonymous" name])%list
  | FnCallee name g => walk_callees g (stackA ++ [default "anonymous" name])%list
  end.

Definition getStack (e : error) (offset : option Z) : list string :=
  let index := (baseIndex + default 0 offset)%Z in
  let stackS := default "" (e_stack e) in
  let stackA := js_slice index (split_on "010"%char stackS) in
  if match stackA with
     | s :: _ => negb (String.eqb s "")
     | [] => false
     end
  then stackA
  else js_slice (index - 2) (walk_callees getStack_fn stackA).

Record urlparts := {
  p_line : option string;
  p_col : option string;
  p_file : string;
  p_path : string
}.

(** [locFromUrl(url)]: [url.split] needs a string. *)
Definition locFromUrl (url : value) : result urlparts :=
  match url with
  | VStr u =>
      let parts := split_on "/"%char u in
      match last parts with
      | Some lst =>
          let loc := remove_first "("%char (remove_first ")"%char lst) in
          let path := join "/" (removelast parts) in
          let locL := split_on ":"%char loc in
          Ok {| p_line := locL !! 1%nat; p_col := locL !! 2%nat;
                p_file := default "" (locL !! 0%nat); p_path := path |}
      | None => Throw (TypeError "Cannot read property 'replace' of undefined")
      end
  | _ => Throw (TypeError "url.split is not a function")
  end.

(** An element of [Array.prototype.join]: [undefined] and [null] give the
    empty string. *)
Definition join_item (v : value) : string :=
  if loosely_undefined v then "" else to_string v.

Record t := {
  stack : list string;
  url : value;
  loc : string;
  path : string;
  file : value;
  line : value;
  col : value;
  str : string
}.

(** [init(e, offset)], on an instance whose [url] and [line] are the ones
    the constructor took from its options. *)
Definition init (this_url this_line : value) (e : error) (offset : option Z)
  : result t :=
  let stack := getStack e offset in
  let url := js_or (js_or (js_or this_url (e_url e))
                          (of_option (stack !! 0%nat))) (VStr "?") in
  match locFromUrl url with
  | Throw x => Throw x
  | Ok l =>
      let file := js_or (VStr (p_file l)) (VStr "?") in
      let line := js_or (js_or (js_or (js_or this_line (of_option (p_line l)))
                                      (e_line e)) (e_lineNumber e)) (VStr "?") in
      let col := js_or (js_or (of_option (p_col l)) (e_column e)) (VStr "") in
      let s := "(" +:+ join ":" [join_item file; join_item line; join_item col] +:+ ")" in
      Ok {| stack := stack; url := url; loc := s; path := p_path l;
            file := file; line := line; col := col; str := s |}
  end.

(** [new LogLocation(options)], where [e] is the error the constructor
    throws and catches. *)
Definition new (opts : options) (e : error) : result t :=
  init (o_url opts) (o_line opts) e (o_offset opts).

Definition toString (l : t) : string := str l.

End LogLocation.

(** ** The Profiler prototype *)

Module Profiler.

(** One recorded segment: [{name, time}], the time in milliseconds.  A
    number is the rational it stands for; the result of an arithmetic
    operation is the exact result rounded to a number again, by the
    rounding [fl] of the world. *)
Record sample := { s_name : string; s_time : Q }.

(** A row of the report: the two [toFixed] strings. *)
Record row := { ms : string; s : string }.

Inductive event :=
  | UserAgentInfo
  | Elapsed (name : string) (msec sec : Q)
  | Report (table : bool) (title : string) (rows : gmap string row).

(** [Profiler.groups] (its own properties); the built-ins it inherits from
    its prototype, each with the object found there ([__proto__] with the
    prototype itself); what an object gives to inherit once it is made the
    prototype; which objects convert to the string ['elapsed']; what the
    constructor reads of the platform ([window.performance],
    [console.table], the user agent test); the two clocks as the sequence
    of their readings, the number of readings taken so far, the rounding
    of arithmetic results, and the console, which has [info] (the script
    does not load without it) and is taken to have [log]. *)
Record world := {
  groups : gmap string value;
  inherited : gmap string loc;
  object_chain : loc -> gmap string loc;
  converts_to_elapsed : loc -> bool;
  has_performance : bool;
  has_console_table : bool;
  ua_msie_edge : bool;
  performance_now : nat -> Q;
  date_getTime : nat -> Q;
  ticks : nat;
  fl : Q -> Q;
  console : list event
}.

(** The unit roundoff of double precision. *)
Definition unit_roundoff : Q := 1 # (2 ^ 53).

(** Round to nearest, in the range where no overflow or underflow can
    occur: the relative error is at most the unit roundoff. *)
Definition rounds_to_nearest (rnd : Q -> Q) : Prop :=
  forall x : Q,
    (1 # 10 ^ 300 <= Qabs x)%Q -> (Qabs x <= inject_Z (10 ^ 300))%Q ->
    (Qabs (rnd x - x) <= Qabs x * unit_roundoff)%Q.

(** Rounding never turns a number that is not negative into a negative one. *)
Definition keeps_sign (rnd : Q -> Q) : Prop :=
  forall x : Q, (0 <= x)%Q -> (0 <= rnd x)%Q.

Definition set_groups (g : gmap string value) (w : world) : world :=
  {| groups := g; inherited := inherited w; object_chain := object_chain w;
     converts_to_elapsed := converts_to_elapsed w;
     has_performance := has_performance w;
     has_console_table := has_console_table w; ua_msie_edge := ua_msie_edge w;
     performance_now := performance_now w; date_getTime := date_getTime w;
     ticks := ticks w; fl := fl w; console := console w |}.

Definition set_inherited (i : gmap string loc) (w : world) : world :=
  {| groups := groups w; inherited := i; object_chain := object_chain w;
     converts_to_elapsed := converts_to_elapsed w;
     has_performance := has_performance w;
     has_console_table := has_console_table w; ua_msie_edge := ua_msie_edge w;
     performance_now := performance_now w; date_getTime := date_getTime w;
     ticks := ticks w; fl := fl w; console := console w |}.

Definition tick (w : world) : world :=
  {| groups := groups w; inherited := inherited w; object_chain := object_chain w;
     converts_to_elapsed := converts_to_elapsed w;
     has_performance := has_performance w;
     has_console_table := has_console_table w; ua_msie_edge := ua_msie_edge w;
     performance_now := performance_now w; date_getTime := date_getTime w;
     ticks := S (ticks w); fl := fl w; console := console w |}.

Definition log (e : event) (w : world) : world :=
  {| groups := groups w; inherited := inherited w; object_chain := object_chain w;
     converts_to_elapsed := converts_to_elapsed w;
     has_performance := has_performance w;
     has_console_table := has_console_table w; ua_msie_edge := ua_msie_edge w;
     performance_now := performance_now w; date_getTime := date_getTime w;
     ticks := ticks w; fl := fl w; console := (console w ++ [e])%list |}.

(** The double quote character, as a string. *)
Definition dquote : string := String "034"%char EmptyString.

(** [Profiler.groups[k]]: an own property, or else an inherited one. *)
Definition groups_get (w : world) (k : string) : value :=
  match groups w !! k with
  | Some v => v
  | None => default VUndefined (VObj <$> inherited w !! k)
  end.

(** Whether an assignment to [Profiler.groups[k]] meets a setter: [k] is
    [__proto__], not an own property, and the accessor is inherited. *)
Definition meets_setter (w : world) (k : string) : bool :=
  bool_decide (k = "__proto__") && bool_decide (groups w !! k = None) &&
  bool_decide (is_Some (inherited w !! k)).

(** [Profiler.groups[k] = v].  An own property is made or changed, unless
    the setter of [__proto__] takes the value: it replaces the prototype by
    an object (other than the prototype itself) or by null, and with it
    what is inherited, and ignores any other value. *)
Definition assign_flag (k : string) (v : value) (w : world) : world :=
  if meets_setter w k then
    match v with
    | VNull => set_inherited ∅ w
    | VObj l => if bool_decide (inherited w !! k = Some l) then w
                else set_inherited (object_chain w l) w
    | _ => w
    end
  else set_groups (<[k := v]> (groups w)) w.

(** A ProfilerInstance.  The three names are strings once the constructor
    has returned; until then a name not given is the empty string, which
    the code ([!this.currentName]) does not tell from it. *)
Record t := {
  startTime : Q;
  stopTime : Q;
  running : bool;
  currentName : string;
  prevName : string;
  initName : string;
  _group : string;
  _active : bool;
  results : list sample;
  performance : bool;
  useTable : bool
}.

Definition set_startTime (x : Q) (p : t) : t :=
  {| startTime := x; stopTime := stopTime p; running := running p;
     currentName := currentName p; prevName := prevName p; initName := initName p;
     _group := _group p; _active := _active p; results := results p;
     performance := performance p; useTable := useTable p |}.

Definition set_stopTime (x : Q) (p : t) : t :=
  {| startTime := startTime p; stopTime := x; running := running p;
     currentName := currentName p; prevName := prevName p; initName := initName p;
     _group := _group p; _active := _active p; results := results p;
     performance := performance p; useTable := useTable p |}.

Definition set_running (b : bool) (p : t) : t :=
  {| startTime := startTime p; stopTime := stopTime p; running := b;
     currentName := currentName p; prevName := prevName p; initName := initName p;
     _group := _group p; _active := _active p; results := results p;
     performance := performance p; useTable := useTable p |}.

Definition set_currentName (n : string) (p : t) : t :=
  {| startTime := startTime p; stopTime := stopTime p; running := running p;
     currentName := n; prevName := prevName p; initName := initName p;
     _group := _group p; _active := _active p; results := results p;
     performance := performance p; useTable := useTable p |}.

Definition set_prevName (n : string) (p : t) : t :=
  {| startTime := startTime p; stopTime := stopTime p; running := running p;
     currentName := currentName p; prevName := n; initName := initName p;
     _group := _group p; _active := _active p; results := results p;
     performance := performance p; useTable := useTable p |}.

Definition set_initName (n : string) (p : t) : t :=
  {| startTime := startTime p; stopTime := stopTime p; running := running p;
     currentName := currentName p; prevName := prevName p; initName := n;
     _group := _group p; _active := _active p; results := results p;
     performance := performance p; useTable := useTable p |}.

Definition set_group (g : string) (p : t) : t :=
  {| startTime := startTime p; stopTime := stopTime p; running := running p;
     currentName := currentName p; prevName := prevName p; initName := initName p;
     _group := g; _active := _active p; results := results p;
     performance := performance p; useTable := useTable p |}.

Definition set_active (b : bool) (p : t) : t :=
  {| startTime := startTime p; stopTime := stopTime p; running := running p;
     currentName := currentName p; prevName := prevName p; initName := initName p;
     _group := _group p; _active := b; results := results p;
     performance := performance p; useTable := useTable p |}.

Definition push_result (x : sample) (p : t) : t :=
  {| startTime := startTime p; stopTime := stopTime p; running := running p;
     currentName := currentName p; prevName := prevName p; initName := initName p;
     _group := _group p; _active := _active p; results := (results p ++ [x])%list;
     performance := performance p; useTable := useTable p |}.

(** Methods run on [this] and the shared world. *)
Definition state : Type := t * world.

Definition on_this (f : t -> t) : M state unit := modify (fun st => (f st.1, st.2)).
Definition on_world (f : world -> world) : M state unit :=
  modify (fun st => (st.1, f st.2)).

Local Open Scope js_scope.

(** [Profiler.groups[k] == undefined ? true : Profiler.groups[k]]. *)
Definition declared (w : world) (k : string) : value :=
  if loosely_undefined (groups_get w k) then VBool true else groups_get w k.

(** [group(overide)]: the registry is written before the name is checked. *)
Definition group (overide : value) : M state string :=
  (if bool_decide (overide = VUndefined) then ret tt
   else
     let k := to_string overide in
     on_world (fun w => assign_flag k (declared w k) w) ;;;
     match overide with
     | VStr name =>
         st <~ get ;;
         if bool_decide (groups_get st.2 name = VUndefined)
         then throw (Thrown ("Profiler.group: Missing a predefined global variable "
                             +:+ "with a boolean value for group " +:+ dquote
                             +:+ name +:+ dquote +:+ "."))
         else on_this (set_group name)
     | _ => throw (Thrown "Profiler.group must be a global variable as a string.")
     end) ;;;
  st <~ get ;; ret (_group st.1).

(** [active(overide)]: the effective activity is the override AND-ed with
    the flag of the instance's own group. *)
Definition active (overide : value) : M state value :=
  match overide with
  | VUndefined => ret tt
  | VBool b => on_this (set_active b)
  | _ => throw (Thrown "Profiler.active must be a boolean value.")
  end ;;;
  st <~ get ;; ret (js_and (VBool (_active st.1)) (groups_get st.2 (_group st.1))).

(** The clock that is read: [window.performance.now()] or
    [new Date().getTime()].  [currentTime()] is called as a plain function,
    so the [this.performance] it tests is [window.performance], not the
    field of the instance. *)
Definition clock (w : world) : nat -> Q :=
  if has_performance w then performance_now w else date_getTime w.

(** [currentTime()]: one more reading of the clock. *)
Definition currentTime : M state Q :=
  st <~ get ;;
  on_world tick ;;;
  ret (clock st.2 (ticks st.2)).

(** [name || this.currentName] for an optional string argument. *)
Definition name_or (name : option string) (current : string) : string :=
  match name with
  | Some n => if String.eqb n "" then current else n
  | None => current
  end.

Definition getElapsedMilliseconds : M state Q :=
  st <~ get ;;
  (if running st.1 then now <~ currentTime ;; on_this (set_stopTime now) else ret tt) ;;;
  st <~ get ;; ret (fl st.2 (stopTime st.1 - startTime st.1)%Q).

Definition getElapsedSeconds : M state Q :=
  e <~ getElapsedMilliseconds ;; st <~ get ;; ret (fl st.2 (e / 1000)%Q).

Definition printElapsed (name : option string) : M state unit :=
  on_this (fun p => set_currentName (name_or name (currentName p)) p) ;;;
  st <~ get ;;
  msec <~ getElapsedMilliseconds ;;
  sec <~ getElapsedSeconds ;;
  on_world (log (Elapsed (currentName st.1) msec sec)).

(** Left padding with zeros up to [n] characters. *)
Definition pad_zeros (n : nat) (m : string) : string :=
  String.concat "" (repeat "0" (n - String.length m)) +:+ m.

(** The digits of [toFixed]: the integer [n] written with [f] digits after
    the point, behind the sign. *)
Definition fixed_digits (f : nat) (negative : bool) (n : Z) : string :=
  let m := if f is O then string_of_Z n else pad_zeros (f + 1) (string_of_Z n) in
  let k := String.length m in
  (if negative then "-" else "") +:+
  (if f is O then m
   else substring 0 (k - f) m +:+ "." +:+ substring (k - f) f m).

(** [x.toFixed(f)] below [10^21]: the sign is taken off, and [n] is the
    integer nearest to [x * 10^f], the larger one of two. *)
Definition toFixed (f : nat) (x : Q) : string :=
  fixed_digits f (Qnum x <? 0)%Z
    (Qfloor (Qabs x * inject_Z (10 ^ Z.of_nat f) + (1 # 2))%Q).

(** [(total / count).toFixed(f)]; with no sample it is [0 / 0], [NaN]. *)
Definition toFixed_mean (rnd : Q -> Q) (f : nat) (total : Q) (count : nat) : string :=
  if count is O then "NaN"
  else toFixed f (rnd (total / inject_Z (Z.of_nat count))%Q).

(** The loop of [printResults] over [this.results]. *)
Record acc := {
  a_secTotal : Q;
  a_msTotal : Q;
  a_count : nat;
  a_rows : gmap string row;
  a_prevName : string
}.

Definition row_name (name prev : string) : string :=
  let name :=
    if negb (String.eqb name "") && String.prefix "function" name then ""
    else if negb (String.eqb name "") && String.prefix "Unnamed timer" name then ""
    else if String.eqb name prev then ""
    else name in
  if String.eqb name "" then name else " " +:+ name.

Definition add_result (rnd : Q -> Q) (a : acc) (i : nat) (r : sample) : acc :=
  let name := row_name (s_name r) (a_prevName a) in
  let time := s_time r in
  {| a_secTotal := rnd (a_secTotal a + rnd (time / 1000))%Q;
     a_msTotal := rnd (a_msTotal a + time)%Q;
     a_count := S (a_count a);
     a_rows := <[string_of_nat i +:+ name :=
                   {| ms := toFixed 2 time; s := toFixed 6 (rnd (time / 1000)%Q) |}]>
                 (a_rows a);
     a_prevName := name |}.

Fixpoint add_results (rnd : Q -> Q) (a : acc) (i : nat) (rs : list sample) : acc :=
  match rs with
  | [] => a
  | r :: rs' => add_results rnd (add_result rnd a i r) (Datatypes.S i) rs'
  end.

(** The rows of the report and the last [prevName], for an instance whose
    [currentName] is already updated. *)
Definition report (rnd : Q -> Q) (p : t) : acc :=
  let a := add_results rnd {| a_secTotal := 0; a_msTotal := 0; a_count := 0;
                              a_rows := ∅; a_prevName := prevName p |} 0 (results p) in
  let msAverg := toFixed_mean rnd 2 (a_msTotal a) (a_count a) in
  let secAverg := toFixed_mean rnd 6 (a_secTotal a) (a_count a) in
  {| a_secTotal := a_secTotal a; a_msTotal := a_msTotal a; a_count := a_count a;
     a_rows := <["avrg" := {| ms := msAverg; s := secAverg |}]>
                 (<["total" := {| ms := toFixed 2 (a_msTotal a);
                                  s := toFixed 6 (a_secTotal a) |}]> (a_rows a));
     a_prevName := a_prevName a |}.

(** [printResults(name)]: the table and the text block show the same rows. *)
Definition printResults (name : option string) : M state unit :=
  on_this (fun p => set_currentName (name_or name (currentName p)) p) ;;;
  st <~ get ;;
  let a := report (fl st.2) st.1 in
  on_this (set_prevName (a_prevName a)) ;;;
  on_world (log (Report (useTable st.1) (initName st.1) (a_rows a))).

(** [print == 'elapsed']: a string is compared as it is and an object by
    what it converts to (the conversion is taken to return); no other value
    equals that string. *)
Definition is_elapsed (w : world) (print : value) : bool :=
  match print with
  | VStr s => String.eqb s "elapsed"
  | VObj l => converts_to_elapsed w l
  | _ => false
  end.

(** [stop(print)]. *)
Definition stop (print : value) : M state unit :=
  now <~ currentTime ;;
  on_this (set_stopTime now) ;;;
  on_this (set_running false) ;;;
  a <~ active VUndefined ;;
  if truthy a then
    st <~ get ;;
    on_this (push_result {| s_name := currentName st.1;
                            s_time := fl st.2 (stopTime st.1 - startTime st.1)%Q |}) ;;;
    if is_elapsed st.2 print then printElapsed None
    else if truthy print then printResults None
    else ret tt
  else ret tt.

(** [start(name)]. *)
Definition start (name : option string) : M state unit :=
  a <~ active VUndefined ;;
  if negb (truthy a) then ret tt
  else
    st <~ get ;;
    (if running st.1 then stop VUndefined else ret tt) ;;;
    on_this (fun p => set_currentName (name_or name (currentName p)) p) ;;;
    now <~ currentTime ;;
    on_this (set_startTime now) ;;;
    on_this (set_running true).

(** The [prototype] property of a function: an arrow function, a method or
    a bound function has none; otherwise it is an object, whose [name] may
    be set. *)
Inductive prototype_of :=
  | NoPrototype
  | Prototype (name : option string).

(** A function given to the constructor: what [_initPrototype] reads of it
    ([name], [prototype.name], [toString()]) and what calling it does to
    the world. *)
Record callable := {
  fn_name : string;
  fn_prototype : prototype_of;
  fn_toString : string;
  fn_call : M world value
}.

(** The constructor's [options]; a field left out is undefined. *)
Record options := {
  o_name : option string;
  o_group : value;
  o_active : value;
  o_performance : value;
  o_table : value
}.

Definition only_name (n : option string) : options :=
  {| o_name := n; o_group := VUndefined; o_active := VUndefined;
     o_performance := VUndefined; o_table := VUndefined |}.

Definition with_name (n : option string) (o : options) : options :=
  {| o_name := n; o_group := o_group o; o_active := o_active o;
     o_performance := o_performance o; o_table := o_table o |}.

(** The first argument: nothing, a string (timer mode) or a function. *)
Inductive target :=
  | NoTarget
  | TimerName (n : string)
  | Function (f : callable).

(** The second argument: nothing, a name or the options object. *)
Inductive name_arg :=
  | NoName
  | Name (n : string)
  | Options (o : options).

(** What [new Profiler(...)] evaluates to: the instance, the wrapper made by
    [decorate] (its [profiler] property is the instance), or the function
    that was passed in. *)
Inductive returned :=
  | Instance (p : t)
  | Wrapper (p : t) (f : callable)
  | Original (f : callable).

(** [decorate(objectToTime)]: the wrapper holds the instance by reference,
    so it is made here of the instance as it is when the constructor
    returns. *)
Definition decorate (p : t) (objectToTime : callable) : returned :=
  Wrapper p objectToTime.

(** Running a world computation inside a method. *)
Definition in_world {A} (m : M world A) : M state A :=
  fun st => let '(r, w) := m st.2 in (r, (st.1, w)).

(** [objectToTime.toString().slice(0,40).split('{')[0]]. *)
Definition source_head (src : string) : string :=
  default "" (LogLocation.split_on "{"%char (substring 0 40 src) !! 0%nat).

(** [objectToTime.name || objectToTime.prototype.name ||
    objectToTime.toString().slice(0,40).split('{')[0]]: without a name,
    reading [prototype.name] of a function that has no prototype throws. *)
Definition name_of (f : callable) : result string :=
  if negb (String.eqb (fn_name f) "") then Ok (fn_name f)
  else match fn_prototype f with
       | NoPrototype => Throw (TypeError "Cannot read property 'name' of undefined")
       | Prototype (Some n) =>
           Ok (if String.eqb n "" then source_head (fn_toString f) else n)
       | Prototype None => Ok (source_head (fn_toString f))
       end.

Definition _initPrototype (objectToTime : option callable) : M state returned :=
  st <~ get ;;
  (if String.eqb (currentName st.1) "" then
     match objectToTime with
     | Some f =>
         match name_of f with
         | Ok n => on_this (set_currentName n)
         | Throw e => throw e
         end
     | None => on_this (set_currentName "Unnamed timer")
     end
   else ret tt) ;;;
  on_this (fun p =>
    if String.prefix "function" (currentName p)
    then set_currentName ("unnamed " +:+ currentName p) p else p) ;;;
  decorated <~ match objectToTime with
               | Some f => a <~ active VUndefined ;; ret (truthy a)
               | None => ret false
               end ;;
  on_this (fun p => set_initName (currentName p) (set_prevName (currentName p) p)) ;;;
  st <~ get ;;
  ret match objectToTime with
      | Some f => if decorated then decorate st.1 f else Original f
      | None => Instance st.1
      end.

(** The [options] the constructor works with, after its first lines. *)
Definition resolve_options (objectToTime : target) (name : name_arg)
    (opts : option options) : options :=
  let options :=
    match name with
    | Options o => o
    | Name n => default (only_name (Some n)) opts
    | NoName => default (only_name None) opts
    end in
  match objectToTime with
  | TimerName n => with_name (Some n) options
  | _ => options
  end.

(** [new Profiler(objectToTime, name, options)]. *)
Definition new (objectToTime : target) (name : name_arg) (opts : option options)
  : M world returned :=
  fun w =>
    let options := resolve_options objectToTime name opts in
    let table := if loosely_undefined (o_table options) then VBool true
                 else o_table options in
    let n := default "" (o_name options) in
    let this :=
      {| startTime := 0; stopTime := 0; running := false;
         currentName := n; prevName := n; initName := n;
         _group := "global"; _active := true; results := [];
         performance := if bool_decide (o_performance options = VBool false)
                        then false else has_performance w;
         useTable := has_console_table w && truthy table && negb (ua_msie_edge w) |} in
    let '(r, st) :=
      (group (o_group options) ;;;
       active (o_active options) ;;;
       _initPrototype match objectToTime with Function f => Some f | _ => None end)
        (this, w) in
    (r, st.2).

(** [profileWrapper], the function [decorate] makes: the call is timed on
    the wrapper's instance and the report printed. *)
Definition profileWrapper (objectToTime : callable) : M state value :=
  start None ;;;
  retVal <~ in_world (fn_call objectToTime) ;;
  stop (VStr "results") ;;;
  ret retVal.

(** Calling what the constructor returned: a wrapper runs [profileWrapper]
    on its instance, the original function is just run. *)
Definition invoke (r : returned) : M world (value * returned) :=
  match r with
  | Wrapper p f =>
      fun w =>
        let '(res, st) := profileWrapper f (p, w) in
        (match res with
         | Ok v => Ok (v, Wrapper st.1 f)
         | Throw e => Throw e
         end, st.2)
  | Original f => v <~ fn_call f ;; ret (v, Original f)
  | Instance _ => throw (TypeError "not a function")
  end.

(** The instance reachable from what the constructor returned: the value
    itself in timer mode, the [profiler] property of a wrapper. *)
Definition profiler (r : returned) : option t :=
  match r with
  | Instance p | Wrapper p _ => Some p
  | Original _ => None
  end.

(** What [active()] returns for an instance in a world. *)
Definition effective (p : t) (w : world) : value :=
  js_and (VBool (_active p)) (groups_get w (_group p)).

(** For an instance made with [options] in the world [w]: the world that
    [this.group(options.group)] leaves, and the flag of the instance's
    group in it. *)
Definition world_after_group (o : options) (w : world) : world :=
  match o_group o with
  | VStr g => assign_flag g (declared w g) w
  | _ => w
  end.

Definition flag_at_construction (o : options) (w : world) : value :=
  match o_group o with
  | VStr g => declared w g
  | _ => groups_get w "global"
  end.

(** The state after the script is loaded: [Profiler.groups = {global:true}],
    an object literal, which inherits the built-ins of [Object.prototype];
    [console.info(navigator.userAgent)] has been called; no object that
    converts to a string is known. *)
Definition loaded (perf table ua : bool) (pnow dnow : nat -> Q) (rnd : Q -> Q)
  : world :=
  {| groups := {["global" := VBool true]}; inherited := builtins_at 1000;
     object_chain := fun _ => ∅; converts_to_elapsed := fun _ => false;
     has_performance := perf;
     has_console_table := table; ua_msie_edge := ua;
     performance_now := pnow; date_getTime := dnow; ticks := 0; fl := rnd;
     console := [UserAgentInfo] |}.

End Profiler.

(** * Inputs and runs the properties are checked on *)

Section DebuggerRuns.
Import Debugger.

(** After the script is loaded without [window.iDebugMode], one object is
    registered under the key [a], switched on. *)
Definition w_registered : world :=
  (Debugger.new {["a" := 0%nat]} (VBool true) (loaded VUndefined ["log"; "warn"])).2.

(** Then the global flag is switched on. *)
Definition w_global_on : world := (global (VBool true) w_registered).2.

(** The other way round: loaded with [window.iDebugMode = true], the object
    registered switched on, then switched off by key. *)
Definition w_switched_off : world :=
  let '(d, w) := Debugger.new {["a" := 0%nat]} (VBool true)
                   (loaded (VBool true) ["log"; "warn"]) in
  match d with
  | Ok d => (off d (Some "a") w).2
  | Throw _ => w
  end.

End DebuggerRuns.

Section LogLocationRuns.
Import LogLocation.

(** An error object that carries nothing: no trace and none of the
    location properties some engines add. *)
Definition bare_error : error :=
  {| e_stack := None; e_url := VUndefined; e_line := VUndefined;
     e_lineNumber := VUndefined; e_column := VUndefined |}.

End LogLocationRuns.

Section ProfilerRuns.
Import Profiler.

(** A clock that reads 0, 1, 2, ... milliseconds. *)
Definition counting_clock (i : nat) : Q := inject_Z (Z.of_nat i).

(** The world after loading, on a platform with [window.performance] and
    [console.table], and with exact arithmetic (the rounding that changes
    nothing). *)
Definition w_loaded : world :=
  loaded true true false counting_clock counting_clock (fun x => x).

(** A stop-watch as [new Profiler('t')] leaves it. *)
Definition stopwatch : t :=
  {| startTime := 0; stopTime := 0; running := false;
     currentName := "t"; prevName := "t"; initName := "t";
     _group := "global"; _active := true; results := [];
     performance := true; useTable := true |}.

(** [new Profiler('t', {group: 'g1'})] right after loading. *)
Definition made_in_g1 : result returned * world :=
  Profiler.new (TimerName "t")
    (Options {| o_name := None; o_group := VStr "g1"; o_active := VUndefined;
                o_performance := VUndefined; o_table := VUndefined |})
    None w_loaded.

(** The stop-watch with three segments recorded: 10, 20 and 30 ms. *)
Definition with_samples_10_20_30 : t :=
  {| startTime := 30; stopTime := 60; running := false;
     currentName := "t"; prevName := "t"; initName := "t";
     _group := "global"; _active := true;
     results := [ {| s_name := "load"; s_time := 10 |};
                  {| s_name := "load"; s_time := 20 |};
                  {| s_name := "draw"; s_time := 30 |} ];
     performance := true; useTable := true |}.

(** A platform without [window.performance], whose wall clock reads 5 and
    is then set back to 3. *)
Definition w_clock_set_back : world :=
  loaded false true false counting_clock (fun i => if i is O then 5%Q else 3%Q)
    (fun x => x).

(** [{active: false}]. *)
Definition inactive_options : options :=
  {| o_name := None; o_group := VUndefined; o_active := VBool false;
     o_performance := VUndefined; o_table := VUndefined |}.

(** A function to decorate. *)
Definition functionA : callable :=
  {| fn_name := "functionA"; fn_prototype := Prototype None;
     fn_toString := "function functionA(){ }"; fn_call := ret VUndefined |}.

(** The five rows of the report on samples of 10, 20 and 30 ms. *)
Definition rows_10_20_30 : list row :=
  [ {| ms := "10.00"; s := "0.010000" |};
    {| ms := "20.00"; s := "0.020000" |};
    {| ms := "30.00"; s := "0.030000" |};
    {| ms := "60.00"; s := "0.060000" |};
    {| ms := "20.00"; s := "0.020000" |} ].

End ProfilerRuns.

(** * Scripts: sequences of calls, traces, reports *)

(** ** Sequences of calls on the Debugger *)

Module DebuggerCalls.
Import Debugger.

(** A call that sets or reads a flag: [global(state)] on the prototype, or
    [setState(state, key)] ([on], [off]) on some Debugger. *)
Inductive flag_call :=
  | CallGlobal (state : value)
  | CallSetState (d : t) (state : value) (key : option string).

(** The world a call leaves, whether it returned or threw. *)
Definition after_call (w : world) (c : flag_call) : world :=
  match c with
  | CallGlobal st => (global st w).2
  | CallSetState d st key => (setState d st key w).2
  end.

Definition after_calls (cs : list flag_call) (w : world) : world :=
  foldl after_call w cs.

(** What [debug.call(obj, level)] returns when it returns: the function
    chosen by the global flag [g], the object's flag [dbg] and the presence
    of a view. *)
Definition made_entry (g dbg : value) (v : bool) (level : option string) : entry :=
  let lvl := match level with
             | Some f => if String.eqb f "" then "log" else f
             | None => "log"
             end in
  if negb (truthy g) || negb (truthy dbg) then ENoop
  else if v then EView lvl
  else EConsole lvl match level with Some f => [VStr f] | None => [] end.

(** When [debug] cannot throw for any level that [init] asks for: the gate
    is closed, or there is a view, or [console.log] exists. *)
Definition can_bind (w : world) (st : value) : Prop :=
  truthy (globalDebug w) = false \/ truthy st = false \/ view w = true \/
  "log" ∈ console_fns w.

(** The events calling an entry point with [args] emits. *)
Definition events_of (e : entry) (args : list value) : list event :=
  match e with
  | ENoop => []
  | EView level => [ViewOutput level args]
  | EConsole level bound => [ConsoleCall level bound args]
  end.

(** [init] warns when the state is neither truthy nor [false]. *)
Definition state_missing (st : value) : bool :=
  negb (truthy st) && negb (bool_decide (st = VBool false)).

(** When [init] gets past its first line: the warning about a missing state
    is a call of [console.log]. *)
Definition can_warn (w : world) (st : value) : Prop :=
  state_missing st = true -> "log" ∈ console_fns w.

(** Names that a function object holds or inherits in a way an assignment
    does not quietly override: [name] and [length] are read-only, and
    [arguments], [caller] and [__proto__] are taken by accessors. *)
Definition function_props : list string :=
  ["name"; "length"; "arguments"; "caller"; "__proto__"].

(** A console none of whose functions bears such a name, so that
    [obj.debug[f] = ...] hangs every one of them on [obj.debug]. *)
Definition plain_console (fns : list string) : Prop :=
  Forall (fun f => f ∉ function_props) fns.

(** When [init] returns. *)
Definition can_init (w : world) (st : value) : Prop :=
  can_warn w st /\ can_bind w st /\ plain_console (console_fns w).

(** How a call of an entry point ends: a view-bound one as [view.output]
    does, the others return. *)
Definition outcome_of (w : world) (e : entry) (args : list value) : result unit :=
  match e with
  | EView level => view_output w level args
  | _ => Ok tt
  end.

(** The events a call of an entry point adds to those emitted before. *)
Definition added_by_call (w : world) (obj : loc) (level : option string)
    (args : list value) : list event :=
  drop (length (emitted w)) (emitted (call_debug obj level args w).2).

(** The state of the loop over the levels, after the levels [pre]. *)
Definition levels_hung (w : world) (obj : loc) (st : value) (e0 : entry)
    (pre : list string) (s : world) : Prop :=
  globalDebug s = globalDebug w /\ view s = view w /\
  console_fns s = console_fns w /\ emitted s = emitted w /\
  allDebuggers s = (allDebuggers w ++ [obj])%list /\
  (forall l, l ≠ obj -> heap s l = heap w l) /\
  _debug (heap s obj) = st /\
  debug_fn (heap s obj) = Some e0 /\
  (forall f, f ∈ pre ->
     debug_levels (heap s obj) !! f
     = Some (made_entry (globalDebug w) st (view w) (Some f))) /\
  (forall f, f ∉ pre -> debug_levels (heap s obj) !! f = None) /\
  view_output s = view_output w.

(** The state of the loop of [init] over the objects, after the pairs
    [pre] of all the pairs [all]. *)
Definition objects_done (w : world) (st : value) (all pre : list (string * loc))
    (s : world) : Prop :=
  globalDebug s = globalDebug w /\ view s = view w /\
  console_fns s = console_fns w /\
  emitted s = (emitted w ++ if state_missing st then [MissingStateWarning] else [])%list /\
  allDebuggers s = (allDebuggers w ++ pre.*2)%list /\
  (forall l, l ∉ all.*2 -> heap s l = heap w l) /\
  (forall l, l ∈ all.*2 -> _debug (heap s l) = st) /\
  (forall l, l ∈ pre.*2 ->
     debug_fn (heap s l) = Some (made_entry (globalDebug w) st (view w) None) /\
     (forall f, f ∈ console_fns w ->
        debug_levels (heap s l) !! f
        = Some (made_entry (globalDebug w) st (view w) (Some f))) /\
     (forall f, f ∉ console_fns w -> debug_levels (heap s l) !! f = None)) /\
  view_output s = view_output w.

End DebuggerCalls.

(** ** Text of frames and traces *)

Module Frames.
Import LogLocation.

(** Whether the character occurs in the string. *)
Fixpoint has_char (c : ascii) (s : string) : bool :=
  match s with
  | EmptyString => false
  | String a s' => Ascii.eqb a c || has_char c s'
  end.

(** A piece of a frame's last segment: not empty, and free of the
    characters the parser splits on or removes. *)
Definition plain (s : string) : bool :=
  negb (String.eqb s "") &&
  negb (has_char "/"%char s) && negb (has_char ":"%char s) &&
  negb (has_char "("%char s) && negb (has_char ")"%char s) &&
  negb (has_char "010"%char s).

(** A frame as V8 prints it once the directory is known:
    [dir/file:line:col)]. *)
Definition frame (dir file line col : string) : string :=
  dir +:+ "/" +:+ file +:+ ":" +:+ line +:+ ":" +:+ col +:+ ")".

(** The trace made of the given lines. *)
Definition trace (lines : list string) : string := join (String "010"%char "") lines.

(** The frames [getStack] drops for a depth offset. *)
Definition dropped (offset : option Z) : Z := (baseIndex + default 0 offset)%Z.

End Frames.

(** ** Scripts over a Profiler instance *)

Module ProfilerCalls.
Import Profiler.

(** What a script does with an instance once it is made: it calls the
    methods of the prototype, and it assigns to [Profiler.groups[k]]. *)
Inductive call :=
  | Start (name : option string)
  | Stop (print : value)
  | Group (overide : value)
  | Active (overide : value)
  | PrintElapsed (name : option string)
  | PrintResults (name : option string)
  | SetFlag (k : string) (v : value).

(** The state a call leaves, whether it returned or threw. *)
Definition run_call (st : state) (c : call) : state :=
  match c with
  | Start n => (start n st).2
  | Stop print => (stop print st).2
  | Group v => (group v st).2
  | Active v => (active v st).2
  | PrintElapsed n => (printElapsed n st).2
  | PrintResults n => (printResults n st).2
  | SetFlag k v => (st.1, assign_flag k v st.2)
  end.

Definition run_calls (st : state) (cs : list call) : state := foldl run_call st cs.

(** The calls that have a [results.push] on their path. *)
Definition may_record (c : call) : bool :=
  match c with
  | Start _ | Stop _ => true
  | _ => false
  end.

(** A sample name that the loop of [printResults] can only put behind a
    space: not empty, not one of the generic names, and not itself
    beginning with a space. *)
Definition shown (n : string) : bool :=
  negb (String.eqb n "") && negb (String.prefix "function" n) &&
  negb (String.prefix "Unnamed timer" n) && negb (String.prefix " " n).

(** The labels the loop of [printResults] gives to the samples, in order,
    from the [prevName] it starts with. *)
Fixpoint labels (prev : string) (rs : list sample) : list string :=
  match rs with
  | [] => []
  | r :: rs' => row_name (s_name r) prev :: labels (row_name (s_name r) prev) rs'
  end.

(** The name [_initPrototype] settles on before it looks for [function] in
    front: the current name if there is one, else the function's, else
    [Unnamed timer] for a stop-watch. *)
Definition first_name (objectToTime : option callable) (p : t) : result string :=
  if String.eqb (currentName p) "" then
    match objectToTime with
    | Some f => name_of f
    | None => Ok "Unnamed timer"
    end
  else Ok (currentName p).

(** A function the constructor can name: a name is given in the options,
    or the function has a name, or it has a prototype to look for one. *)
Definition can_be_named (o : options) (f : callable) : Prop :=
  default "" (o_name o) ≠ "" \/ fn_name f ≠ "" \/ fn_prototype f ≠ NoPrototype.



(** The name the constructor leaves on a stop-watch made with the name [n]. *)
Definition timer_name (n : string) : string :=
  if String.eqb n "" then "Unnamed timer"
  else if String.prefix "function" n then "unnamed " +:+ n
  else n.

(** The group an instance made with [o] is in. *)
Definition group_of (o : options) : string :=
  match o_group o with
  | VStr g => g
  | _ => "global"
  end.

(** The row [printResults] makes of one sample. *)
Definition row_of (rnd : Q -> Q) (r : sample) : row :=
  {| ms := toFixed 2 (s_time r); s := toFixed 6 (rnd (s_time r / 1000)%Q) |}.

(** [i + name] in the loop of [printResults]: the index, then the label. *)
Definition row_key (i : nat) (label : string) : string := string_of_nat i +:+ label.

(** A label is empty or begins with the space put before the name. *)
Definition is_label (l : string) : Prop := l = "" \/ exists n, l = " " +:+ n.

Definition digit (c : ascii) : bool :=
  (48 <=? nat_of_ascii c)%nat && (nat_of_ascii c <=? 57)%nat.

Fixpoint all_digits (s : string) : bool :=
  match s with
  | EmptyString => true
  | String c s' => digit c && all_digits s'
  end.

(** What a method leaves in place: the instance's switches and the platform. *)
Definition same_setup (st st' : state) : Prop :=
  _active st'.1 = _active st.1 /\ _group st'.1 = _group st.1 /\
  performance st'.1 = performance st.1 /\
  groups st'.2 = groups st.2 /\ inherited st'.2 = inherited st.2 /\
  fl st'.2 = fl st.2 /\
  has_performance st'.2 = has_performance st.2 /\
  performance_now st'.2 = performance_now st.2 /\
  date_getTime st'.2 = date_getTime st.2.

(** A function that throws when it is called. *)
Definition failing : callable :=
  {| fn_name := "failing"; fn_prototype := Prototype None;
     fn_toString := "function failing(){ throw 'no' }";
     fn_call := throw (Thrown "no") |}.

End ProfilerCalls.

(** * Properties *)

(** ** Debugger *)

Section DebuggerFacts.
Import Debugger.




Lemma for_each_assign (st : value) (xs : list (string * loc)) (w : world) :
  for_each xs (fun kl => assign_debug kl.2 st) w =
    (Ok tt, set_heap (foldl (fun h kl => update_obj kl.2 (with_debug st) h)
                        (heap w) xs) w).
Proof.
  revert w. induction xs as [|[k l] xs IH]; intros w.
  - by destruct w.
  - cbn. unfold bind, assign_debug, modify at 1. by rewrite IH.
Qed.

Lemma foldl_assign_debug (st : value) (xs : list (string * loc)) (h : loc -> dobj)
    (l : loc) :
  _debug (foldl (fun h kl => update_obj kl.2 (with_debug st) h) h xs l)
  = if bool_decide (l ∈ xs.*2) then st else _debug (h l).
Proof.
  revert h. induction xs as [|[k l'] xs IH]; intros h; cbn.
  - rewrite bool_decide_eq_false_2; [done | apply not_elem_of_nil].
  - rewrite IH. destruct (decide (l ∈ xs.*2)) as [Hin|Hout].
    + rewrite !bool_decide_eq_true_2; [done | by apply list_elem_of_further | done].
    + rewrite (bool_decide_eq_false_2 (l ∈ xs.*2)) by done.
      unfold update_obj. destruct (decide (l = l')) as [->|Hne].
      * rewrite bool_decide_eq_true_2; [done | apply list_elem_of_here].
      * rewrite bool_decide_eq_false_2; [done|].
        by apply not_elem_of_cons.
Qed.

Lemma foldl_assign_in (st : value) (xs : list (string * loc)) (h : loc -> dobj) (l : loc) :
  l ∈ xs.*2 ->
  _debug (foldl (fun h kl => update_obj kl.2 (with_debug st) h) h xs l) = st.
Proof. intros Hin. rewrite foldl_assign_debug. by rewrite bool_decide_eq_true_2. Qed.

Lemma foldl_assign_out (st : value) (xs : list (string * loc)) (h : loc -> dobj) (l : loc) :
  l ∉ xs.*2 ->
  foldl (fun h kl => update_obj kl.2 (with_debug st) h) h xs l = h l.
Proof.
  revert h. induction xs as [|[k l'] xs IH]; intros h Hout; [done|].
  cbn in *. apply not_elem_of_cons in Hout as [Hne Hout].
  rewrite IH by done. unfold update_obj. by destruct (decide (l = l')).
Qed.


(** C1, at a concrete run.  The gate is read when [init] makes the entry
    points, not when they are called: an entry point made while the global
    flag was off stays silent after [global(true)], although both flags are
    then on; and one made while both flags were on still writes to the
    console after [off("a")]. *)
Theorem debug_gate_is_read_at_init :
  (truthy (globalDebug w_global_on) = true /\
   truthy (_debug (heap w_global_on 0%nat)) = true /\
   (call_debug 0%nat None [VStr "hello"] w_global_on).1 = Ok tt /\
   emitted (call_debug 0%nat None [VStr "hello"] w_global_on).2 = []) /\
  (truthy (_debug (heap w_switched_off 0%nat)) = false /\
   emitted w_switched_off = [] /\
   emitted (call_debug 0%nat None [VStr "hello"] w_switched_off).2 =
     [ConsoleCall "log" [] [VStr "hello"]]).
Proof. vm_compute. repeat split. Qed.

(** C3: [global(state)] with a truthy [state] stores it, so that a later
    read returns it; with a falsy [state], [false] and a missing argument
    among them, it changes nothing and returns the current flag. *)
Theorem global_writes_only_truthy (st : value) (w : world) :
  (truthy st = true ->
     globalDebug (global st w).2 = st /\
     (global VUndefined (global st w).2).1 = Ok st) /\
  (truthy st = false -> global st w = (Ok (globalDebug w), w)) /\
  global (VBool false) w = (Ok (globalDebug w), w) /\
  global VUndefined w = (Ok (globalDebug w), w).
Proof.
  unfold global, bind, modify, get, ret. repeat split.
  - by rewrite H.
  - by rewrite H.
  - by intros ->.
Qed.

Lemma global_writes_only_truthy_witness :
  (globalDebug (global (VStr "yes") (loaded VUndefined ["log"])).2 = VStr "yes" /\
   (global VUndefined (global (VStr "yes") (loaded VUndefined ["log"])).2).1
     = Ok (VStr "yes")) /\
  global (VNum 0) (loaded (VBool true) ["log"])
    = (Ok (VBool true), loaded (VBool true) ["log"]).
Proof.
  split.
  - apply (proj1 (global_writes_only_truthy (VStr "yes") (loaded VUndefined ["log"]))).
    reflexivity.
  - apply (proj1 (proj2 (global_writes_only_truthy (VNum 0)
                           (loaded (VBool true) ["log"])))).
    reflexivity.
Defined.







End DebuggerFacts.

(** ** LogLocation *)

Section LogLocationFacts.
Import LogLocation.

Lemma js_slice_past_end {A} (k : Z) (l : list A) :
  (Z.of_nat (length l) <= k)%Z -> js_slice k l = [].
Proof.
  intros Hk. unfold js_slice.
  destruct (Z.ltb_spec k 0); [lia|].
  rewrite Z.min_r by lia. rewrite Nat2Z.id. apply drop_all.
Qed.

(** With an empty trace and the default depth (or one frame less), the
    fallback finds only [getStack] itself, which the second slice drops. *)
Lemma getStack_empty_trace (e : error) (offset : option Z) :
  default "" (e_stack e) = "" -> (-1 <= default 0 offset)%Z ->
  getStack e offset = [].
Proof.
  intros Hs Ho. unfold getStack, baseIndex. rewrite Hs. simpl split_on.
  rewrite (js_slice_past_end (4 + default 0 offset)%Z [""]) by (simpl; lia).
  simpl. apply js_slice_past_end. simpl. lia.
Qed.

(** C5, as the code has it.  When the trace is empty, the depth offset is
    at least -1 and neither the options nor the error give a url, the
    constructor returns: the stack is the empty list, url and file are "?",
    the path is empty, the line is the first truthy one of [options.line],
    [e.line], [e.lineNumber] and "?", and the column is [e.column] if
    truthy and the empty string otherwise (not "?"); with no line and no
    column known, the location reads "(?:?:)". *)
Theorem empty_trace_location (opts : options) (e : error) :
  default "" (e_stack e) = "" ->
  (-1 <= default 0 (o_offset opts))%Z ->
  truthy (o_url opts) = false -> truthy (e_url e) = false ->
  exists r,
    new opts e = Ok r /\
    stack r = [] /\ url r = VStr "?" /\ file r = VStr "?" /\ path r = "" /\
    line r = js_or (js_or (js_or (o_line opts) (e_line e)) (e_lineNumber e)) (VStr "?") /\
    col r = js_or (e_column e) (VStr "") /\
    (truthy (o_line opts) = false -> truthy (e_line e) = false ->
     truthy (e_lineNumber e) = false -> truthy (e_column e) = false ->
     line r = VStr "?" /\ col r = VStr "" /\ toString r = "(?:?:)").
Proof.
  intros Hs Ho Hu He. unfold new, init. rewrite (getStack_empty_trace e _ Hs Ho).
  assert (Hurl : js_or (js_or (js_or (o_url opts) (e_url e))
                          (of_option (@nil string !! 0%nat))) (VStr "?") = VStr "?").
  { unfold js_or. by rewrite Hu, He. }
  rewrite Hurl. cbn [locFromUrl]. vm_compute (split_on _ "?"). cbn.
  assert (Hline : js_or (js_or (o_line opts) VUndefined) (e_line e)
                  = js_or (o_line opts) (e_line e)).
  { unfold js_or. by destruct (truthy (o_line opts)) eqn:E; rewrite ?E. }
  rewrite Hline.
  eexists. split; [reflexivity|]. cbn. split_and!; try reflexivity.
  intros H1 H2 H3 H4. unfold toString, js_or. cbn.
  rewrite H1, H2, H3, H4. by cbn.
Qed.

Lemma empty_trace_location_witness :
  exists r,
    new no_options bare_error = Ok r /\
    stack r = [] /\ url r = VStr "?" /\ file r = VStr "?" /\ path r = "" /\
    line r = VStr "?" /\ col r = VStr "" /\ toString r = "(?:?:)".
Proof.
  destruct (empty_trace_location no_options bare_error)
    as (r & Hr & Hst & Hu & Hf & Hp & _ & _ & Hrest);
    [reflexivity | simpl; lia | reflexivity | reflexivity |].
  destruct Hrest as (Hl & Hc & Hs); [reflexivity ..|].
  exists r. repeat split; assumption.
Defined.

(** C5 as stated fails for the column and the stack: with nothing
    resolvable the column is the empty string and the stack the empty
    list, neither is "?". *)
Lemma empty_trace_column_counterexample :
  exists r,
    new no_options bare_error = Ok r /\
    col r = VStr "" /\ col r ≠ VStr "?" /\ stack r = [] /\ line r = VStr "?".
Proof.
  eexists. split; [by vm_compute|]. simpl. repeat split. discriminate.
Qed.

End LogLocationFacts.

(** ** Profiler *)

Section ProfilerFacts.
Import Profiler ProfilerCalls.

Ltac run :=
  repeat (unfold bind, ret, get, modify, throw, on_this, on_world, in_world; cbn).

Lemma declared_defined (w : world) (k : string) : declared w k ≠ VUndefined.
Proof. unfold declared. by destruct (groups_get w k). Qed.

Lemma group_read (p : t) (w : world) :
  group VUndefined (p, w) = (Ok (_group p), (p, w)).
Proof. reflexivity. Qed.

(** In [group] the setter of [__proto__] can only be given the prototype
    itself, or [true]: it changes nothing. *)
Lemma assign_declared_setter (w : world) (k : string) :
  meets_setter w k = true -> assign_flag k (declared w k) w = w.
Proof.
  intros Hs. unfold assign_flag. rewrite Hs.
  unfold meets_setter in Hs.
  apply andb_prop in Hs as [Hs Hi]. apply andb_prop in Hs as [_ Ho].
  apply bool_decide_eq_true in Ho, Hi. destruct Hi as [l Hl].
  unfold declared, groups_get. rewrite Ho, Hl. cbn.
  by rewrite bool_decide_eq_true_2.
Qed.

Lemma assign_declared_own (w : world) (k : string) :
  meets_setter w k = false ->
  assign_flag k (declared w k) w = set_groups (<[k := declared w k]> (groups w)) w.
Proof. intros Hs. unfold assign_flag. by rewrite Hs. Qed.

Lemma groups_get_own (w : world) (g : gmap string value) (k : string) (v : value) :
  groups_get (set_groups (<[k := v]> g) w) k = v.
Proof. unfold groups_get. cbn. by rewrite lookup_insert_eq. Qed.

Lemma groups_get_other (w : world) (k k' : string) (v : value) :
  k' ≠ k -> groups_get (set_groups (<[k := v]> (groups w)) w) k' = groups_get w k'.
Proof. intros Hk. unfold groups_get. cbn. by rewrite lookup_insert_ne. Qed.

(** After the assignment in [group], the registry reads the flag it was
    given or the one it had, own or inherited. *)
Lemma assign_declared_get (w : world) (k : string) :
  groups_get (assign_flag k (declared w k) w) k = declared w k.
Proof.
  destruct (meets_setter w k) eqn:Hs.
  - rewrite assign_declared_setter by done.
    unfold meets_setter in Hs.
    apply andb_prop in Hs as [Hs Hi]. apply andb_prop in Hs as [_ Ho].
    apply bool_decide_eq_true in Ho, Hi. destruct Hi as [l Hl].
    unfold declared, groups_get. by rewrite Ho, Hl.
  - rewrite assign_declared_own by done. apply groups_get_own.
Qed.

Lemma assign_declared_other (w : world) (k k' : string) :
  k' ≠ k -> groups_get (assign_flag k (declared w k) w) k' = groups_get w k'.
Proof.
  intros Hk. destruct (meets_setter w k) eqn:Hs.
  - by rewrite assign_declared_setter.
  - rewrite assign_declared_own by done. by apply groups_get_other.
Qed.

(** The assignment in [group] touches the registry only. *)
Lemma assign_flag_frame (w : world) (k : string) (v : value) :
  console (assign_flag k v w) = console w /\ ticks (assign_flag k v w) = ticks w /\
  fl (assign_flag k v w) = fl w /\
  has_performance (assign_flag k v w) = has_performance w /\
  performance_now (assign_flag k v w) = performance_now w /\
  date_getTime (assign_flag k v w) = date_getTime w /\
  has_console_table (assign_flag k v w) = has_console_table w /\
  ua_msie_edge (assign_flag k v w) = ua_msie_edge w.
Proof.
  unfold assign_flag. destruct (meets_setter w k); [|done].
  destruct v; try done. by destruct (bool_decide _).
Qed.

Lemma group_string (name : string) (p : t) (w : world) :
  group (VStr name) (p, w) =
    (Ok name, (set_group name p, assign_flag name (declared w name) w)).
Proof.
  unfold group. rewrite (bool_decide_eq_false_2 (VStr name = VUndefined)) by done.
  run. rewrite assign_declared_get.
  rewrite bool_decide_eq_false_2 by apply declared_defined. by run.
Qed.

Lemma group_not_string (v : value) (p : t) (w : world) :
  v ≠ VUndefined -> typeof v ≠ TString ->
  group v (p, w) =
    (Throw (Thrown "Profiler.group must be a global variable as a string."),
     (p, assign_flag (to_string v) (declared w (to_string v)) w)).
Proof.
  intros Hu Ht. unfold group. rewrite bool_decide_eq_false_2 by done.
  destruct v; try done; by run.
Qed.

Lemma active_read (p : t) (w : world) :
  active VUndefined (p, w) = (Ok (effective p w), (p, w)).
Proof. reflexivity. Qed.

Lemma active_boolean (b : bool) (p : t) (w : world) :
  active (VBool b) (p, w) = (Ok (effective (set_active b p) w), (set_active b p, w)).
Proof. reflexivity. Qed.

Lemma active_not_boolean (v : value) (p : t) (w : world) :
  v ≠ VUndefined -> typeof v ≠ TBoolean ->
  active v (p, w) = (Throw (Thrown "Profiler.active must be a boolean value."), (p, w)).
Proof. intros Hu Ht. destruct v; try done; by run. Qed.

(** C6, as the code has it: a group name that is given and is not a
    string makes [group] throw, a value for [active] that is given and is
    not a boolean makes [active] throw, and the instance is left as it was;
    a string that the registry neither holds nor inherits is accepted by
    [group], which enters it there as [true]. *)
Theorem group_and_active_check_their_argument (p : t) (w : world) :
  (forall v, v ≠ VUndefined -> typeof v ≠ TString ->
     exists e w', group v (p, w) = (Throw e, (p, w'))) /\
  (forall v, v ≠ VUndefined -> typeof v ≠ TBoolean ->
     exists e, active v (p, w) = (Throw e, (p, w))) /\
  (forall name, groups w !! name = None -> inherited w !! name = None ->
     group (VStr name) (p, w) =
       (Ok name, (set_group name p,
                  set_groups (<[name := VBool true]> (groups w)) w))).
Proof.
  split_and!.
  - intros v Hu Ht. eexists _, _. by apply group_not_string.
  - intros v Hu Ht. eexists. by apply active_not_boolean.
  - intros name Hn Hi. rewrite group_string.
    rewrite assign_declared_own.
    + unfold declared, groups_get. by rewrite Hn, Hi.
    + unfold meets_setter. rewrite (bool_decide_eq_false_2 (is_Some _)).
      * by rewrite andb_false_r.
      * rewrite Hi. by intros [? ?].
Qed.

Lemma group_and_active_check_their_argument_witness :
  (exists e w', group (VNum 5) (stopwatch, w_loaded) = (Throw e, (stopwatch, w'))) /\
  (exists e, active (VStr "yes") (stopwatch, w_loaded)
             = (Throw e, (stopwatch, w_loaded))) /\
  group (VStr "g1") (stopwatch, w_loaded) =
    (Ok "g1", (set_group "g1" stopwatch,
               set_groups (<["g1" := VBool true]> (groups w_loaded)) w_loaded)).
Proof.
  destruct (group_and_active_check_their_argument stopwatch w_loaded)
    as (Hg & Ha & Hn).
  split_and!.
  - apply Hg; discriminate.
  - apply Ha; discriminate.
  - apply Hn; vm_compute; reflexivity.
Defined.

(** C6 as stated fails at a name that was never declared but is the name
    of a built-in: [Profiler.groups['constructor']] finds the function
    inherited from [Object.prototype], so [group('constructor')] enters
    that function in the registry, not [true]. *)
Lemma group_inherited_name_counterexample :
  exists (w' : world) (l : loc),
    groups w_loaded !! "constructor" = None /\
    group (VStr "constructor") (stopwatch, w_loaded)
      = (Ok "constructor", (set_group "constructor" stopwatch, w')) /\
    groups w' !! "constructor" = Some (VObj l).
Proof.
  eexists _, _. split; [by vm_compute|]. split; [apply group_string|].
  by vm_compute.
Qed.

(** C2, at a concrete run.  A stop-watch made in the group [g1] while
    everything is on; then [Profiler.groups.global = false].  [start()] and
    [stop()] still record a sample: [active] consults the flag of [g1]
    only. *)
Theorem custom_group_ignores_global_off :
  exists p w,
    made_in_g1 = (Ok (Instance p), w) /\
    _group p = "g1" /\ results p = [] /\
    groups_get (set_groups (<["global" := VBool false]> (groups w)) w) "global"
      = VBool false /\
    exists p' w',
      (start None ;;; stop VUndefined)%js
        (p, set_groups (<["global" := VBool false]> (groups w)) w)
        = (Ok tt, (p', w')) /\
      length (results p') = 1%nat.
Proof.
  eexists _, _. split; [vm_compute; reflexivity|].
  split_and!; try (vm_compute; reflexivity).
  eexists _, _. split; [vm_compute; reflexivity|]. reflexivity.
Qed.

Lemma is_elapsed_tick (w : world) (print : value) :
  is_elapsed (tick w) print = is_elapsed w print.
Proof. by destruct print. Qed.

(** [stop(print)] on an active instance: one sample more, whatever is
    printed afterwards. *)
Lemma stop_when_active (print : value) (p : t) (w : world) :
  truthy (effective p w) = true ->
  exists p' w',
    stop print (p, w) = (Ok tt, (p', w')) /\
    results p' = (results p ++
      [{| s_name := currentName p;
          s_time := fl w (clock w (ticks w) - startTime p)%Q |}])%list /\
    running p' = false.
Proof.
  intros Ha. unfold stop, currentTime. run.
  change (js_and (VBool (_active p)) (groups_get (tick w) (_group p)))
    with (effective p w).
  rewrite Ha. run.
  destruct (is_elapsed (tick w) print).
  - unfold printElapsed, getElapsedSeconds, getElapsedMilliseconds. run.
    eexists _, _. split; [reflexivity|]. by cbn.
  - destruct (truthy print).
    + unfold printResults. run. eexists _, _. split; [reflexivity|]. by cbn.
    + run. eexists _, _. split; [reflexivity|]. by cbn.
Qed.

(** X2.  [stop(print)] on an instance that is not active: the clock is read
    (the platform's, which is the one [currentTime] tests for) and the
    instance stopped, nothing is recorded and nothing printed. *)
Theorem stop_when_inactive (print : value) (p : t) (w : world) :
  truthy (effective p w) = false ->
  stop print (p, w) =
    (Ok tt, (set_running false (set_stopTime (clock w (ticks w)) p), tick w)).
Proof.
  intros Ha. unfold stop, currentTime. run.
  change (js_and (VBool (_active p)) (groups_get (tick w) (_group p)))
    with (effective p w).
  by rewrite Ha.
Qed.

(** X3.  [start(name)] on an instance that is not active does nothing. *)
Theorem start_when_inactive (name : option string) (p : t) (w : world) :
  truthy (effective p w) = false -> start name (p, w) = (Ok tt, (p, w)).
Proof.
  intros Ha. unfold start. run.
  change (js_and (VBool (_active p)) (groups_get w (_group p))) with (effective p w).
  by rewrite Ha.
Qed.

Lemma stop_when_inactive_witness :
  stop VUndefined (set_active false stopwatch, w_loaded) =
    (Ok tt, (set_running false
               (set_stopTime (performance_now w_loaded (ticks w_loaded))
                  (set_active false stopwatch)),
             tick w_loaded)).
Proof. apply (stop_when_inactive VUndefined (set_active false stopwatch) w_loaded).
  reflexivity.
Defined.

Lemma start_when_inactive_witness :
  start None (set_active false stopwatch, w_loaded)
    = (Ok tt, (set_active false stopwatch, w_loaded)).
Proof. apply (start_when_inactive None (set_active false stopwatch) w_loaded).
  reflexivity.
Defined.

(** [start(name)] on an active instance that is not running. *)
Lemma start_when_idle (name : option string) (p : t) (w : world) :
  truthy (effective p w) = true -> running p = false ->
  start name (p, w) =
    (Ok tt, (set_running true
               (set_startTime (clock w (ticks w))
                  (set_currentName (name_or name (currentName p)) p)),
             tick w)).
Proof.
  intros Ha Hr. unfold start. run.
  change (js_and (VBool (_active p)) (groups_get w (_group p))) with (effective p w).
  rewrite Ha. run. rewrite Hr. by run.
Qed.

(** [start(name)] on an active instance that is running: [stop()] first. *)
Lemma start_when_running (name : option string) (p : t) (w : world) :
  truthy (effective p w) = true -> running p = true ->
  exists p',
    start name (p, w) = (Ok tt, (p', tick (tick w))) /\
    results p' = (results p ++
      [{| s_name := currentName p;
          s_time := fl w (clock w (ticks w) - startTime p)%Q |}])%list /\
    running p' = true /\
    currentName p' = name_or name (currentName p) /\
    startTime p' = clock w (S (ticks w)) /\
    _active p' = _active p /\ _group p' = _group p.
Proof.
  intros Ha Hr. unfold start. run.
  change (js_and (VBool (_active p)) (groups_get w (_group p))) with (effective p w).
  rewrite Ha. run. rewrite Hr. unfold stop, currentTime. run.
  change (js_and (VBool (_active p)) (groups_get (tick w) (_group p)))
    with (effective p w).
  rewrite Ha. run. eexists. split; [reflexivity|]. by cbn.
Qed.

(** C4, as the code has it.  On an active instance that is not running,
    [start()] then [stop()] appends exactly one sample: the difference of
    two successive readings of the clock, rounded; it is at least 0 when
    the second reading is not below the first and rounding keeps the sign.
    [start()] then [start()] appends exactly that one sample for the first
    segment and leaves the second segment running from the third reading.
    On an active instance that is running already, [start()] closes the
    running segment first, so [start()] then [stop()] appends two
    samples. *)
Theorem start_stop_round_trip (p : t) (w : world) (n1 n2 : option string)
    (print : value) :
  truthy (effective p w) = true ->
  let first := {| s_name := name_or n1 (currentName p);
                  s_time := fl w (clock w (S (ticks w)) - clock w (ticks w))%Q |} in
  (running p = false ->
   (keeps_sign (fl w) -> (clock w (ticks w) <= clock w (S (ticks w)))%Q ->
    (0 <= s_time first)%Q) /\
   (exists p' w',
      (start n1 ;;; stop print)%js (p, w) = (Ok tt, (p', w')) /\
      results p' = (results p ++ [first])%list /\ running p' = false) /\
   (exists p' w',
      (start n1 ;;; start n2)%js (p, w) = (Ok tt, (p', w')) /\
      results p' = (results p ++ [first])%list /\ running p' = true /\
      currentName p' = name_or n2 (name_or n1 (currentName p)) /\
      startTime p' = clock w (S (S (ticks w))))) /\
  (running p = true ->
   exists p' w',
     (start n1 ;;; stop print)%js (p, w) = (Ok tt, (p', w')) /\
     results p' = (results p ++
       [{| s_name := currentName p;
           s_time := fl w (clock w (ticks w) - startTime p)%Q |};
        {| s_name := name_or n1 (currentName p);
           s_time := fl w (clock w (S (S (ticks w))) - clock w (S (ticks w)))%Q |}])%list /\
     running p' = false).
Proof.
  intros Ha first. split.
  - intros Hr. split_and!.
    + intros Hfl Hclock. cbn. apply Hfl. apply -> Qle_minus_iff. exact Hclock.
    + unfold bind. rewrite start_when_idle by done.
      edestruct (stop_when_active print) as (p' & w' & Hs & Hres & Hrun);
        [|exists p', w'; split; [exact Hs|split; [exact Hres|exact Hrun]]].
      exact Ha.
    + unfold bind. rewrite start_when_idle by done.
      edestruct (start_when_running n2) as (p' & Hs & Hres & Hrun & Hn & Ht & _);
        [| |exists p', (tick (tick (tick w))); split; [exact Hs|];
            split; [exact Hres|]; split; [exact Hrun|]; split; [exact Hn|exact Ht]].
      * exact Ha.
      * reflexivity.
  - intros Hr. unfold bind.
    destruct (start_when_running n1 p w Ha Hr)
      as (p1 & -> & Hres1 & Hrun1 & Hn1 & Ht1 & Hact1 & Hgr1).
    assert (Ha1 : truthy (effective p1 (tick (tick w))) = true).
    { unfold effective in *. by rewrite Hact1, Hgr1. }
    destruct (stop_when_active print p1 (tick (tick w)) Ha1)
      as (p' & w' & -> & Hres & Hrun).
    exists p', w'. split; [reflexivity|]. split; [|exact Hrun].
    rewrite Hres, Hres1, Hn1, Ht1. cbn. by rewrite <- app_assoc.
Qed.

Lemma start_stop_round_trip_witness :
  (0 <= counting_clock 1 - counting_clock 0)%Q /\
  (exists p' w',
     (start None ;;; stop VUndefined)%js (stopwatch, w_loaded) = (Ok tt, (p', w')) /\
     results p' = [{| s_name := "t"; s_time := (counting_clock 1 - counting_clock 0)%Q |}] /\
     running p' = false) /\
  (exists p' w',
     (start None ;;; start (Some "second"))%js (stopwatch, w_loaded)
       = (Ok tt, (p', w')) /\
     results p' = [{| s_name := "t"; s_time := (counting_clock 1 - counting_clock 0)%Q |}] /\
     running p' = true /\
     currentName p' = "second" /\
     startTime p' = counting_clock 2).
Proof.
  destruct (start_stop_round_trip stopwatch w_loaded None (Some "second") VUndefined)
    as [Hidle _]; [reflexivity|].
  destruct (Hidle eq_refl) as (Hpos & Hstop & Hstart).
  split; [|split; [exact Hstop|exact Hstart]].
  apply Hpos.
  - intros x Hx. exact Hx.
  - vm_compute. discriminate.
Defined.

(** C4 as stated fails in two ways.  On a platform without
    [window.performance] the clock is the wall clock, which can be set back
    between two readings (here it reads 5 and then 3): the one sample of
    [new Profiler('t')], [start()], [stop()] has a negative time.  And on
    an active instance that is running already (after [start()]),
    [start()], [stop()] appends two samples. *)
Lemma start_stop_counterexample :
  (exists p p' w' smp,
     Profiler.new (TimerName "t") NoName None w_clock_set_back
       = (Ok (Instance p), w_clock_set_back) /\
     truthy (effective p w_clock_set_back) = true /\ running p = false /\
     (start None ;;; stop VUndefined)%js (p, w_clock_set_back)
       = (Ok tt, (p', w')) /\
     results p' = [smp] /\ (s_time smp < 0)%Q) /\
  (exists p1 w1 p' w',
     Profiler.new (TimerName "t") NoName None w_loaded
       = (Ok (Instance stopwatch), w_loaded) /\
     start None (stopwatch, w_loaded) = (Ok tt, (p1, w1)) /\
     truthy (effective p1 w1) = true /\ running p1 = true /\
     results p1 = [] /\
     (start None ;;; stop VUndefined)%js (p1, w1) = (Ok tt, (p', w')) /\
     length (results p') = 2%nat).
Proof.
  split.
  - eexists _, _, _, _. split; [vm_compute; reflexivity|].
    split; [reflexivity|]. split; [reflexivity|].
    split; [vm_compute; reflexivity|]. split; [reflexivity|]. by vm_compute.
  - eexists _, _, _, _. split; [vm_compute; reflexivity|].
    split; [vm_compute; reflexivity|].
    split; [reflexivity|]. split; [reflexivity|]. split; [reflexivity|].
    split; [vm_compute; reflexivity|]. reflexivity.
Qed.

(** X4.  Calling a wrapper whose instance is active and not running, on a
    function that returns and leaves the instance active: the function's
    value is returned, and exactly one sample is appended, from the reading
    before the call to the next reading after it (readings of the
    platform's clock). *)
Theorem wrapper_call_records_one_sample (f : callable) (p : t) (w w1 : world)
    (v : value) :
  truthy (effective p w) = true -> running p = false ->
  fn_call f (tick w) = (Ok v, w1) ->
  truthy (effective p w1) = true ->
  exists p' w',
    invoke (Wrapper p f) w = (Ok (v, Wrapper p' f), w') /\
    results p' = (results p ++
      [{| s_name := currentName p;
          s_time := fl w1 (clock w1 (ticks w1) - clock w (ticks w))%Q |}])%list /\
    running p' = false.
Proof.
  intros Ha Hr Hcall Ha1. unfold invoke, profileWrapper, bind.
  rewrite start_when_idle by done. unfold in_world. cbn [fst snd].
  rewrite Hcall.
  edestruct (stop_when_active (VStr "results")) as (p' & w' & Hs & Hres & Hrun);
    [|rewrite Hs; exists p', w'; split; [reflexivity|split; [exact Hres|exact Hrun]]].
  exact Ha1.
Qed.

Lemma wrapper_call_records_one_sample_witness :
  exists p' w',
    invoke (Wrapper stopwatch functionA) w_loaded
      = (Ok (VUndefined, Wrapper p' functionA), w') /\
    results p' = [{| s_name := "t";
                     s_time := (counting_clock 1 - counting_clock 0)%Q |}] /\
    running p' = false.
Proof.
  apply (wrapper_call_records_one_sample functionA stopwatch w_loaded (tick w_loaded)
           VUndefined); reflexivity.
Defined.

(** [_initPrototype] when a name is found, field by field. *)
Lemma initPrototype_fields (obj : option callable) (p : t) (w : world) (n : string) :
  first_name obj p = Ok n ->
  exists p',
    _initPrototype obj (p, w) =
      (Ok match obj with
          | Some f => if truthy (effective p w) then decorate p' f else Original f
          | None => Instance p'
          end, (p', w)) /\
    results p' = results p /\ running p' = running p /\
    _group p' = _group p /\ _active p' = _active p /\
    prevName p' = currentName p' /\ initName p' = currentName p' /\
    String.prefix "function" (currentName p') = false /\
    currentName p' = if String.prefix "function" n then "unnamed " +:+ n else n.
Proof.
  intros Hn. unfold _initPrototype.
  match goal with |- context [bind (on_this ?F) (fun _ => bind _ _)] =>
    set (F2 := F) end.
  match goal with |- context [bind (on_this ?F) (fun _ => bind get _)] =>
    set (F3 := F) end.
  assert (H2 : forall q, results (F2 q) = results q /\ running (F2 q) = running q /\
             _group (F2 q) = _group q /\ _active (F2 q) = _active q /\
             String.prefix "function" (currentName (F2 q)) = false /\
             currentName (F2 q) =
                if String.prefix "function" (currentName q)
                then "unnamed " +:+ currentName q else currentName q).
  { intros q. unfold F2.
    destruct (String.prefix "function" (currentName q)) eqn:Hp; by cbn. }
  assert (H3 : forall q, results (F3 q) = results q /\ running (F3 q) = running q /\
             _group (F3 q) = _group q /\ _active (F3 q) = _active q /\
             currentName (F3 q) = currentName q /\
             prevName (F3 q) = currentName q /\ initName (F3 q) = currentName q).
  { intros q. by unfold F3. }
  clearbody F2 F3.
  (* the first step leaves an instance [p1] that carries the name *)
  assert (H1 : exists p1,
             (if String.eqb (currentName p) "" then
                match obj with
                | Some f =>
                    match name_of f with
                    | Ok n => on_this (set_currentName n)
                    | Throw e => throw e
                    end
                | None => on_this (set_currentName "Unnamed timer")
                end
              else ret tt) (p, w) = (Ok tt, (p1, w)) /\
             results p1 = results p /\ running p1 = running p /\
             _group p1 = _group p /\ _active p1 = _active p /\
             currentName p1 = n).
  { unfold first_name in Hn.
    destruct (String.eqb (currentName p) "").
    - destruct obj as [f|].
      + rewrite Hn. eexists. split; [reflexivity|]. by cbn.
      + injection Hn as <-. eexists. split; [reflexivity|]. by cbn.
    - injection Hn as <-. exists p. by split. }
  destruct H1 as (p1 & Hstep & R1 & U1 & G1 & A1 & N1).
  destruct (H2 p1) as (R2 & U2 & G2 & A2 & P2 & N2).
  destruct (H3 (F2 p1)) as (R3 & U3 & G3 & A3 & C3 & V3 & I3).
  exists (F3 (F2 p1)). split.
  - unfold bind at 1. unfold get at 1. cbn [fst snd].
    unfold bind at 1. rewrite Hstep.
    unfold bind, on_this, modify, get, ret. cbn [fst snd].
    destruct obj as [f|]; [|reflexivity].
    rewrite active_read. cbn [fst snd].
    assert (He : effective (F2 p1) w = effective p w).
    { unfold effective. by rewrite A2, A1, G2, G1. }
    rewrite He. by destruct (truthy (effective p w)).
  - split_and!; try congruence.
    rewrite C3, N2, N1. reflexivity.
Qed.

(** [_initPrototype] when no name is found: the TypeError of
    [objectToTime.prototype.name]. *)
Lemma initPrototype_throws (obj : option callable) (p : t) (w : world) (e : exn) :
  first_name obj p = Throw e -> _initPrototype obj (p, w) = (Throw e, (p, w)).
Proof.
  intros Hn. unfold _initPrototype, first_name in *.
  unfold bind at 1. unfold get at 1. cbn [fst snd]. unfold bind at 1.
  destruct (String.eqb (currentName p) ""); [|done].
  destruct obj as [f|]; [|done]. by rewrite Hn.
Qed.

(** A function that can be named is given a name. *)
Lemma first_name_function (f : callable) (p : t) :
  currentName p ≠ "" \/ fn_name f ≠ "" \/ fn_prototype f ≠ NoPrototype ->
  exists n, first_name (Some f) p = Ok n.
Proof.
  intros H. unfold first_name, name_of.
  destruct (String.eqb_spec (currentName p) ""); [|by eexists].
  destruct (String.eqb_spec (fn_name f) ""); cbn; [|by eexists].
  destruct (fn_prototype f) as [|[m|]]; try by eexists.
  by destruct H as [?|[?|?]].
Qed.

(** The instance and the world [_initPrototype] is called with, for options
    the checks of [group] and [active] accept. *)
Lemma new_runs_initPrototype (tg : target) (name : name_arg) (opts : option options)
    (w : world) :
  let o := resolve_options tg name opts in
  o_group o = VUndefined \/ typeof (o_group o) = TString ->
  o_active o = VUndefined \/ typeof (o_active o) = TBoolean ->
  exists this,
    Profiler.new tg name opts w =
      (let '(r, st) := _initPrototype match tg with Function f => Some f | _ => None end
                         (this, world_after_group o w) in (r, st.2)) /\
    currentName this = default "" (o_name o) /\
    results this = [] /\ running this = false /\
    _group this = group_of o /\
    _active this = (if o_active o is VBool b then b else true) /\
    groups_get (world_after_group o w) (_group this) = flag_at_construction o w.
Proof.
  intros o Hgroup Hactive.
  unfold Profiler.new, world_after_group, flag_at_construction, group_of. fold o.
  generalize dependent o. intros o Hgroup Hactive.
  set (this := {| startTime := 0 |}).
  unfold bind at 1 2.
  destruct (o_group o) as [| | | | |g|] eqn:Hg; try (by destruct Hgroup).
  - rewrite group_read.
    destruct (o_active o) as [| |b| | | |] eqn:Hact; try (by destruct Hactive).
    + rewrite active_read. eexists. split; [reflexivity|]. by cbn.
    + rewrite active_boolean. eexists. split; [reflexivity|]. by cbn.
  - rewrite group_string.
    destruct (o_active o) as [| |b| | | |] eqn:Hact; try (by destruct Hactive).
    + rewrite active_read. eexists. split; [reflexivity|]. cbn.
      split_and!; try done. apply assign_declared_get.
    + rewrite active_boolean. eexists. split; [reflexivity|]. cbn.
      split_and!; try done. apply assign_declared_get.
Qed.




(** [toFixed] reads the value of its argument, not its representation. *)
Lemma toFixed_Qeq (f : nat) (x y : Q) : (x == y)%Q -> toFixed f x = toFixed f y.
Proof.
  intros Hxy. unfold toFixed.
  assert (Hsign : (Qnum x <? 0)%Z = (Qnum y <? 0)%Z).
  { unfold Qeq in Hxy.
    destruct (Z.ltb_spec (Qnum x) 0), (Z.ltb_spec (Qnum y) 0); try done; nia. }
  assert (Hn : Qfloor (Qabs x * inject_Z (10 ^ Z.of_nat f) + (1 # 2))
             = Qfloor (Qabs y * inject_Z (10 ^ Z.of_nat f) + (1 # 2))).
  { apply Qfloor_comp. by rewrite Hxy. }
  by rewrite Hsign, Hn.
Qed.

Example toFixed_examples :
  toFixed 2 10 = "10.00" /\ toFixed 6 (10 / 1000) = "0.010000" /\
  toFixed 2 (1 # 200) = "0.01" /\ toFixed 2 (- (5 # 4)) = "-1.25" /\
  toFixed 0 (5 # 2) = "3" /\ toFixed 6 0 = "0.000000".
Proof. vm_compute. repeat split. Qed.

Lemma Qfloor_unique (x : Q) (n : Z) :
  (inject_Z n <= x)%Q -> (x < inject_Z (n + 1))%Q -> Qfloor x = n.
Proof.
  intros Hlo Hhi. apply Z.le_antisymm.
  - apply Z.lt_succ_r. rewrite Zlt_Qlt.
    eapply Qle_lt_trans; [apply Qfloor_le | exact Hhi].
  - rewrite <- (Qfloor_Z n). by apply Qfloor_resp_le.
Qed.

(** Side conditions on numerals: the injected integers are evaluated. *)
Ltac band_side :=
  repeat match goal with
         | |- context [inject_Z ?z] =>
             let q := eval vm_compute in (inject_Z z) in
             change (inject_Z z) with q
         end;
  lra.

(** Every number close enough to [n / 10^f] is written as [n]. *)
Lemma toFixed_band (f : nat) (n : Z) (x : Q) :
  (0 <= x)%Q ->
  (inject_Z n <= x * inject_Z (10 ^ Z.of_nat f) + (1 # 2))%Q ->
  (x * inject_Z (10 ^ Z.of_nat f) + (1 # 2) < inject_Z (n + 1))%Q ->
  toFixed f x = fixed_digits f false n.
Proof.
  intros Hx Hlo Hhi. unfold toFixed.
  assert (Hsign : (Qnum x <? 0)%Z = false).
  { apply Z.ltb_ge. unfold Qle in Hx. cbn in Hx. lia. }
  rewrite Hsign. f_equal.
  apply Qfloor_unique; by rewrite Qabs_pos.
Qed.

(** A rounded result, for an exact one between 1/1000 and 1000. *)
Lemma rounded_band (rnd : Q -> Q) (x : Q) :
  rounds_to_nearest rnd -> (1 # 1000 <= x)%Q -> (x <= 1000)%Q ->
  (x - x * (1 # 9007199254740992) <= rnd x)%Q /\
  (rnd x <= x + x * (1 # 9007199254740992))%Q.
Proof.
  intros Hrnd Hlo Hhi.
  assert (Hpos : (0 <= x)%Q) by lra.
  pose proof (Hrnd x) as H. rewrite (Qabs_pos x Hpos) in H.
  change unit_roundoff with (1 # 9007199254740992) in H.
  assert (Hb : (Qabs (rnd x - x) <= x * (1 # 9007199254740992))%Q).
  { apply H.
    - eapply Qle_trans; [|exact Hlo]. by vm_compute.
    - eapply Qle_trans; [exact Hhi|]. by vm_compute. }
  apply Qabs_Qle_condition in Hb as [Hb1 Hb2]. split; lra.
Qed.

(** Exact arithmetic is one of the roundings. *)
Lemma exact_rounds : rounds_to_nearest (fun x => x).
Proof.
  intros x _ _.
  assert (H : (Qabs (x - x) == 0)%Q).
  { rewrite (Qabs_wd (x - x) 0); [reflexivity | ring]. }
  rewrite H. apply Qmult_le_0_compat; [apply Qabs_nonneg | by vm_compute].
Qed.

(** [printResults] logs the rows of [report]. *)
Lemma printResults_logs_report (name : option string) (p : t) (w : world) :
  printResults name (p, w) =
    (Ok tt, (set_prevName (a_prevName (report (fl w) p))
               (set_currentName (name_or name (currentName p)) p),
             log (Report (useTable p) (initName p) (a_rows (report (fl w) p))) w)).
Proof. reflexivity. Qed.

(** The label of a row: nothing, or a space and the sample's name. *)
Lemma row_name_label (n prev : string) :
  row_name n prev = "" \/ row_name n prev = " " +:+ n.
Proof.
  unfold row_name.
  destruct (negb (String.eqb n "") && String.prefix "function" n); [by left|].
  destruct (negb (String.eqb n "") && String.prefix "Unnamed timer" n); [by left|].
  destruct (String.eqb n prev); [by left|].
  destruct (String.eqb n "") eqn:He; [|by right].
  apply String.eqb_eq in He. by left.
Qed.

(** The rows of the report on three samples of 10, 20 and 30 ms, with every
    arithmetic result rounded to nearest: one row for each sample, under
    its index and its label, then [total] and [avrg]. *)
Lemma report_rows_10_20_30 (rnd : Q -> Q) (p : t) (r0 r1 r2 : sample) :
  rounds_to_nearest rnd -> results p = [r0; r1; r2] ->
  (s_time r0 == 10)%Q -> (s_time r1 == 20)%Q -> (s_time r2 == 30)%Q ->
  exists l0 l1 l2,
    (l0 = "" \/ l0 = " " +:+ s_name r0) /\
    (l1 = "" \/ l1 = " " +:+ s_name r1) /\
    (l2 = "" \/ l2 = " " +:+ s_name r2) /\
    a_rows (report rnd p) =
      <["avrg" := {| ms := "20.00"; s := "0.020000" |}]>
        (<["total" := {| ms := "60.00"; s := "0.060000" |}]>
           (<[String "2" l2 := {| ms := "30.00"; s := "0.030000" |}]>
              (<[String "1" l1 := {| ms := "20.00"; s := "0.020000" |}]>
                 (<[String "0" l0 := {| ms := "10.00"; s := "0.010000" |}]> ∅)))).
Proof.
  intros Hrnd E H0 H1 H2.
  exists (row_name (s_name r0) (prevName p)),
         (row_name (s_name r1) (row_name (s_name r0) (prevName p))),
         (row_name (s_name r2)
            (row_name (s_name r1) (row_name (s_name r0) (prevName p)))).
  split; [apply row_name_label|]. split; [apply row_name_label|].
  split; [apply row_name_label|].
  unfold report. rewrite E.
  cbn [add_results add_result a_rows a_msTotal a_secTotal a_count a_prevName
       toFixed_mean].
  change (inject_Z (Z.of_nat 3)) with 3%Q.
  unfold Qdiv. change (/ 1000)%Q with (1 # 1000)%Q. change (/ 3)%Q with (1 # 3)%Q.
  set (t0 := s_time r0) in *. set (t1 := s_time r1) in *. set (t2 := s_time r2) in *.
  (* the rounded intermediate results, each within its band *)
  set (a0 := rnd (t0 * (1 # 1000))%Q). set (a1 := rnd (t1 * (1 # 1000))%Q).
  set (a2 := rnd (t2 * (1 # 1000))%Q).
  set (m1 := rnd (0 + t0)%Q). set (m2 := rnd (m1 + t1)%Q). set (m3 := rnd (m2 + t2)%Q).
  set (s1 := rnd (0 + a0)%Q). set (s2 := rnd (s1 + a1)%Q). set (s3 := rnd (s2 + a2)%Q).
  set (mA := rnd (m3 * (1 # 3))%Q). set (sA := rnd (s3 * (1 # 3))%Q).
  destruct (rounded_band rnd (t0 * (1 # 1000))%Q Hrnd) as [A0l A0h]; [lra | lra |].
  destruct (rounded_band rnd (t1 * (1 # 1000))%Q Hrnd) as [A1l A1h]; [lra | lra |].
  destruct (rounded_band rnd (t2 * (1 # 1000))%Q Hrnd) as [A2l A2h]; [lra | lra |].
  fold a0 in A0l, A0h. fold a1 in A1l, A1h. fold a2 in A2l, A2h.
  destruct (rounded_band rnd (0 + t0)%Q Hrnd) as [M1l M1h]; [lra | lra |].
  fold m1 in M1l, M1h.
  destruct (rounded_band rnd (m1 + t1)%Q Hrnd) as [M2l M2h]; [lra | lra |].
  fold m2 in M2l, M2h.
  destruct (rounded_band rnd (m2 + t2)%Q Hrnd) as [M3l M3h]; [lra | lra |].
  fold m3 in M3l, M3h.
  destruct (rounded_band rnd (0 + a0)%Q Hrnd) as [S1l S1h]; [lra | lra |].
  fold s1 in S1l, S1h.
  destruct (rounded_band rnd (s1 + a1)%Q Hrnd) as [S2l S2h]; [lra | lra |].
  fold s2 in S2l, S2h.
  destruct (rounded_band rnd (s2 + a2)%Q Hrnd) as [S3l S3h]; [lra | lra |].
  fold s3 in S3l, S3h.
  destruct (rounded_band rnd (m3 * (1 # 3))%Q Hrnd) as [MAl MAh]; [lra | lra |].
  fold mA in MAl, MAh.
  destruct (rounded_band rnd (s3 * (1 # 3))%Q Hrnd) as [SAl SAh]; [lra | lra |].
  fold sA in SAl, SAh.
  clearbody a0 a1 a2 m1 m2 m3 s1 s2 s3 mA sA.
  (* the strings *)
  rewrite (toFixed_Qeq 2 t0 10 H0), (toFixed_Qeq 2 t1 20 H1), (toFixed_Qeq 2 t2 30 H2).
  rewrite (toFixed_band 6 10000 a0) by band_side.
  rewrite (toFixed_band 6 20000 a1) by band_side.
  rewrite (toFixed_band 6 30000 a2) by band_side.
  rewrite (toFixed_band 2 6000 m3) by band_side.
  rewrite (toFixed_band 6 60000 s3) by band_side.
  rewrite (toFixed_band 2 2000 mA) by band_side.
  rewrite (toFixed_band 6 20000 sA) by band_side.
  reflexivity.
Qed.

(** C8: with samples of 10, 20 and 30 ms recorded, whatever their names,
    and with every arithmetic result rounded to nearest, [printResults]
    logs a report of five rows.  Its [total] row is 60.00 ms and 0.060000 s
    and its [avrg] row is 20.00 ms and 0.020000 s.  Every sample has its
    row, under its index followed by nothing or by a space and its name:
    10.00 and 0.010000, 20.00 and 0.020000, 30.00 and 0.030000, which is
    the sample's time written with 2 decimals, and that time divided by
    1000 written with 6.  There is no other row: every row is one of the
    five expected, and so has for seconds its milliseconds divided by
    1000, written with 6 decimals against 2. *)
Theorem report_of_10_20_30 (p : t) (name : option string) (w : world) :
  rounds_to_nearest (fl w) ->
  Forall2 Qeq (map s_time (results p)) [10; 20; 30]%Q ->
  exists rows,
    console (printResults name (p, w)).2.2
      = (console w ++ [Report (useTable p) (initName p) rows])%list /\
    rows !! "total" = Some {| ms := "60.00"; s := "0.060000" |} /\
    rows !! "avrg" = Some {| ms := "20.00"; s := "0.020000" |} /\
    size rows = 5 /\
    (forall i r, results p !! i = Some r ->
       exists l, (l = "" \/ l = " " +:+ s_name r) /\
         rows !! (string_of_nat i +:+ l) = rows_10_20_30 !! i /\
         rows !! (string_of_nat i +:+ l) =
           Some {| ms := toFixed 2 (s_time r);
                   s := toFixed 6 (s_time r / 1000)%Q |}) /\
    (forall k r, rows !! k = Some r -> r ∈ rows_10_20_30) /\
    (forall k r, rows !! k = Some r ->
       exists x : Q, ms r = toFixed 2 x /\ s r = toFixed 6 (x / 1000)%Q).
Proof.
  intros Hrnd Hres. exists (a_rows (report (fl w) p)).
  rewrite printResults_logs_report. split; [reflexivity|].
  destruct (results p) as [|r0 [|r1 [|r2 [|r3 rest]]]] eqn:E; cbn in Hres;
    try (repeat match goal with
                | H : Forall2 _ _ _ |- _ => inversion H; clear H; subst
                end; fail).
  apply Forall2_cons_1 in Hres as [H0 Hres].
  apply Forall2_cons_1 in Hres as [H1 Hres].
  apply Forall2_cons_1 in Hres as [H2 _].
  destruct (report_rows_10_20_30 (fl w) p r0 r1 r2 Hrnd E H0 H1 H2)
    as (l0 & l1 & l2 & L0 & L1 & L2 & ->).
  match goal with
  | |- context [?m !! "total"] =>
      assert (Hrows : map_Forall (fun _ r => r ∈ rows_10_20_30) m)
  end.
  { repeat apply map_Forall_insert_2; try apply map_Forall_empty;
      unfold rows_10_20_30;
      repeat first [apply list_elem_of_here | apply list_elem_of_further]. }
  assert (T0 : toFixed 6 (s_time r0 / 1000)%Q = "0.010000").
  { rewrite (toFixed_Qeq 6 _ (10 / 1000)%Q); [reflexivity|by rewrite H0]. }
  assert (T1 : toFixed 6 (s_time r1 / 1000)%Q = "0.020000").
  { rewrite (toFixed_Qeq 6 _ (20 / 1000)%Q); [reflexivity|by rewrite H1]. }
  assert (T2 : toFixed 6 (s_time r2 / 1000)%Q = "0.030000").
  { rewrite (toFixed_Qeq 6 _ (30 / 1000)%Q); [reflexivity|by rewrite H2]. }
  split_and!.
  - rewrite lookup_insert_ne by done. by rewrite lookup_insert_eq.
  - by rewrite lookup_insert_eq.
  - rewrite !map_size_insert_None; [by rewrite map_size_empty|..];
      rewrite ?lookup_insert_ne by done; apply lookup_empty.
  - intros i r Hi.
    destruct i as [|[|[|i]]]; cbn in Hi; [| | |done]; injection Hi as <-.
    + exists l0. split; [exact L0|].
      change (string_of_nat 0 +:+ l0) with (String "0" l0).
      rewrite !(lookup_insert_ne _ _ (String "0" l0)) by done.
      rewrite lookup_insert_eq, (toFixed_Qeq 2 _ 10 H0), T0. by split.
    + exists l1. split; [exact L1|].
      change (string_of_nat 1 +:+ l1) with (String "1" l1).
      rewrite !(lookup_insert_ne _ _ (String "1" l1)) by done.
      rewrite lookup_insert_eq, (toFixed_Qeq 2 _ 20 H1), T1. by split.
    + exists l2. split; [exact L2|].
      change (string_of_nat 2 +:+ l2) with (String "2" l2).
      rewrite !(lookup_insert_ne _ _ (String "2" l2)) by done.
      rewrite lookup_insert_eq, (toFixed_Qeq 2 _ 30 H2), T2. by split.
  - exact Hrows.
  - intros k r Hk. apply Hrows in Hk. unfold rows_10_20_30 in Hk.
    repeat (apply elem_of_cons in Hk as [->|Hk]);
      [exists 10%Q | exists 20%Q | exists 30%Q | exists 60%Q | exists 20%Q |
       by apply elem_of_nil in Hk]; by vm_compute.
Qed.

Lemma report_of_10_20_30_witness :
  exists rows,
    console (printResults None (with_samples_10_20_30, w_loaded)).2.2
      = (console w_loaded
         ++ [Report (useTable with_samples_10_20_30)
               (initName with_samples_10_20_30) rows])%list /\
    rows !! "total" = Some {| ms := "60.00"; s := "0.060000" |} /\
    rows !! "avrg" = Some {| ms := "20.00"; s := "0.020000" |} /\
    size rows = 5 /\
    (forall i r, results with_samples_10_20_30 !! i = Some r ->
       exists l, (l = "" \/ l = " " +:+ s_name r) /\
         rows !! (string_of_nat i +:+ l) = rows_10_20_30 !! i /\
         rows !! (string_of_nat i +:+ l) =
           Some {| ms := toFixed 2 (s_time r);
                   s := toFixed 6 (s_time r / 1000)%Q |}) /\
    (forall k r, rows !! k = Some r -> r ∈ rows_10_20_30) /\
    (forall k r, rows !! k = Some r ->
       exists x : Q, ms r = toFixed 2 x /\ s r = toFixed 6 (x / 1000)%Q).
Proof.
  apply (report_of_10_20_30 with_samples_10_20_30 None w_loaded).
  - exact exact_rounds.
  - cbn. repeat constructor.
Defined.

End ProfilerFacts.

(** * More properties *)

(** ** Debugger: registration and the life of an entry point *)

Section DebuggerMore.
Import Debugger DebuggerCalls.

(** A loop whose every step returns keeps what each step establishes for
    the part of the list gone through. *)
Lemma for_each_steps {S A} (P : list A -> S -> Prop) (Q : A -> Prop)
    (body : A -> M S unit) (xs : list A) :
  (forall pre x s, Q x -> P pre s ->
     exists s', body x s = (Ok tt, s') /\ P (pre ++ [x])%list s') ->
  Forall Q xs ->
  forall s, P [] s -> exists s', for_each xs body s = (Ok tt, s') /\ P xs s'.
Proof.
  intros Hstep Hq.
  assert (Hgen : forall pre s, P pre s ->
            exists s', for_each xs body s = (Ok tt, s') /\ P (pre ++ xs)%list s').
  { induction Hq as [|x xs Hx Hxs IH]; intros pre s Hp.
    - exists s. rewrite app_nil_r. by split.
    - destruct (Hstep pre x s Hx Hp) as (s1 & Hb & Hp1).
      destruct (IH (pre ++ [x])%list s1 Hp1) as (s2 & Hf & Hp2).
      exists s2. cbn. unfold bind. rewrite Hb. split; [exact Hf|].
      by rewrite <- app_assoc in Hp2. }
  intros s Hp. exact (Hgen [] s Hp).
Qed.

(** X5.  [global] can switch the flag on but never off: once the flag is
    truthy it stays truthy through any calls of [global]. *)
Theorem global_never_switches_off (args : list value) (w : world) :
  truthy (globalDebug w) = true ->
  truthy (globalDebug (foldl (fun w st => (global st w).2) w args)) = true.
Proof.
  revert w. induction args as [|st args IH]; intros w Hw; [done|].
  cbn [foldl]. apply IH. unfold global.
  destruct (truthy st) eqn:Hst; cbn; [exact Hst | exact Hw].
Qed.

Lemma global_never_switches_off_witness :
  truthy (globalDebug
            (foldl (fun w st => (global st w).2) (loaded (VBool true) ["log"])
               [VBool false; VNum 0; VUndefined; VStr ""])) = true.
Proof.
  apply (global_never_switches_off [VBool false; VNum 0; VUndefined; VStr ""]
           (loaded (VBool true) ["log"])).
  reflexivity.
Defined.

(** Setting flags leaves the functions hung on an object alone. *)
Lemma after_call_entries (c : flag_call) (w : world) (l : loc) :
  debug_fn (heap (after_call w c) l) = debug_fn (heap w l) /\
  debug_levels (heap (after_call w c) l) = debug_levels (heap w l) /\
  emitted (after_call w c) = emitted w /\
  view_output (after_call w c) = view_output w.
Proof.
  destruct c as [st|d st key]; cbn.
  - unfold global. by destruct (truthy st).
  - unfold setState, bind.
    destruct (key_given key).
    + unfold get. cbn.
      destruct (lookup_object d w (default "" key)) as [l'|]; cbn; [|done].
      unfold update_obj. by destruct (decide (l = l')).
    + rewrite for_each_assign. cbn.
      generalize (heap w).
      induction (map_to_list (_objects d)) as [|[k l'] xs IH]; intros h; [done|].
      cbn. destruct (IH (update_obj l' (with_debug st) h)) as (-> & -> & _).
      unfold update_obj. by destruct (decide (l = l')).
Qed.

Lemma after_calls_entries (cs : list flag_call) (w : world) (l : loc) :
  debug_fn (heap (after_calls cs w) l) = debug_fn (heap w l) /\
  debug_levels (heap (after_calls cs w) l) = debug_levels (heap w l) /\
  emitted (after_calls cs w) = emitted w /\
  view_output (after_calls cs w) = view_output w.
Proof.
  revert w. induction cs as [|c cs IH]; intros w; [done|].
  change (after_calls (c :: cs) w) with (after_calls cs (after_call w c)).
  destruct (IH (after_call w c)) as (-> & -> & -> & ->). apply after_call_entries.
Qed.

(** What calling an entry point comes to. *)
Lemma call_debug_run (w : world) (obj : loc) (level : option string)
    (args : list value) :
  call_debug obj level args w =
    match match level with
          | None => debug_fn (heap w obj)
          | Some f => debug_levels (heap w obj) !! f
          end with
    | Some ENoop => (Ok tt, w)
    | Some (EView lvl) => (view_output w lvl args, emit (ViewOutput lvl args) w)
    | Some (EConsole lvl bound) => (Ok tt, emit (ConsoleCall lvl bound args) w)
    | None => (Throw (TypeError "debug is not a function"), w)
    end.
Proof.
  unfold call_debug, bind, get, ret. cbn.
  by destruct (match level with
               | Some f => debug_levels (heap w obj) !! f
               | None => debug_fn (heap w obj)
               end) as [[| |]|].
Qed.

Lemma call_debug_emits (w : world) (obj : loc) (level : option string)
    (args : list value) :
  emitted (call_debug obj level args w).2
  = (emitted w ++ added_by_call w obj level args)%list.
Proof.
  unfold added_by_call. rewrite call_debug_run.
  destruct (match level with
            | Some f => debug_levels (heap w obj) !! f
            | None => debug_fn (heap w obj)
            end) as [[| |]|]; cbn;
    rewrite ?drop_app_length, ?drop_all, ?app_nil_r; reflexivity.
Qed.

(** X6.  An entry point behaves as it did when it was made, whatever
    calls of [global], [on], [off] and [setState] come in between: the
    call returns or throws the same, and adds the same events. *)
Theorem entry_point_ignores_later_flags (cs : list flag_call) (w : world)
    (obj : loc) (level : option string) (args : list value) :
  (call_debug obj level args (after_calls cs w)).1 = (call_debug obj level args w).1 /\
  added_by_call (after_calls cs w) obj level args = added_by_call w obj level args /\
  emitted (call_debug obj level args (after_calls cs w)).2
  = (emitted w ++ added_by_call w obj level args)%list.
Proof.
  destruct (after_calls_entries cs w obj) as (Hfn & Hlv & Hem & Hview).
  assert (Hadd : added_by_call (after_calls cs w) obj level args
                 = added_by_call w obj level args).
  { unfold added_by_call. rewrite !call_debug_run, Hfn, Hlv, Hem.
    destruct (match level with
              | Some f => debug_levels (heap w obj) !! f
              | None => debug_fn (heap w obj)
              end) as [[| |]|]; cbn; rewrite ?Hem; reflexivity. }
  split_and!.
  - rewrite !call_debug_run, Hfn, Hlv, Hview.
    by destruct (match level with
                 | Some f => debug_levels (heap w obj) !! f
                 | None => debug_fn (heap w obj)
                 end) as [[| |]|].
  - exact Hadd.
  - by rewrite call_debug_emits, Hadd, Hem.
Qed.

Lemma debug_returns (this : loc) (level : option string) (w : world) :
  can_bind w (_debug (heap w this)) ->
  (forall f, level = Some f -> f ∈ console_fns w) ->
  debug this level w =
    (Ok (made_entry (globalDebug w) (_debug (heap w this)) (view w) level), w).
Proof.
  intros Hsafe Hlev. unfold debug, made_entry, bind, get, ret. cbn.
  destruct (truthy (globalDebug w)) eqn:Hg; [|done].
  destruct (truthy (_debug (heap w this))) eqn:Hd; [|done].
  destruct (view w) eqn:Hv; [done|]. cbn.
  destruct Hsafe as [?|[?|[?|Hlog]]]; try congruence.
  rewrite bool_decide_eq_true_2; [done|].
  destruct level as [f|]; [|done].
  destruct (String.eqb f ""); [done|]. by apply Hlev.
Qed.

(** What hanging one more level on [obj.debug] does. *)
Lemma init_level (obj : loc) (st : value) (f : string) (w : world) :
  can_bind w st -> _debug (heap w obj) = st -> f ∈ console_fns w ->
  (e' <~ debug obj (Some f) ;;
   modify (fun w => set_heap (update_obj obj (with_debug_level f e') (heap w)) w))%js w
  = (Ok tt,
     set_heap (update_obj obj
                 (with_debug_level f (made_entry (globalDebug w) st (view w) (Some f)))
                 (heap w)) w).
Proof.
  intros Hsafe Hdbg Hf. unfold bind.
  rewrite debug_returns; [|by rewrite Hdbg|by intros ? [= <-]].
  by rewrite Hdbg.
Qed.

(** What [init] does for one object, once its flag is set. *)
Lemma init_object (obj : loc) (st : value) (w : world) :
  can_bind w st -> _debug (heap w obj) = st ->
  exists w',
    (modify (push_debugger obj) ;;;
     e <~ debug obj None ;;
     modify (fun w => set_heap (update_obj obj (with_debug_fn e) (heap w)) w) ;;;
     w <~ get ;;
     for_each (console_fns w) (fun f =>
       e' <~ debug obj (Some f) ;;
       modify (fun w => set_heap (update_obj obj (with_debug_level f e') (heap w)) w)))%js
      w = (Ok tt, w') /\
    levels_hung w obj st (made_entry (globalDebug w) st (view w) None)
      (console_fns w) w'.
Proof.
  intros Hsafe Hdbg.
  unfold bind at 1. unfold modify at 1. cbn [fst snd].
  unfold bind at 1.
  rewrite debug_returns; [|by cbn; rewrite Hdbg|done].
  cbn [heap push_debugger globalDebug view]. rewrite Hdbg.
  unfold bind at 1. unfold modify at 1.
  unfold bind at 1. unfold get at 1.
  set (e0 := made_entry (globalDebug w) st (view w) None).
  set (w1 := set_heap _ _).
  change (console_fns w1) with (console_fns w).
  apply (for_each_steps (levels_hung w obj st e0) (fun f => f ∈ console_fns w)).
  - intros pre f s Hf (Hg & Hv & Hc & He & Ha & Hother & Hd & Hfn & Hin & Hout & Hvo).
    rewrite (init_level obj st f s); [| |done|by rewrite Hc].
    2:{ unfold can_bind. by rewrite Hg, Hv, Hc. }
    eexists. split; [reflexivity|].
    rewrite Hg, Hv. unfold levels_hung. cbn.
    assert (Hself : update_obj obj
              (with_debug_level f (made_entry (globalDebug w) st (view w) (Some f)))
              (heap s) obj
            = with_debug_level f (made_entry (globalDebug w) st (view w) (Some f))
                (heap s obj)).
    { unfold update_obj. by destruct (decide (obj = obj)). }
    rewrite Hself. cbn.
    split_and!; try done.
    + intros l Hl. unfold update_obj. destruct (decide (l = obj)); [done|]. by apply Hother.
    + intros f' Hf'. destruct (decide (f = f')) as [->|Hne].
      * by rewrite lookup_insert_eq.
      * rewrite lookup_insert_ne by done. apply Hin.
        apply elem_of_app in Hf' as [?|Hf']; [done|].
        apply list_elem_of_singleton in Hf'. congruence.
    + intros f' Hf'. apply not_elem_of_app in Hf' as [Hpre Hne].
      rewrite lookup_insert_ne; [by apply Hout|].
      intros ->. apply Hne. apply list_elem_of_here.
  - apply Forall_forall. auto.
  - unfold levels_hung, w1. cbn.
    assert (Hself : update_obj obj (with_debug_fn e0) (heap w) obj
                    = with_debug_fn e0 (heap w obj)).
    { unfold update_obj. by destruct (decide (obj = obj)). }
    rewrite Hself. cbn. split_and!; try done.
    + intros l Hl. unfold update_obj. by destruct (decide (l = obj)).
    + intros f Hf. by apply elem_of_nil in Hf.
Qed.

Lemma init_returns (d : t) (st : value) (w : world) :
  can_warn w st -> can_bind w st ->
  exists w',
    init d st w = (Ok tt, w') /\
    objects_done w st (map_to_list (_objects d)) (map_to_list (_objects d)) w'.
Proof.
  intros Hwarn Hsafe. unfold init.
  fold (state_missing st).
  set (all := map_to_list (_objects d)).
  unfold bind at 1.
  set (w0 := (if state_missing st
              then bind get (fun w =>
                     if bool_decide ("log" ∈ console_fns w)
                     then modify (emit MissingStateWarning)
                     else throw (TypeError "console.log is not a function"))
              else ret tt) w).
  assert (Hw0 : exists w0', w0 = (Ok tt, w0') /\
            globalDebug w0' = globalDebug w /\ view w0' = view w /\
            console_fns w0' = console_fns w /\ heap w0' = heap w /\
            allDebuggers w0' = allDebuggers w /\
            emitted w0' = (emitted w ++ if state_missing st
                                        then [MissingStateWarning] else [])%list /\
            view_output w0' = view_output w).
  { unfold w0, can_warn in *. destruct (state_missing st).
    - unfold bind, get. cbn. rewrite bool_decide_eq_true_2 by auto.
      eexists; (split; [reflexivity|]); cbn; by split_and!.
    - eexists; (split; [reflexivity|]); cbn; rewrite ?app_nil_r; by split_and!. }
  destruct Hw0 as (w0' & -> & Hg0 & Hv0 & Hc0 & Hh0 & Ha0 & He0 & Hvo0).
  unfold bind at 1. unfold setState. cbn [key_given]. fold all.
  unfold bind at 1. rewrite for_each_assign.
  unfold bind at 1. unfold get at 1. unfold ret at 1.
  set (w1 := set_heap _ w0').
  apply (for_each_steps (objects_done w st all) (fun kl => kl.2 ∈ all.*2)).
  - intros pre [k obj] s Hin (Hg & Hv & Hc & He & Ha & Hout & Hdbg & Hdone & Hvo).
    cbn in Hin.
    destruct (init_object obj st s) as (s' & Hrun & Hg' & Hv' & Hc' & He' & Ha' & Hother
                                        & Hd' & Hfn' & Hlv' & Hnone' & Hvo').
    { unfold can_bind. by rewrite Hg, Hv, Hc. }
    { by apply Hdbg. }
    exists s'. split; [exact Hrun|].
    rewrite Hg, Hv in Hfn', Hlv'. rewrite Hc in Hlv', Hnone'.
    unfold objects_done. rewrite Hg', Hv', Hc', He', Ha', Hvo', Hg, Hv, Hc, He, Ha, Hvo.
    rewrite fmap_app, app_assoc. cbn [fmap list_fmap snd].
    split_and!; try done.
    + intros l Hl. rewrite Hother; [by apply Hout|]. intros ->. by apply Hl.
    + intros l Hl. destruct (decide (l = obj)) as [->|Hne]; [done|].
      rewrite Hother by done. by apply Hdbg.
    + intros l Hl. destruct (decide (l = obj)) as [->|Hne]; [by split_and!|].
      rewrite Hother by done. apply Hdone.
      apply elem_of_app in Hl as [?|Hl]; [done|].
      by apply list_elem_of_singleton in Hl.
  - apply Forall_forall. intros [k l] Hkl. cbn.
    apply list_elem_of_fmap. by exists (k, l).
  - unfold objects_done, w1. cbn. rewrite Hg0, Hv0, Hc0, He0, Ha0, Hh0, Hvo0, app_nil_r.
    split_and!; try done.
    + intros l Hl. by apply foldl_assign_out.
    + intros l Hl. by apply foldl_assign_in.
    + intros l Hl. by apply elem_of_nil in Hl.
Qed.



(** What a call of an entry point does, from the function that is hung. *)
Lemma call_debug_entry (w : world) (obj : loc) (level : option string)
    (args : list value) (e : entry) :
  match level with
  | None => debug_fn (heap w obj)
  | Some f => debug_levels (heap w obj) !! f
  end = Some e ->
  (call_debug obj level args w).1 = outcome_of w e args /\
  emitted (call_debug obj level args w).2 = (emitted w ++ events_of e args)%list.
Proof.
  intros He. rewrite call_debug_run, He.
  destruct e; cbn; rewrite ?app_nil_r; by split.
Qed.

(** X8.  The gate is the one [init] found.  For an object registered by
    [new Debugger(objects, state)] (under the conditions for the
    constructor to return), calling [obj.debug] or [obj.debug[f]] ([f] a
    function of [console]) does what the function made at registration
    does: nothing if the global flag or the state was falsy then, and
    otherwise one call of the console function bound then, or of the
    view's [output] if a view was set, ending as that call ends; and this
    after any calls of [global], [on], [off] and [setState] in between. *)
Theorem calls_follow_gate_at_init (objects : gmap string loc) (st : value)
    (w : world) (k : string) (l : loc) (cs : list flag_call)
    (level : option string) (args : list value) :
  can_init w st -> objects !! k = Some l ->
  (forall f, level = Some f -> f ∈ console_fns w) ->
  (call_debug l level args (after_calls cs (Debugger.new objects st w).2)).1
  = outcome_of w (made_entry (globalDebug w) st (view w) level) args /\
  emitted (call_debug l level args (after_calls cs (Debugger.new objects st w).2)).2
  = (emitted (after_calls cs (Debugger.new objects st w).2)
     ++ events_of (made_entry (globalDebug w) st (view w) level) args)%list.
Proof.
  intros (Hwarn & Hsafe & _) Hk Hlevel. unfold Debugger.new, bind.
  destruct (init_returns {| _objects := objects |} st w Hwarn Hsafe)
    as (w' & -> & Hg & Hv & Hc & He & Ha & Hout & Hdbg & Hdone & Hvo).
  cbn [snd ret]. cbn in Hdone.
  assert (Hin : l ∈ (map_to_list objects).*2).
  { apply list_elem_of_fmap. exists (k, l). split; [done|].
    by apply elem_of_map_to_list. }
  destruct (Hdone l Hin) as (Hfn & Hlv & _).
  destruct (after_calls_entries cs w' l) as (Hfn2 & Hlv2 & Hem2 & Hview2).
  assert (Hview : view_output (after_calls cs w') = view_output w).
  { rewrite Hview2. apply Hvo. }
  replace (outcome_of w (made_entry (globalDebug w) st (view w) level) args)
    with (outcome_of (after_calls cs w')
            (made_entry (globalDebug w) st (view w) level) args)
    by (unfold outcome_of; by rewrite Hview).
  apply call_debug_entry. rewrite Hfn2, Hlv2.
  destruct level as [f|]; [|exact Hfn]. apply Hlv. by apply Hlevel.
Qed.

Lemma calls_follow_gate_at_init_witness :
  (call_debug 0%nat (Some "warn") [VStr "x"]
     (after_calls [CallGlobal (VBool true)]
        (Debugger.new {["a" := 0%nat]} (VBool true)
           (loaded VUndefined ["log"; "warn"])).2)).1 = Ok tt /\
  emitted (call_debug 0%nat (Some "warn") [VStr "x"]
     (after_calls [CallGlobal (VBool true)]
        (Debugger.new {["a" := 0%nat]} (VBool true)
           (loaded VUndefined ["log"; "warn"])).2)).2
  = (emitted (after_calls [CallGlobal (VBool true)]
        (Debugger.new {["a" := 0%nat]} (VBool true)
           (loaded VUndefined ["log"; "warn"])).2) ++ [])%list.
Proof.
  apply (calls_follow_gate_at_init {["a" := 0%nat]} (VBool true)
           (loaded VUndefined ["log"; "warn"]) "a" 0%nat
           [CallGlobal (VBool true)] (Some "warn") [VStr "x"]).
  - split_and!.
    + intros [=].
    + left. reflexivity.
    + unfold plain_console.
      apply (bool_decide_unpack
               (Forall (fun f => f ∉ function_props) ["log"; "warn"])).
      by vm_compute.
  - by vm_compute.
  - intros f [= <-]. apply list_elem_of_further, list_elem_of_here.
Defined.

(** X9.  With the gate open, no view and no [console.log], [new
    Debugger] throws at the first object, after the flags are set. *)
Theorem new_throws_without_console_log (objects : gmap string loc) (st : value)
    (w : world) :
  truthy (globalDebug w) = true -> truthy st = true -> view w = false ->
  "log" ∉ console_fns w -> objects ≠ ∅ ->
  exists msg w',
    Debugger.new objects st w = (Throw (TypeError msg), w') /\
    (forall k l, objects !! k = Some l -> _debug (heap w' l) = st) /\
    (forall l, debug_fn (heap w' l) = debug_fn (heap w l)) /\
    emitted w' = emitted w.
Proof.
  intros Hg Hst Hv Hlog Hne. unfold Debugger.new, init. cbn [_objects].
  fold (state_missing st).
  assert (Hmiss : state_missing st = false).
  { unfold state_missing. by rewrite Hst. }
  rewrite Hmiss. unfold bind at 1 2. unfold ret at 1.
  unfold bind at 1. unfold setState. cbn [key_given].
  unfold bind at 1. rewrite for_each_assign.
  unfold bind at 1. unfold get at 1. unfold ret at 1.
  set (w1 := set_heap _ w).
  assert (Hdbg : forall k l, objects !! k = Some l -> _debug (heap w1 l) = st).
  { intros k l Hk. unfold w1. cbn. apply foldl_assign_in.
    apply list_elem_of_fmap. exists (k, l). split; [done|].
    by apply elem_of_map_to_list. }
  assert (Hfn : forall l, debug_fn (heap w1 l) = debug_fn (heap w l)).
  { intros l. unfold w1. cbn. generalize (heap w).
    induction (map_to_list objects) as [|[k l'] xs IH]; intros h; [done|].
    cbn. rewrite IH. unfold update_obj. by destruct (decide (l = l')). }
  assert (Hw1 : globalDebug w1 = globalDebug w /\ view w1 = view w /\
                console_fns w1 = console_fns w /\ emitted w1 = emitted w) by done.
  destruct Hw1 as (Hg1 & Hv1 & Hc1 & He1). clearbody w1.
  destruct (map_to_list objects) as [|[k obj] xs] eqn:Hlist.
  { by apply map_to_list_empty_iff in Hlist. }
  assert (Hobj : objects !! k = Some obj).
  { apply elem_of_map_to_list. rewrite Hlist. apply list_elem_of_here. }
  cbn [for_each]. unfold bind at 1 2. unfold modify at 1. cbn [fst snd].
  unfold bind at 1. unfold debug, bind, get, ret, throw.
  cbn [globalDebug heap view console_fns push_debugger fst snd].
  rewrite Hg1, Hg, (Hdbg k obj Hobj), Hst, Hv1, Hv, Hc1. cbn.
  rewrite bool_decide_eq_false_2 by done.
  eexists _, _. split; [reflexivity|]. cbn. split_and!; [exact Hdbg|exact Hfn|done].
Qed.

Lemma new_throws_without_console_log_witness :
  exists msg w',
    Debugger.new {["a" := 0%nat]} (VBool true) (loaded (VBool true) ["info"])
      = (Throw (TypeError msg), w') /\
    (forall k l, ({["a" := 0%nat]} : gmap string loc) !! k = Some l ->
       _debug (heap w' l) = VBool true) /\
    (forall l, debug_fn (heap w' l) = debug_fn (heap (loaded (VBool true) ["info"]) l)) /\
    emitted w' = emitted (loaded (VBool true) ["info"]).
Proof.
  apply (new_throws_without_console_log {["a" := 0%nat]} (VBool true)
           (loaded (VBool true) ["info"])).
  - reflexivity.
  - reflexivity.
  - reflexivity.
  - cbn. intros Hin. apply elem_of_cons in Hin as [?|Hin]; [done|].
    by apply elem_of_nil in Hin.
  - by vm_compute.
Defined.

(** X28.  Loading the script, to its last two lines.  The script first
    calls [console.info]; without it the script stops and nothing of it is
    defined.  With it (and [console.log], and no function of [console]
    named like a property a function keeps for itself), the root Debugger
    is made over [window] with the state [true] and prints nothing, the
    call of [debug] returns, and the ready message reaches [console.log]
    exactly when [window.iDebugMode] was truthy when the script was
    loaded. *)
Theorem ready_message_follows_iDebugMode (mode : value) (fns : list string)
    (window : loc) (msg : list value) :
  ("info" ∉ fns -> exists e, load mode fns = Throw e) /\
  ("info" ∈ fns -> "log" ∈ fns -> plain_console fns ->
   exists w0 d w1,
     load mode fns = Ok w0 /\
     Debugger.new {["window" := window]} (VBool true) w0 = (Ok d, w1) /\
     emitted w1 = emitted w0 /\
     (call_debug window None msg w1).1 = Ok tt /\
     emitted (call_debug window None msg w1).2
       = (emitted w0 ++ if truthy mode then [ConsoleCall "log" [] msg] else [])%list).
Proof.
  split.
  - intros Hinfo. eexists. unfold load. by rewrite bool_decide_eq_false_2.
  - intros Hinfo Hlog Hplain. exists (loaded mode fns).
    unfold load. rewrite bool_decide_eq_true_2 by done.
    unfold Debugger.new, bind.
    destruct (init_returns {| _objects := {["window" := window]} |} (VBool true)
                (loaded mode fns))
      as (w' & -> & Hg & Hv & Hc & He & Ha & Hout & Hdbg & Hdone & Hvo).
    { intros [=]. }
    { right; right; right. exact Hlog. }
    cbn [ret]. eexists _, w'. split; [reflexivity|]. split; [reflexivity|].
    cbn in He. split; [exact He|].
    assert (Hin : window
              ∈ (map_to_list (_objects {| _objects := {["window" := window]} |})).*2).
    { cbn. rewrite map_to_list_singleton. cbn. apply list_elem_of_here. }
    destruct (Hdone window Hin) as (Hfn & _).
    destruct (call_debug_entry w' window None msg _ Hfn) as [Hr Hem].
    rewrite Hr, Hem, He. cbn. unfold made_entry. cbn.
    destruct (bool_decide (mode = VUndefined)) eqn:Hm.
    + apply bool_decide_eq_true in Hm. subst mode. split; reflexivity.
    + cbn. destruct (truthy mode); split; reflexivity.
Qed.

Lemma ready_message_follows_iDebugMode_witness :
  exists w0 d w1,
    load (VBool true) ["log"; "info"] = Ok w0 /\
    Debugger.new {["window" := 0%nat]} (VBool true) w0 = (Ok d, w1) /\
    emitted w1 = emitted w0 /\
    (call_debug 0%nat None [VStr "iDebugger ready"] w1).1 = Ok tt /\
    emitted (call_debug 0%nat None [VStr "iDebugger ready"] w1).2
      = (emitted w0 ++ [ConsoleCall "log" [] [VStr "iDebugger ready"]])%list.
Proof.
  apply (proj2 (ready_message_follows_iDebugMode (VBool true) ["log"; "info"] 0%nat
                  [VStr "iDebugger ready"])).
  - apply list_elem_of_further, list_elem_of_here.
  - apply list_elem_of_here.
  - unfold plain_console.
    apply (bool_decide_unpack
             (Forall (fun f => f ∉ function_props) ["log"; "info"])).
    by vm_compute.
Defined.

End DebuggerMore.

(** ** LogLocation: parsing a frame, resolving a trace *)

Section LogLocationMore.
Import LogLocation Frames.

Lemma split_on_not_nil (c : ascii) (s : string) : split_on c s ≠ [].
Proof.
  destruct s as [|a s]; cbn [split_on]; [done|].
  destruct (Ascii.eqb a c); [done|]. by destruct (split_on c s).
Qed.

Lemma split_on_absent (c : ascii) (s : string) :
  has_char c s = false -> split_on c s = [s].
Proof.
  induction s as [|a s IH]; cbn [split_on has_char]; [done|].
  destruct (Ascii.eqb a c); [done|]. cbn. intros Hs. by rewrite IH.
Qed.

Lemma split_on_app (c : ascii) (a b : string) :
  split_on c (a +:+ String c b) = (split_on c a ++ split_on c b)%list.
Proof.
  induction a as [|x a IH]; simpl.
  - by rewrite Ascii.eqb_refl.
  - destruct (Ascii.eqb x c); [by rewrite IH|].
    rewrite IH. destruct (split_on c a) eqn:E; [by apply split_on_not_nil in E|done].
Qed.

(** Joining what was split gives the string back. *)
Lemma join_split_on (c : ascii) (s : string) :
  join (String c "") (split_on c s) = s.
Proof.
  induction s as [|a s IH]; cbn [split_on]; [done|].
  destruct (Ascii.eqb_spec a c) as [->|Hne].
  - destruct (split_on c s) as [|p ps] eqn:E; [by apply split_on_not_nil in E|].
    cbn in *. by rewrite IH.
  - destruct (split_on c s) as [|p ps] eqn:E; [by apply split_on_not_nil in E|].
    destruct ps; cbn in *; by rewrite <- IH.
Qed.

(** Splitting what was joined gives the parts back, when no part holds the
    separator. *)
Lemma split_on_join (c : ascii) (parts : list string) :
  parts ≠ [] -> Forall (fun p => has_char c p = false) parts ->
  split_on c (join (String c "") parts) = parts.
Proof.
  intros Hne Hall. induction Hall as [|p ps Hp Hps IH]; [done|].
  destruct ps as [|q ps].
  - by apply split_on_absent.
  - change (join (String c "") (p :: q :: ps))
      with (p +:+ String c (join (String c "") (q :: ps))).
    rewrite split_on_app, split_on_absent by done. cbn [app]. by rewrite IH.
Qed.

Lemma remove_first_absent (c : ascii) (s : string) :
  has_char c s = false -> remove_first c s = s.
Proof.
  induction s as [|a s IH]; cbn [remove_first has_char]; [done|].
  destruct (Ascii.eqb a c); [done|]. cbn. intros Hs. by rewrite IH.
Qed.

Lemma remove_first_app (c : ascii) (a b : string) :
  has_char c a = false -> remove_first c (a +:+ String c b) = a +:+ b.
Proof.
  induction a as [|x a IH]; simpl.
  - by rewrite Ascii.eqb_refl.
  - destruct (Ascii.eqb x c); [done|]. cbn. intros Ha. by rewrite IH.
Qed.

Lemma has_char_app (c : ascii) (a b : string) :
  has_char c (a +:+ b) = has_char c a || has_char c b.
Proof.
  induction a as [|x a IH]; simpl; [done|]. by rewrite IH, orb_assoc.
Qed.

Lemma plain_spec (s : string) :
  plain s = true ->
  s ≠ "" /\ has_char "/"%char s = false /\ has_char ":"%char s = false /\
  has_char "("%char s = false /\ has_char ")"%char s = false /\
  has_char "010"%char s = false.
Proof.
  unfold plain. intros H.
  repeat (apply andb_true_iff in H as [H ?]).
  repeat match goal with
         | H : negb _ = true |- _ => apply negb_true_iff in H
         end.
  split_and!; try done. by apply String.eqb_neq.
Qed.

Lemma append_cons (a : ascii) (s1 s2 : string) :
  String a s1 +:+ s2 = String a (s1 +:+ s2).
Proof. reflexivity. Qed.

Lemma append_empty (s : string) : s +:+ "" = s.
Proof. induction s as [|a s IH]; [done|]. by rewrite append_cons, IH. Qed.

Lemma append_assoc (a b c : string) : (a +:+ b) +:+ c = a +:+ (b +:+ c).
Proof. induction a as [|x a IH]; [done|]. by rewrite !append_cons, IH. Qed.

Lemma remove_first_skip (c : ascii) (a b : string) :
  has_char c a = false -> remove_first c (a +:+ b) = a +:+ remove_first c b.
Proof.
  induction a as [|x a IH]; simpl; [done|].
  destruct (Ascii.eqb x c); [done|]. simpl. intros Ha. by rewrite IH.
Qed.

Lemma locFromUrl_frame (dir file line col : string) :
  plain file = true -> plain line = true -> plain col = true ->
  locFromUrl (VStr (frame dir file line col))
  = Ok {| p_line := Some line; p_col := Some col; p_file := file; p_path := dir |}.
Proof.
  intros Hf Hl Hc.
  apply plain_spec in Hf as (_ & Hf1 & Hf2 & Hf3 & Hf4 & _).
  apply plain_spec in Hl as (_ & Hl1 & Hl2 & Hl3 & Hl4 & _).
  apply plain_spec in Hc as (_ & Hc1 & Hc2 & Hc3 & Hc4 & _).
  unfold locFromUrl, frame.
  change (dir +:+ "/" +:+ file +:+ ":" +:+ line +:+ ":" +:+ col +:+ ")")
    with (dir +:+ String "/" (file +:+ String ":" (line +:+ String ":" (col +:+ ")")))).
  set (rest := file +:+ String ":" (line +:+ String ":" (col +:+ ")"))).
  assert (Hrest : has_char "/"%char rest = false).
  { unfold rest. rewrite has_char_app. simpl. rewrite has_char_app. simpl.
    rewrite has_char_app. simpl. by rewrite Hf1, Hl1, Hc1. }
  rewrite split_on_app, (split_on_absent _ rest Hrest).
  rewrite last_snoc, removelast_last, join_split_on.
  assert (Hloc : remove_first "("%char (remove_first ")"%char rest)
                 = file +:+ String ":" (line +:+ String ":" col)).
  { unfold rest.
    rewrite (remove_first_skip ")"%char file) by done. simpl.
    rewrite (remove_first_skip ")"%char line) by done. simpl.
    change (col +:+ ")") with (col +:+ String ")" "").
    rewrite remove_first_app, append_empty by done.
    apply remove_first_absent.
    rewrite has_char_app. simpl. rewrite has_char_app. simpl.
    by rewrite Hf3, Hl3, Hc3. }
  rewrite Hloc.
  rewrite split_on_app, split_on_app, !split_on_absent by done.
  reflexivity.
Qed.

(** X10.  Parsing a frame.  For a url that ends in [/file:line:col)],
    whatever stands before the last slash, [locFromUrl] returns the file,
    the line and the column, and what stands before the last slash as the
    path. *)
Theorem locFromUrl_parses_frame (dir file line col : string) :
  plain file = true -> plain line = true -> plain col = true ->
  locFromUrl (VStr (frame dir file line col))
  = Ok {| p_line := Some line; p_col := Some col; p_file := file; p_path := dir |}.
Proof. apply locFromUrl_frame. Qed.

Lemma locFromUrl_parses_frame_witness :
  locFromUrl (VStr (frame "    at foo (http://host/js" "app.js" "12" "7"))
  = Ok {| p_line := Some "12"; p_col := Some "7"; p_file := "app.js";
          p_path := "    at foo (http://host/js" |}.
Proof.
  apply (locFromUrl_parses_frame "    at foo (http://host/js" "app.js" "12" "7");
    reflexivity.
Defined.

Lemma js_or_first (a b : value) : truthy a = true -> js_or a b = a.
Proof. unfold js_or. by intros ->. Qed.

Lemma js_or_second (a b : value) : truthy a = false -> js_or a b = b.
Proof. unfold js_or. by intros ->. Qed.

Lemma locFromUrl_string (u : string) : exists p, locFromUrl (VStr u) = Ok p.
Proof.
  unfold locFromUrl.
  destruct (last (split_on "/"%char u)) as [lst|] eqn:E; [by eexists|].
  apply last_None in E. by apply split_on_not_nil in E.
Qed.

Lemma init_on_string (u : string) (this_url this_line : value) (e : error)
    (offset : option Z) :
  js_or (js_or (js_or this_url (e_url e))
               (of_option (getStack e offset !! 0%nat))) (VStr "?") = VStr u ->
  exists r p,
    init this_url this_line e offset = Ok r /\ locFromUrl (VStr u) = Ok p /\
    url r = VStr u /\ stack r = getStack e offset /\ path r = p_path p /\
    file r = js_or (VStr (p_file p)) (VStr "?") /\
    line r = js_or (js_or (js_or (js_or this_line (of_option (p_line p)))
                                 (e_line e)) (e_lineNumber e)) (VStr "?") /\
    col r = js_or (js_or (of_option (p_col p)) (e_column e)) (VStr "") /\
    toString r = "(" +:+ join ":" [join_item (file r); join_item (line r);
                                   join_item (col r)] +:+ ")".
Proof.
  intros Hu. unfold init. rewrite Hu.
  destruct (locFromUrl_string u) as (p & Hp). rewrite Hp.
  eexists _, p. split; [reflexivity|]. by split_and!.
Qed.



(** X12.  A url and a line given in the options win.  With a non-empty
    string for [options.url], the location is the one parsed from it,
    whatever the error holds; the stack is still taken from the error; and
    a truthy [options.line] is the line, whatever the url says. *)
Theorem options_take_precedence (opts : options) (e : error) (u : string) :
  o_url opts = VStr u -> u ≠ "" ->
  exists r p,
    LogLocation.new opts e = Ok r /\ locFromUrl (VStr u) = Ok p /\
    url r = VStr u /\ path r = p_path p /\
    file r = js_or (VStr (p_file p)) (VStr "?") /\
    stack r = getStack e (o_offset opts) /\
    (truthy (o_line opts) = true -> line r = o_line opts).
Proof.
  intros Hu Hne.
  destruct (init_on_string u (o_url opts) (o_line opts) e (o_offset opts))
    as (r & p & Hr & Hp & Hurl & Hst & Hpath & Hfile & Hline & _).
  { assert (Ht : truthy (o_url opts) = true).
    { rewrite Hu. cbn. by destruct (String.eqb_spec u ""). }
    by rewrite (js_or_first (o_url opts)), !(js_or_first (o_url opts)). }
  exists r, p. split_and!; try done.
  intros Ht. rewrite Hline.
  by rewrite (js_or_first (o_line opts)), !(js_or_first (o_line opts)).
Qed.

Lemma options_take_precedence_witness :
  exists r p,
    LogLocation.new {| o_url := VStr "http://host/js/app.js"; o_line := VNum 42;
                       o_offset := None |} bare_error = Ok r /\
    locFromUrl (VStr "http://host/js/app.js") = Ok p /\
    url r = VStr "http://host/js/app.js" /\ path r = p_path p /\
    file r = js_or (VStr (p_file p)) (VStr "?") /\
    stack r = getStack bare_error None /\
    (truthy (VNum 42) = true -> line r = VNum 42).
Proof.
  apply (options_take_precedence
           {| o_url := VStr "http://host/js/app.js"; o_line := VNum 42;
              o_offset := None |} bare_error "http://host/js/app.js").
  - reflexivity.
  - discriminate.
Defined.

Lemma frame_no_newline (dir file line col : string) :
  has_char "010"%char dir = false ->
  plain file = true -> plain line = true -> plain col = true ->
  has_char "010"%char (frame dir file line col) = false.
Proof.
  intros Hd Hf Hl Hc.
  apply plain_spec in Hf as (_ & _ & _ & _ & _ & Hf).
  apply plain_spec in Hl as (_ & _ & _ & _ & _ & Hl).
  apply plain_spec in Hc as (_ & _ & _ & _ & _ & Hc).
  unfold frame.
  change (dir +:+ "/" +:+ file +:+ ":" +:+ line +:+ ":" +:+ col +:+ ")")
    with (dir +:+ String "/" (file +:+ String ":" (line +:+ String ":" (col +:+ ")")))).
  rewrite has_char_app. simpl. rewrite has_char_app. simpl.
  rewrite has_char_app. simpl. rewrite has_char_app. simpl.
  by rewrite Hd, Hf, Hl, Hc.
Qed.

Lemma frame_not_empty (dir file line col : string) :
  String.eqb (frame dir file line col) "" = false.
Proof.
  apply String.eqb_neq. unfold frame. destruct dir; [done|]. by rewrite append_cons.
Qed.

Lemma plain_truthy (s : string) : plain s = true -> truthy (VStr s) = true.
Proof. intros Hs. apply plain_spec in Hs as (Hne & _). cbn. by destruct (String.eqb_spec s ""). Qed.

(** X13.  Resolving the caller.  With no url or line given, and a trace
    that has as many lines before the caller's frame as [getStack] drops
    (4 plus the offset), the stack is the caller's frame and what follows
    it, and the location is the file, line and column of that frame. *)
Theorem trace_resolves_to_caller (opts : options) (e : error)
    (pre post : list string) (dir file line col : string) :
  truthy (o_url opts) = false -> truthy (e_url e) = false ->
  truthy (o_line opts) = false ->
  Z.of_nat (length pre) = dropped (o_offset opts) ->
  Forall (fun l => has_char "010"%char l = false) (pre ++ post)%list ->
  has_char "010"%char dir = false ->
  plain file = true -> plain line = true -> plain col = true ->
  e_stack e = Some (trace (pre ++ frame dir file line col :: post)%list) ->
  exists r,
    LogLocation.new opts e = Ok r /\
    stack r = frame dir file line col :: post /\
    url r = VStr (frame dir file line col) /\
    path r = dir /\ LogLocation.file r = VStr file /\ LogLocation.line r = VStr line /\ LogLocation.col r = VStr col /\
    toString r = "(" +:+ file +:+ ":" +:+ line +:+ ":" +:+ col +:+ ")".
Proof.
  intros Hou Heu Hol Hlen Hlines Hdir Hf Hl Hc Hstack.
  set (fr := frame dir file line col) in *.
  assert (Hfr : has_char "010"%char fr = false) by by apply frame_no_newline.
  assert (Hall : Forall (fun l => has_char "010"%char l = false)
                   (pre ++ fr :: post)%list).
  { apply Forall_app in Hlines as [Hpre Hpost]. apply Forall_app. split; [done|].
    by constructor. }
  assert (Hget : getStack e (o_offset opts) = fr :: post).
  { unfold getStack. fold (dropped (o_offset opts)). rewrite Hstack. cbn [default from_option id].
    unfold trace. rewrite split_on_join; [|by destruct pre|done].
    assert (Hsl : js_slice (dropped (o_offset opts)) (pre ++ fr :: post)%list
                  = fr :: post).
    { unfold js_slice. rewrite <- Hlen.
      destruct (Z.ltb_spec (Z.of_nat (length pre)) 0); [lia|].
      rewrite Z.min_l by (rewrite length_app; lia).
      by rewrite Nat2Z.id, drop_app_length. }
    rewrite Hsl. unfold fr. by rewrite frame_not_empty. }
  destruct (init_on_string fr (o_url opts) (o_line opts) e (o_offset opts))
    as (r & p & Hr & Hp & Hurl & Hst & Hpath & Hfile & Hline & Hcol & Hstr).
  { rewrite Hget. cbn [lookup list_lookup of_option].
    rewrite (js_or_second (o_url opts)), (js_or_second (e_url e)) by done.
    rewrite js_or_first; [done|]. cbn. unfold fr. by rewrite frame_not_empty. }
  unfold fr in Hp. rewrite locFromUrl_frame in Hp by done. injection Hp as <-.
  cbn [p_file p_line p_col p_path of_option] in *.
  assert (Hfile' : LogLocation.file r = VStr file).
  { rewrite Hfile. apply js_or_first. by apply plain_truthy. }
  assert (Hline' : LogLocation.line r = VStr line).
  { rewrite Hline. rewrite (js_or_second (o_line opts)) by done.
    rewrite !(js_or_first (VStr line)); [done|by apply plain_truthy..]. }
  assert (Hcol' : LogLocation.col r = VStr col).
  { rewrite Hcol. rewrite !(js_or_first (VStr col)); [done|by apply plain_truthy..]. }
  exists r. split_and!; try done.
  - by rewrite Hst.
  - rewrite Hstr, Hfile', Hline', Hcol'.
    cbn [join join_item loosely_undefined to_string].
    by rewrite !append_assoc.
Qed.

Lemma trace_resolves_to_caller_witness :
  exists r,
    LogLocation.new no_options
      {| e_stack := Some (trace (["Error";
                                  "    at new LogLocation (http://host/iDebugConsole.js:810:21)";
                                  "    at makeOutput (http://host/iDebugConsole.js:762:19)";
                                  "    at output (http://host/iDebugConsole.js:695:21)"]
                                 ++ frame "    at foo (http://host/js" "app.js" "12" "7"
                                 :: ["    at http://host/js/app.js:20:1"])%list);
         e_url := VUndefined; e_line := VUndefined; e_lineNumber := VUndefined;
         e_column := VUndefined |} = Ok r /\
    stack r = frame "    at foo (http://host/js" "app.js" "12" "7"
              :: ["    at http://host/js/app.js:20:1"] /\
    url r = VStr (frame "    at foo (http://host/js" "app.js" "12" "7") /\
    path r = "    at foo (http://host/js" /\
    file r = VStr "app.js" /\ line r = VStr "12" /\ col r = VStr "7" /\
    toString r = "(app.js:12:7)".
Proof.
  apply (trace_resolves_to_caller no_options _
           ["Error";
            "    at new LogLocation (http://host/iDebugConsole.js:810:21)";
            "    at makeOutput (http://host/iDebugConsole.js:762:19)";
            "    at output (http://host/iDebugConsole.js:695:21)"]
           ["    at http://host/js/app.js:20:1"]
           "    at foo (http://host/js" "app.js" "12" "7");
    try reflexivity.
  repeat constructor.
Defined.

(** X14.  A trace too short.  When the trace has no more lines than
    [getStack] drops (the default is 4) and the offset is at least -1, the
    stack is empty; with no url given either, url and file are "?", the
    path is empty, and with no line and column known the location reads
    "(?:?:)". *)
Theorem short_trace_degrades (opts : options) (e : error) :
  (Z.of_nat (length (split_on "010"%char (default "" (e_stack e))))
   <= dropped (o_offset opts))%Z ->
  (-1 <= default 0 (o_offset opts))%Z ->
  truthy (o_url opts) = false -> truthy (e_url e) = false ->
  exists r,
    LogLocation.new opts e = Ok r /\
    stack r = [] /\ url r = VStr "?" /\ LogLocation.file r = VStr "?" /\
    path r = "" /\
    (truthy (o_line opts) = false -> truthy (e_line e) = false ->
     truthy (e_lineNumber e) = false -> truthy (e_column e) = false ->
     toString r = "(?:?:)").
Proof.
  intros Hshort Hoff Hou Heu.
  assert (Hget : getStack e (o_offset opts) = []).
  { unfold getStack. fold (dropped (o_offset opts)).
    rewrite (js_slice_past_end (dropped (o_offset opts))) by done.
    cbn. apply js_slice_past_end. unfold dropped, baseIndex. cbn. lia. }
  destruct (init_on_string "?" (o_url opts) (o_line opts) e (o_offset opts))
    as (r & p & Hr & Hp & Hurl & Hst & Hpath & Hfile & Hline & Hcol & Hstr).
  { rewrite Hget. cbn [lookup list_lookup of_option].
    by rewrite (js_or_second (o_url opts)), (js_or_second (e_url e)). }
  vm_compute in Hp. injection Hp as <-.
  cbn [p_file p_line p_col p_path of_option] in *.
  exists r. split_and!; try done.
  - by rewrite Hst.
  - intros H1 H2 H3 H4. rewrite Hstr, Hfile, Hline, Hcol.
    rewrite (js_or_second (o_line opts)) by done.
    rewrite (js_or_second VUndefined) by done.
    rewrite (js_or_second (e_line e)), (js_or_second (e_lineNumber e)) by done.
    rewrite (js_or_second VUndefined) by done.
    by rewrite (js_or_second (e_column e)).
Qed.

Lemma short_trace_degrades_witness :
  exists r,
    LogLocation.new no_options
      {| e_stack := Some "Error"; e_url := VUndefined; e_line := VUndefined;
         e_lineNumber := VUndefined; e_column := VUndefined |} = Ok r /\
    stack r = [] /\ url r = VStr "?" /\ LogLocation.file r = VStr "?" /\
    path r = "" /\ toString r = "(?:?:)".
Proof.
  destruct (short_trace_degrades no_options
              {| e_stack := Some "Error"; e_url := VUndefined; e_line := VUndefined;
                 e_lineNumber := VUndefined; e_column := VUndefined |})
    as (r & Hr & Hst & Hu & Hf & Hp & Hs);
    [by vm_compute | by vm_compute | reflexivity | reflexivity |].
  exists r. split_and!; try done. by apply Hs.
Defined.

End LogLocationMore.

(** ** Profiler: the registry, scripts of calls, printing *)

Section ProfilerMore.
Import Profiler ProfilerCalls.

Ltac step :=
  repeat (unfold bind, ret, get, modify, throw, on_this, on_world, in_world; cbn).

(** X15.  [group(name)] with a string never throws: the instance joins the
    group; a flag the registry already holds for it or inherits, [false]
    included, is kept, and only a missing (or null) one is entered, as
    [true]; no other group's flag changes and nothing is printed. *)
Theorem group_keeps_declared_flag (name : string) (p : t) (w : world) :
  exists w',
    group (VStr name) (p, w) = (Ok name, (set_group name p, w')) /\
    (forall b, groups_get w name = VBool b -> groups_get w' name = VBool b) /\
    (loosely_undefined (groups_get w name) = false ->
       groups_get w' name = groups_get w name) /\
    (loosely_undefined (groups_get w name) = true ->
       groups_get w' name = VBool true) /\
    (forall k, k ≠ name -> groups_get w' k = groups_get w k) /\
    console w' = console w /\ ticks w' = ticks w.
Proof.
  eexists. split; [apply group_string|].
  rewrite assign_declared_get. unfold declared. split_and!.
  - by intros b ->.
  - by intros ->.
  - by intros ->.
  - intros k Hk. by apply assign_declared_other.
  - apply assign_flag_frame.
  - apply assign_flag_frame.
Qed.

Lemma group_keeps_declared_flag_witness :
  exists w',
    group (VStr "g1")
      (stopwatch, set_groups (<["g1" := VBool false]> (groups w_loaded)) w_loaded)
      = (Ok "g1", (set_group "g1" stopwatch, w')) /\
    groups_get w' "g1" = VBool false /\ groups_get w' "global" = VBool true.
Proof.
  destruct (group_keeps_declared_flag "g1" stopwatch
              (set_groups (<["g1" := VBool false]> (groups w_loaded)) w_loaded))
    as (w' & Hg & Hb & _ & _ & Hk & _).
  exists w'. split; [exact Hg|]. split.
  - apply Hb. reflexivity.
  - rewrite Hk by discriminate. reflexivity.
Defined.



(** The only exception [group] ever throws is the one about the string:
    after the registry is written the flag of a string is never undefined. *)
Lemma group_throws_only_type (v : value) (st : state) (e : exn) :
  (group v st).1 = Throw e ->
  e = Thrown "Profiler.group must be a global variable as a string." /\
  typeof v ≠ TString.
Proof.
  destruct st as [p w].
  destruct (decide (v = VUndefined)) as [->|Hu]; [by rewrite group_read|].
  destruct (decide (typeof v = TString)) as [Hs|Hs].
  - destruct v; try done. by rewrite group_string.
  - rewrite group_not_string by done. cbn. by intros [= <-].
Qed.

Lemma same_setup_effective (st st' : state) :
  same_setup st st' -> effective st'.1 st'.2 = effective st.1 st.2.
Proof.
  intros (Ha & Hg & _ & Hgs & Hi & _). unfold effective, groups_get.
  by rewrite Ha, Hg, Hgs, Hi.
Qed.

Lemma same_setup_clock (st st' : state) :
  same_setup st st' -> clock st'.2 = clock st.2.
Proof.
  intros (_ & _ & _ & _ & _ & _ & Hp & Hn & Hd). unfold clock.
  by rewrite Hp, Hn, Hd.
Qed.

(** [printElapsed(name)] on an instance that is not running reads no
    clock. *)
Lemma printElapsed_idle (name : option string) (p : t) (w : world) :
  running p = false ->
  printElapsed name (p, w) =
    (Ok tt, (set_currentName (name_or name (currentName p)) p,
             log (Elapsed (name_or name (currentName p))
                    (fl w (stopTime p - startTime p)%Q)
                    (fl w (fl w (stopTime p - startTime p) / 1000)%Q)) w)).
Proof.
  intros Hr. unfold printElapsed, getElapsedSeconds, getElapsedMilliseconds.
  step. rewrite Hr. step. rewrite ?Hr. by step.
Qed.

(** [stop(print)] on an active instance, field by field. *)
Lemma stop_active_fields (print : value) (p : t) (w : world) :
  truthy (effective p w) = true ->
  exists p' w',
    stop print (p, w) = (Ok tt, (p', w')) /\
    results p' = (results p ++
      [{| s_name := currentName p;
          s_time := fl w (clock w (ticks w) - startTime p)%Q |}])%list /\
    running p' = false /\ currentName p' = currentName p /\
    startTime p' = startTime p /\ stopTime p' = clock w (ticks w) /\
    initName p' = initName p /\ useTable p' = useTable p /\
    ticks w' = S (ticks w) /\ same_setup (p, w) (p', w') /\
    console w' = (console w ++
      if is_elapsed w print then
        [Elapsed (currentName p)
           (fl w (clock w (ticks w) - startTime p)%Q)
           (fl w (fl w (clock w (ticks w) - startTime p) / 1000)%Q)]
      else if truthy print then
        [Report (useTable p) (initName p)
           (a_rows (report (fl w)
              (push_result {| s_name := currentName p;
                              s_time := fl w (clock w (ticks w) - startTime p)%Q |}
                 p)))]
      else [])%list.
Proof.
  intros Ha. unfold stop, currentTime. step.
  change (js_and (VBool (_active p)) (groups_get (tick w) (_group p)))
    with (effective p w).
  rewrite Ha. step. rewrite is_elapsed_tick.
  destruct (is_elapsed w print).
  - rewrite printElapsed_idle by done.
    eexists _, _. split; [reflexivity|]. by cbn.
  - destruct (truthy print).
    + rewrite printResults_logs_report.
      eexists _, _. split; [reflexivity|]. by cbn.
    + step. eexists _, _. split; [reflexivity|]. cbn.
      rewrite app_nil_r. done.
Qed.

(** [stop(print)] on an instance that is not active. *)
Lemma stop_inactive_state (print : value) (p : t) (w : world) :
  truthy (effective p w) = false ->
  stop print (p, w) =
    (Ok tt, (set_running false (set_stopTime (clock w (ticks w)) p), tick w)).
Proof.
  intros Ha. unfold stop, currentTime. step.
  change (js_and (VBool (_active p)) (groups_get (tick w) (_group p)))
    with (effective p w).
  by rewrite Ha.
Qed.

Lemma start_inactive_state (name : option string) (p : t) (w : world) :
  truthy (effective p w) = false -> start name (p, w) = (Ok tt, (p, w)).
Proof.
  intros Ha. unfold start. step.
  change (js_and (VBool (_active p)) (groups_get w (_group p))) with (effective p w).
  by rewrite Ha.
Qed.

(** One call adds at most one sample, and only [start] and [stop] do. *)
Lemma run_call_results (st : state) (c : call) :
  exists added,
    results (run_call st c).1 = (results st.1 ++ added)%list /\
    length added <= (if may_record c then 1 else 0).
Proof.
  destruct st as [p w]. destruct c as [n|print|v|v|n|n|k v]; cbn [run_call may_record].
  - destruct (truthy (effective p w)) eqn:Ha.
    + destruct (running p) eqn:Hr.
      * destruct (start_when_running n p w Ha Hr) as (p' & -> & Hres & _).
        eexists. split; [exact Hres|]. cbn. lia.
      * rewrite start_when_idle by done. exists []. cbn.
        rewrite app_nil_r. split; [done|lia].
    + rewrite start_inactive_state by done. exists []. cbn.
      rewrite app_nil_r. split; [done|lia].
  - destruct (truthy (effective p w)) eqn:Ha.
    + destruct (stop_when_active print p w Ha) as (p' & w' & -> & Hres & _).
      eexists. split; [exact Hres|]. cbn. lia.
    + rewrite stop_inactive_state by done. exists []. cbn.
      rewrite app_nil_r. split; [done|lia].
  - exists []. rewrite app_nil_r. split; [|cbn; lia].
    destruct (decide (v = VUndefined)) as [->|Hu]; [by rewrite group_read|].
    destruct (decide (typeof v = TString)) as [Hs|Hs].
    + destruct v; try done. by rewrite group_string.
    + by rewrite group_not_string.
  - exists []. rewrite app_nil_r. split; [|cbn; lia].
    by destruct v.
  - exists []. rewrite app_nil_r. split; [|cbn; lia].
    destruct (running p) eqn:Hr.
    + unfold printElapsed, getElapsedSeconds, getElapsedMilliseconds, currentTime.
      step. rewrite Hr. step. rewrite Hr. by step.
    + by rewrite printElapsed_idle.
  - exists []. rewrite app_nil_r. split; [|cbn; lia].
    by rewrite printResults_logs_report.
  - exists []. rewrite app_nil_r. split; [done|cbn; lia].
Qed.

(** X17.  Whatever a script does with an instance (calls of [start], [stop],
    [group], [active], [printElapsed] and [printResults] with any
    arguments, failed calls included, and assignments to the flags of
    [Profiler.groups]), the samples recorded so far stay where they are,
    unchanged: [results] only grows at its end, by at most one sample for
    each call of [start] or [stop]. *)
Theorem results_only_grow (cs : list call) (st : state) :
  exists added,
    results (run_calls st cs).1 = (results st.1 ++ added)%list /\
    length added <= length (List.filter may_record cs).
Proof.
  revert st. induction cs as [|c cs IH]; intros st.
  - exists []. cbn. rewrite app_nil_r. split; [done|lia].
  - change (run_calls st (c :: cs)) with (run_calls (run_call st c) cs).
    destruct (run_call_results st c) as (a1 & H1 & L1).
    destruct (IH (run_call st c)) as (a2 & H2 & L2).
    exists (a1 ++ a2)%list. split.
    + rewrite H2, H1. by rewrite <- app_assoc.
    + rewrite length_app. cbn [List.filter]. destruct (may_record c); cbn; lia.
Qed.

(** X18.  [stop] does not look at [running]: called twice in a row on an
    active instance it records two samples, the second one measured, like
    the first, from the [startTime] the instance had, whatever each call
    prints.  The readings are those of the platform's clock, which is the
    clock [currentTime] reads, whatever the instance's [performance] field
    says. *)
Theorem stop_twice_measures_from_same_start (print1 print2 : value) (p : t)
    (w : world) :
  truthy (effective p w) = true ->
  exists p' w',
    (stop print1 ;;; stop print2)%js (p, w) = (Ok tt, (p', w')) /\
    results p' = (results p ++
      [{| s_name := currentName p;
          s_time := fl w (clock w (ticks w) - startTime p)%Q |};
       {| s_name := currentName p;
          s_time := fl w (clock w (S (ticks w)) - startTime p)%Q |}])%list.
Proof.
  intros Ha. unfold bind.
  destruct (stop_active_fields print1 p w Ha)
    as (p1 & w1 & -> & Hres1 & _ & Hn1 & Hs1 & _ & _ & _ & Ht1 & Hsame & _).
  assert (Ha1 : truthy (effective p1 w1) = true).
  { pose proof (same_setup_effective _ _ Hsame) as He. cbn in He. by rewrite He. }
  destruct (stop_active_fields print2 p1 w1 Ha1)
    as (p2 & w2 & -> & Hres2 & _).
  exists p2, w2. split; [reflexivity|].
  rewrite Hres2, Hres1, Hn1, Hs1, Ht1.
  pose proof (same_setup_clock _ _ Hsame) as Hc. cbn in Hc. rewrite Hc.
  destruct Hsame as (_ & _ & _ & _ & _ & Hfl & _). cbn in Hfl. rewrite Hfl.
  by rewrite <- app_assoc.
Qed.

Lemma stop_twice_measures_from_same_start_witness :
  exists p' w',
    (stop VUndefined ;;; stop VUndefined)%js (stopwatch, w_loaded)
      = (Ok tt, (p', w')) /\
    results p' =
      [{| s_name := "t"; s_time := (counting_clock 0 - 0)%Q |};
       {| s_name := "t"; s_time := (counting_clock 1 - 0)%Q |}].
Proof.
  apply (stop_twice_measures_from_same_start VUndefined VUndefined stopwatch w_loaded);
    reflexivity.
Defined.

(** X19.  [printElapsed(name)] does not stop the instance and records
    nothing.  On a running instance it reads the clock twice: the
    milliseconds printed come from the first reading and the seconds from
    the second (readings of the platform's clock, whatever the instance's
    [performance] field says).  On an instance
    that is not running it reads no clock and prints the last segment
    again. *)
Theorem printElapsed_reads_twice (name : option string) (p : t) (w : world) :
  (running p = true ->
   exists p',
     printElapsed name (p, w) =
       (Ok tt, (p', log (Elapsed (name_or name (currentName p))
                           (fl w (clock w (ticks w) - startTime p)%Q)
                           (fl w (fl w (clock w (S (ticks w)) - startTime p)
                                  / 1000)%Q))
                      (tick (tick w)))) /\
     running p' = true /\ results p' = results p /\
     currentName p' = name_or name (currentName p) /\
     startTime p' = startTime p /\ stopTime p' = clock w (S (ticks w))) /\
  (running p = false ->
   printElapsed name (p, w) =
     (Ok tt, (set_currentName (name_or name (currentName p)) p,
              log (Elapsed (name_or name (currentName p))
                     (fl w (stopTime p - startTime p)%Q)
                     (fl w (fl w (stopTime p - startTime p) / 1000)%Q)) w))).
Proof.
  split; [|apply printElapsed_idle].
  intros Hr.
  unfold printElapsed, getElapsedSeconds, getElapsedMilliseconds, currentTime.
  step. rewrite Hr. step. rewrite Hr. step.
  eexists. split; [reflexivity|]. by cbn.
Qed.

Lemma printElapsed_reads_twice_witness :
  exists p',
    printElapsed None (set_running true stopwatch, w_loaded) =
      (Ok tt, (p', log (Elapsed "t" (counting_clock 0 - 0)%Q
                          ((counting_clock 1 - 0) / 1000)%Q)
                     (tick (tick w_loaded)))) /\
    running p' = true /\ results p' = [] /\ currentName p' = "t" /\
    startTime p' = 0%Q /\ stopTime p' = counting_clock 1.
Proof.
  apply (proj1 (printElapsed_reads_twice None (set_running true stopwatch) w_loaded));
    reflexivity.
Defined.

(** X20.  [stop(print)] prints after it has recorded: with a [print] that
    [==] finds equal to ['elapsed'] (that string, or an object that
    converts to it) the line printed carries the time of the sample just
    appended (and that time over 1000), with any other truthy [print] the
    report printed is the one of the results with that sample in. *)
Theorem stop_prints_the_new_sample (print : value) (p : t) (w : world) :
  truthy (effective p w) = true ->
  exists p' w' smp,
    stop print (p, w) = (Ok tt, (p', w')) /\
    results p' = (results p ++ [smp])%list /\
    s_name smp = currentName p /\
    console w' = (console w ++
      if is_elapsed w print then
        [Elapsed (s_name smp) (s_time smp) (fl w (s_time smp / 1000)%Q)]
      else if truthy print then
        [Report (useTable p) (initName p)
           (a_rows (report (fl w) (push_result smp p)))]
      else [])%list.
Proof.
  intros Ha.
  destruct (stop_active_fields print p w Ha)
    as (p' & w' & Hs & Hres & _ & _ & _ & _ & _ & _ & _ & _ & Hc).
  eexists p', w', _. split; [exact Hs|]. split; [exact Hres|].
  split; [reflexivity|]. exact Hc.
Qed.

Lemma stop_prints_the_new_sample_witness :
  exists p' w' smp,
    stop (VStr "elapsed") (stopwatch, w_loaded) = (Ok tt, (p', w')) /\
    results p' = [smp] /\
    s_name smp = "t" /\
    console w' = [UserAgentInfo;
                  Elapsed (s_name smp) (s_time smp) (s_time smp / 1000)%Q].
Proof.
  apply (stop_prints_the_new_sample (VStr "elapsed") stopwatch w_loaded).
  reflexivity.
Defined.

(** X21.  When the function a wrapper calls throws, the wrapper throws the
    same exception and [stop] is never reached: no sample is recorded and
    the instance is left running.  The next [start], which the next call
    of the wrapper begins with, then records a sample for the abandoned
    call. *)
Theorem wrapper_rethrows_and_stays_running (f : callable) (p : t) (w w1 : world)
    (e : exn) :
  truthy (effective p w) = true -> running p = false ->
  fn_call f (tick w) = (Throw e, w1) ->
  exists p',
    profileWrapper f (p, w) = (Throw e, (p', w1)) /\
    invoke (Wrapper p f) w = (Throw e, w1) /\
    results p' = results p /\ running p' = true /\
    forall name w2, truthy (effective p' w2) = true ->
      exists p'' smp,
        start name (p', w2) = (Ok tt, (p'', tick (tick w2))) /\
        results p'' = (results p ++ [smp])%list /\
        s_name smp = currentName p.
Proof.
  intros Ha Hr Hcall.
  assert (Hw : profileWrapper f (p, w) =
               (Throw e, (set_running true
                            (set_startTime (clock w (ticks w))
                               (set_currentName (name_or None (currentName p)) p)),
                          w1))).
  { unfold profileWrapper, bind. rewrite start_when_idle by done.
    unfold in_world. cbn [fst snd]. by rewrite Hcall. }
  eexists. split; [exact Hw|]. split_and!.
  - unfold invoke. by rewrite Hw.
  - reflexivity.
  - reflexivity.
  - intros name w2 Ha2.
    edestruct (start_when_running name) as (p'' & Hs & Hres & _);
      [exact Ha2|reflexivity|].
    eexists p'', _. split; [exact Hs|]. split; [exact Hres|]. reflexivity.
Qed.

Lemma wrapper_rethrows_and_stays_running_witness :
  exists p',
    profileWrapper failing (stopwatch, w_loaded) = (Throw (Thrown "no"), (p', tick w_loaded)) /\
    invoke (Wrapper stopwatch failing) w_loaded = (Throw (Thrown "no"), tick w_loaded) /\
    results p' = [] /\ running p' = true /\
    forall name w2, truthy (effective p' w2) = true ->
      exists p'' smp,
        start name (p', w2) = (Ok tt, (p'', tick (tick w2))) /\
        results p'' = [smp] /\
        s_name smp = "t".
Proof.
  apply (wrapper_rethrows_and_stays_running failing stopwatch w_loaded (tick w_loaded)
           (Thrown "no")); reflexivity.
Defined.

(** X27.  A wrapper whose instance is not active (switched off after the
    function was decorated, by [active(false)] or by the flag of its
    group) is transparent: the function is called, its value returned,
    nothing is recorded and nothing printed; [stop] still reads the clock
    once. *)
Theorem wrapper_is_transparent_when_inactive (f : callable) (p : t) (w w1 : world)
    (v : value) :
  truthy (effective p w) = false ->
  fn_call f w = (Ok v, w1) ->
  truthy (effective p w1) = false ->
  exists p',
    invoke (Wrapper p f) w = (Ok (v, Wrapper p' f), tick w1) /\
    results p' = results p /\ running p' = false /\
    startTime p' = startTime p /\ currentName p' = currentName p /\
    console (tick w1) = console w1.
Proof.
  intros Ha Hcall Ha1. unfold invoke, profileWrapper, bind.
  rewrite start_inactive_state by done. unfold in_world. cbn [fst snd].
  rewrite Hcall. rewrite stop_inactive_state by done.
  eexists. split; [reflexivity|]. by cbn.
Qed.

Lemma wrapper_is_transparent_when_inactive_witness :
  exists p',
    invoke (Wrapper (set_active false stopwatch) functionA) w_loaded
      = (Ok (VUndefined, Wrapper p' functionA), tick w_loaded) /\
    results p' = [] /\ running p' = false /\
    startTime p' = 0%Q /\ currentName p' = "t" /\
    console (tick w_loaded) = console w_loaded.
Proof.
  apply (wrapper_is_transparent_when_inactive functionA (set_active false stopwatch)
           w_loaded w_loaded VUndefined); reflexivity.
Defined.

(** *** The constructor *)

(** X22.  Given a function that it can name (a name in the options, or the
    function's own, or a prototype to look for one), options it accepts,
    no [active: false], and a truthy flag for the instance's group, the
    constructor returns the wrapper and not the function: its [profiler]
    is a fresh instance, not running and with no results, in the group
    asked for and active; its three names agree, and the name never begins
    with [function]. *)
Theorem active_decorator_returns_wrapper (f : callable) (name : name_arg)
    (opts : option options) (w : world) :
  let o := resolve_options (Function f) name opts in
  o_group o = VUndefined \/ typeof (o_group o) = TString ->
  o_active o = VUndefined \/ o_active o = VBool true ->
  can_be_named o f ->
  truthy (flag_at_construction o w) = true ->
  exists p,
    Profiler.new (Function f) name opts w
      = (Ok (Wrapper p f), world_after_group o w) /\
    profiler (Wrapper p f) = Some p /\
    results p = [] /\ running p = false /\ _group p = group_of o /\
    truthy (effective p (world_after_group o w)) = true /\
    prevName p = currentName p /\ initName p = currentName p /\
    String.prefix "function" (currentName p) = false.
Proof.
  intros o Hgroup Hactive Hnamed Hflag.
  pose proof (new_runs_initPrototype (Function f) name opts w) as Hn.
  cbv zeta in Hn. fold o in Hn.
  destruct Hn as (this & Hnew & Hname & Hres & Hrun & Hgr & Hact & Hget);
    [exact Hgroup| |].
  { destruct Hactive as [H|H]; rewrite H; [by left|by right]. }
  destruct (first_name_function f this) as (n & Hfirst).
  { rewrite Hname. exact Hnamed. }
  assert (Hon : _active this = true).
  { rewrite Hact. by destruct Hactive as [H|H]; rewrite H. }
  assert (Heff : truthy (effective this (world_after_group o w)) = true).
  { unfold effective, js_and. rewrite Hon. cbn [truthy]. by rewrite Hget. }
  destruct (initPrototype_fields (Some f) this (world_after_group o w) n Hfirst)
    as (p & Hinit & Hres' & Hrun' & Hgr' & Hact' & Hprev & Hini & Hpre & _).
  rewrite Heff in Hinit. rewrite Hinit in Hnew. cbn in Hnew.
  exists p. split; [exact Hnew|]. split_and!; try done.
  - congruence.
  - congruence.
  - congruence.
  - unfold effective, js_and. rewrite Hact', Hon, Hgr'. cbn [truthy]. by rewrite Hget.
Qed.

Lemma active_decorator_returns_wrapper_witness :
  exists p,
    Profiler.new (Function functionA) NoName None w_loaded
      = (Ok (Wrapper p functionA), w_loaded) /\
    profiler (Wrapper p functionA) = Some p /\
    results p = [] /\ running p = false /\ _group p = "global" /\
    truthy (effective p w_loaded) = true /\
    prevName p = currentName p /\ initName p = currentName p /\
    String.prefix "function" (currentName p) = false.
Proof.
  apply (active_decorator_returns_wrapper functionA NoName None w_loaded).
  - left. reflexivity.
  - left. reflexivity.
  - right. left. discriminate.
  - reflexivity.
Defined.

(** X23.  Given a string first (timer mode) and options it accepts, the
    constructor returns the instance itself, active or not.  The string is
    the name, whatever [options.name] says: an empty one becomes
    [Unnamed timer], one that begins with [function] gets [unnamed] in
    front, any other is kept; all three names are set to it.  The instance
    is not running and has no results. *)
Theorem timer_mode_returns_instance (n : string) (name : name_arg)
    (opts : option options) (w : world) :
  let o := resolve_options (TimerName n) name opts in
  o_group o = VUndefined \/ typeof (o_group o) = TString ->
  o_active o = VUndefined \/ typeof (o_active o) = TBoolean ->
  exists p,
    Profiler.new (TimerName n) name opts w
      = (Ok (Instance p), world_after_group o w) /\
    currentName p = timer_name n /\ prevName p = timer_name n /\
    initName p = timer_name n /\
    _group p = group_of o /\
    _active p = (if o_active o is VBool b then b else true) /\
    results p = [] /\ running p = false.
Proof.
  intros o Hgroup Hactive.
  pose proof (new_runs_initPrototype (TimerName n) name opts w) as Hn0.
  cbv zeta in Hn0. fold o in Hn0.
  destruct (Hn0 Hgroup Hactive)
    as (this & Hnew & Hname & Hres & Hrun & Hgr & Hact & _).
  assert (Hn : default "" (o_name o) = n) by reflexivity.
  rewrite Hn in Hname.
  assert (Hfirst : first_name None this =
                     Ok (if String.eqb n "" then "Unnamed timer" else n)).
  { unfold first_name. rewrite Hname. by destruct (String.eqb n ""). }
  destruct (initPrototype_fields None this (world_after_group o w) _ Hfirst)
    as (p & Hinit & Hres' & Hrun' & Hgr' & Hact' & Hprev & Hini & _ & Hcur).
  rewrite Hinit in Hnew. cbn in Hnew.
  assert (Htimer : currentName p = timer_name n).
  { rewrite Hcur. unfold timer_name. by destruct (String.eqb n ""). }
  exists p. split; [exact Hnew|]. split_and!; congruence.
Qed.

Lemma timer_mode_returns_instance_witness :
  exists p,
    Profiler.new (TimerName "function timer") (Options inactive_options) None w_loaded
      = (Ok (Instance p), w_loaded) /\
    currentName p = "unnamed function timer" /\
    prevName p = "unnamed function timer" /\
    initName p = "unnamed function timer" /\
    _group p = "global" /\ _active p = false /\
    results p = [] /\ running p = false.
Proof.
  apply (timer_mode_returns_instance "function timer" (Options inactive_options)
           None w_loaded).
  - left. reflexivity.
  - right. reflexivity.
Defined.

(** *** The report *)

Lemma row_name_is_label (n prev : string) : is_label (row_name n prev).
Proof.
  destruct (row_name_label n prev) as [->| ->]; [by left|right; by eexists].
Qed.

(** A name that is shown is hidden only behind its own repetition. *)
Lemma row_name_shown (n prev : string) :
  shown n = true ->
  row_name n prev = if String.eqb n prev then "" else " " +:+ n.
Proof.
  unfold shown, row_name. intros H.
  apply andb_prop in H as [H Hsp]. apply andb_prop in H as [H Hun].
  apply andb_prop in H as [He Hfn].
  apply negb_true_iff in He, Hfn, Hun. rewrite He, Hfn, Hun. cbn.
  destruct (String.eqb n prev); [done|]. by rewrite He.
Qed.

Lemma shown_not_label (n l : string) : shown n = true -> is_label l -> n ≠ l.
Proof.
  unfold shown. intros H Hl ->.
  apply andb_prop in H as [H Hsp]. apply andb_prop in H as [H _].
  apply andb_prop in H as [He _].
  destruct Hl as [->|[x ->]]; [done|].
  destruct x; by vm_compute in Hsp.
Qed.

Lemma labels_lookup (rs : list sample) (prev : string) (j : nat) (l : string) :
  labels prev rs !! j = Some l ->
  exists r, rs !! j = Some r /\ (l = "" \/ l = " " +:+ s_name r).
Proof.
  revert prev j. induction rs as [|r rs IH]; intros prev j H; [done|].
  destruct j as [|j]; cbn in H.
  - injection H as <-. exists r. split; [done|]. apply row_name_label.
  - by apply IH in H.
Qed.

Lemma labels_is_label (rs : list sample) (prev : string) (j : nat) (l : string) :
  labels prev rs !! j = Some l -> is_label l.
Proof.
  intros H. apply labels_lookup in H as (r & _ & [->| ->]); [by left|right; by eexists].
Qed.

(** The decimal numeral of an index: digits only, and at least one. *)
Lemma string_of_uint_digits (d : Decimal.uint) :
  all_digits (NilEmpty.string_of_uint d) = true.
Proof. induction d; cbn; by rewrite ?IHd. Qed.

Lemma to_uint_not_nil (n : nat) : Nat.to_uint n ≠ Decimal.Nil.
Proof.
  intros H. pose proof (DecimalNat.Unsigned.of_to n) as Hn. rewrite H in Hn.
  cbn in Hn. subst n. discriminate H.
Qed.

Lemma string_of_nat_digits (n : nat) :
  exists c s', string_of_nat n = String c s' /\ digit c = true /\ all_digits s' = true.
Proof.
  unfold string_of_nat, NilZero.string_of_uint.
  pose proof (to_uint_not_nil n) as Hn.
  pose proof (string_of_uint_digits (Nat.to_uint n)) as Hd.
  destruct (Nat.to_uint n); try done; cbn in *;
    eexists _, _; (split; [reflexivity|]); by split.
Qed.

Lemma string_of_nat_inj (i j : nat) : string_of_nat i = string_of_nat j -> i = j.
Proof.
  unfold string_of_nat. intros H.
  apply DecimalNat.Unsigned.to_uint_inj.
  assert (Hs : Some (Nat.to_uint i) = Some (Nat.to_uint j)); [|by injection Hs].
  rewrite <- (NilZero.usu (Nat.to_uint i)) by apply to_uint_not_nil.
  rewrite <- (NilZero.usu (Nat.to_uint j)) by apply to_uint_not_nil.
  by rewrite H.
Qed.

(** Digits in front of a label: the split is unique. *)
Lemma digits_label_split (d1 d2 l1 l2 : string) :
  all_digits d1 = true -> all_digits d2 = true -> is_label l1 -> is_label l2 ->
  d1 +:+ l1 = d2 +:+ l2 -> d1 = d2 /\ l1 = l2.
Proof.
  revert d2. induction d1 as [|c d1 IH]; intros [|c2 d2] H1 H2 L1 L2 H.
  - done.
  - exfalso. change ("" +:+ l1) with l1 in H. subst l1.
    cbn in H2. apply andb_prop in H2 as [Hc _].
    destruct L1 as [L1|[x L1]]; [done|].
    change (String c2 d2 +:+ l2) with (String c2 (d2 +:+ l2)) in L1.
    change (" " +:+ x) with (String " "%char x) in L1.
    injection L1 as -> _. done.
  - exfalso. change ("" +:+ l2) with l2 in H. subst l2.
    cbn in H1. apply andb_prop in H1 as [Hc _].
    destruct L2 as [L2|[x L2]]; [done|].
    change (String c d1 +:+ l1) with (String c (d1 +:+ l1)) in L2.
    change (" " +:+ x) with (String " "%char x) in L2.
    injection L2 as -> _. done.
  - change (String c d1 +:+ l1) with (String c (d1 +:+ l1)) in H.
    change (String c2 d2 +:+ l2) with (String c2 (d2 +:+ l2)) in H.
    injection H as -> H.
    cbn in H1, H2. apply andb_prop in H1 as [_ H1]. apply andb_prop in H2 as [_ H2].
    destruct (IH d2 H1 H2 L1 L2 H) as [-> ->]. done.
Qed.

Lemma string_of_nat_all_digits (n : nat) : all_digits (string_of_nat n) = true.
Proof.
  destruct (string_of_nat_digits n) as (c & s' & -> & Hc & Hs). cbn.
  by rewrite Hc, Hs.
Qed.

(** Keys of rows are told apart by their index. *)
Lemma row_key_inj (i j : nat) (l1 l2 : string) :
  is_label l1 -> is_label l2 -> row_key i l1 = row_key j l2 -> i = j /\ l1 = l2.
Proof.
  intros L1 L2 H. unfold row_key in H.
  apply digits_label_split in H as [H ->];
    auto using string_of_nat_all_digits.
  split; [by apply string_of_nat_inj|done].
Qed.

Lemma row_key_digit (i : nat) (l : string) :
  exists c s', row_key i l = String c s' /\ digit c = true.
Proof.
  unfold row_key. destruct (string_of_nat_digits i) as (c & s' & -> & Hc & _).
  by exists c, (s' +:+ l).
Qed.

Lemma row_key_not_total (i : nat) (l : string) :
  row_key i l ≠ "total" /\ row_key i l ≠ "avrg".
Proof.
  destruct (row_key_digit i l) as (c & s' & -> & Hc).
  split; intros [= -> _]; done.
Qed.

(** The loop leaves alone every key that is not one of its own. *)
Lemma add_results_other (rnd : Q -> Q) (rs : list sample) (a : acc) (i : nat)
    (k : string) :
  (forall j l, i <= j -> is_label l -> k ≠ row_key j l) ->
  a_rows (add_results rnd a i rs) !! k = a_rows a !! k.
Proof.
  revert a i. induction rs as [|r rs IH]; intros a i Hk; [done|].
  cbn [add_results]. rewrite IH.
  - cbn. apply lookup_insert_ne. intros Heq. eapply (Hk i); [lia| |by rewrite <- Heq].
    apply row_name_is_label.
  - intros j l Hj. apply Hk. lia.
Qed.

(** Every sample is found under its index and its label. *)
Lemma add_results_lookup (rnd : Q -> Q) (rs : list sample) (a : acc) (i j : nat)
    (r : sample) :
  rs !! j = Some r ->
  exists l,
    labels (a_prevName a) rs !! j = Some l /\
    a_rows (add_results rnd a i rs) !! row_key (i + j) l = Some (row_of rnd r).
Proof.
  revert a i j. induction rs as [|r0 rs IH]; intros a i j H; [done|].
  destruct j as [|j]; cbn in H.
  - injection H as ->. eexists. split; [reflexivity|].
    cbn [add_results]. rewrite add_results_other.
    + rewrite Nat.add_0_r. cbn. by rewrite lookup_insert_eq.
    + intros j l Hj Hl Heq. rewrite Nat.add_0_r in Heq.
      apply row_key_inj in Heq as [Heq _]; [lia|apply row_name_is_label|done].
  - destruct (IH (add_result rnd a i r0) (S i) j H) as (l & Hl & Hrow).
    exists l. split; [exact Hl|].
    cbn [add_results]. replace (i + S j) with (S i + j) by lia. exact Hrow.
Qed.

(** Every key the loop leaves is an older one or the key of a sample. *)
Lemma add_results_keys (rnd : Q -> Q) (rs : list sample) (a : acc) (i : nat)
    (k : string) :
  is_Some (a_rows (add_results rnd a i rs) !! k) ->
  is_Some (a_rows a !! k) \/
  exists j l, labels (a_prevName a) rs !! j = Some l /\ k = row_key (i + j) l.
Proof.
  revert a i. induction rs as [|r rs IH]; intros a i H; [by left|].
  cbn [add_results] in H. apply IH in H as [H|(j & l & Hl & ->)].
  - cbn in H. destruct (decide (k = row_key i (row_name (s_name r) (a_prevName a))))
      as [->|Hne].
    + right. exists 0, (row_name (s_name r) (a_prevName a)).
      split; [done|]. by rewrite Nat.add_0_r.
    + left. by rewrite lookup_insert_ne in H.
  - right. exists (S j), l. split; [exact Hl|]. f_equal. lia.
Qed.

(** One row more for every sample. *)
Lemma add_results_size (rnd : Q -> Q) (rs : list sample) (a : acc) (i : nat) :
  (forall k, is_Some (a_rows a !! k) ->
     forall j l, i <= j -> is_label l -> k ≠ row_key j l) ->
  size (a_rows (add_results rnd a i rs)) = size (a_rows a) + length rs.
Proof.
  revert a i. induction rs as [|r rs IH]; intros a i Hold; [cbn; lia|].
  cbn [add_results]. rewrite IH.
  - cbn. rewrite map_size_insert_None; [lia|].
    apply eq_None_not_Some. intros Hin.
    eapply (Hold _ Hin i); [lia|apply row_name_is_label|done].
  - intros k Hin j l Hj Hl. cbn in Hin.
    destruct (decide (k = row_key i (row_name (s_name r) (a_prevName a))))
      as [->|Hne].
    + intros Heq. apply row_key_inj in Heq as [Heq _];
        [lia|apply row_name_is_label|done].
    + rewrite lookup_insert_ne in Hin by done. apply (Hold k Hin). lia. done.
Qed.

Lemma add_results_prev_label (rnd : Q -> Q) (rs : list sample) (a : acc) (i : nat) :
  rs ≠ [] -> is_label (a_prevName (add_results rnd a i rs)).
Proof.
  revert a i. induction rs as [|r rs IH]; intros a i Hne; [done|].
  cbn [add_results]. destruct rs as [|r' rs].
  - cbn. apply row_name_is_label.
  - by apply IH.
Qed.

(** The rows of [report] are those of the loop and the two last ones. *)
Lemma report_rows (rnd : Q -> Q) (p : t) :
  exists total avrg,
    a_rows (report rnd p) =
      <["avrg" := avrg]> (<["total" := total]>
        (a_rows (add_results rnd
           {| a_secTotal := 0; a_msTotal := 0; a_count := 0; a_rows := ∅;
              a_prevName := prevName p |} 0 (results p)))) /\
    a_prevName (report rnd p) =
      a_prevName (add_results rnd
           {| a_secTotal := 0; a_msTotal := 0; a_count := 0; a_rows := ∅;
              a_prevName := prevName p |} 0 (results p)).
Proof. by eexists _, _. Qed.

Lemma report_lookup_row (rnd : Q -> Q) (p : t) (j : nat) (l : string) :
  a_rows (report rnd p) !! row_key j l =
    a_rows (add_results rnd
      {| a_secTotal := 0; a_msTotal := 0; a_count := 0; a_rows := ∅;
         a_prevName := prevName p |} 0 (results p)) !! row_key j l.
Proof.
  destruct (report_rows rnd p) as (total & avrg & -> & _).
  destruct (row_key_not_total j l) as [Ht Ha].
  by rewrite !lookup_insert_ne.
Qed.

(** X24.  The report loses no sample: no row overwrites another.  It has
    one row for every sample and the two rows [total] and [avrg]; the
    sample at index [i] is found under the key made of [i] and either
    nothing or a space and the sample's name, and its row holds the
    sample's own time, in milliseconds with 2 decimals and in seconds
    with 6; there is no other row. *)
Theorem report_has_a_row_per_sample (rnd : Q -> Q) (p : t) :
  size (a_rows (report rnd p)) = length (results p) + 2 /\
  (forall i r, results p !! i = Some r ->
     exists l, (l = "" \/ l = " " +:+ s_name r) /\
       a_rows (report rnd p) !! (string_of_nat i +:+ l) =
         Some {| ms := toFixed 2 (s_time r);
                 s := toFixed 6 (rnd (s_time r / 1000)%Q) |}) /\
  (forall k, is_Some (a_rows (report rnd p) !! k) ->
     k = "total" \/ k = "avrg" \/
     exists i r l, results p !! i = Some r /\ (l = "" \/ l = " " +:+ s_name r) /\
       k = string_of_nat i +:+ l).
Proof.
  set (a0 := {| a_secTotal := 0; a_msTotal := 0; a_count := 0; a_rows := ∅;
                a_prevName := prevName p |}).
  assert (Hkeys : forall k, is_Some (a_rows (add_results rnd a0 0 (results p)) !! k) ->
            exists j l, labels (prevName p) (results p) !! j = Some l /\ k = row_key j l).
  { intros k Hk. apply add_results_keys in Hk as [Hk|Hk]; [|exact Hk].
    cbn in Hk. rewrite lookup_empty in Hk. by destruct Hk. }
  split_and!.
  - destruct (report_rows rnd p) as (total & avrg & -> & _). fold a0.
    rewrite !map_size_insert_None.
    + rewrite add_results_size; [cbn; rewrite map_size_empty; lia|].
      intros k Hk. cbn in Hk. rewrite lookup_empty in Hk. by destruct Hk.
    + apply eq_None_not_Some. intros Hin. apply Hkeys in Hin as (j & l & _ & Heq).
      by destruct (row_key_not_total j l).
    + rewrite lookup_insert_ne by done.
      apply eq_None_not_Some. intros Hin. apply Hkeys in Hin as (j & l & _ & Heq).
      by destruct (row_key_not_total j l).
  - intros i r Hi.
    destruct (add_results_lookup rnd (results p) a0 0 i r Hi) as (l & Hl & Hrow).
    exists l. split.
    + apply labels_lookup in Hl as (r' & Hr' & Hl). cbn in Hl. congruence.
    + change (string_of_nat i +:+ l) with (row_key i l).
      rewrite report_lookup_row. exact Hrow.
  - intros k Hk.
    destruct (report_rows rnd p) as (total & avrg & Hrows & _).
    rewrite Hrows in Hk. fold a0 in Hk.
    destruct (decide (k = "avrg")) as [->|Ha]; [by right; left|].
    destruct (decide (k = "total")) as [->|Ht]; [by left|].
    rewrite !lookup_insert_ne in Hk by done.
    apply Hkeys in Hk as (j & l & Hl & ->).
    apply labels_lookup in Hl as (r & Hr & Hl).
    right; right. by exists j, r, l.
Qed.

(** X25.  [printResults] on an instance with no sample still prints a
    report: no row but [total], which is zero, and [avrg], whose two
    figures are [NaN] (zero divided by the count, zero); [prevName] is
    left as it was. *)
Theorem report_without_samples (name : option string) (p : t) (w : world) :
  results p = [] ->
  printResults name (p, w) =
    (Ok tt, (set_prevName (prevName p)
               (set_currentName (name_or name (currentName p)) p),
             log (Report (useTable p) (initName p)
                    (<["avrg" := {| ms := "NaN"; s := "NaN" |}]>
                       (<["total" := {| ms := "0.00"; s := "0.000000" |}]> ∅))) w)).
Proof.
  intros Hres. rewrite printResults_logs_report. unfold report. rewrite Hres.
  reflexivity.
Qed.

Lemma report_without_samples_witness :
  printResults None (stopwatch, w_loaded) =
    (Ok tt, (set_prevName "t" (set_currentName "t" stopwatch),
             log (Report true "t"
                    (<["avrg" := {| ms := "NaN"; s := "NaN" |}]>
                       (<["total" := {| ms := "0.00"; s := "0.000000" |}]> ∅)))
               w_loaded)).
Proof. apply (report_without_samples None stopwatch w_loaded). reflexivity. Defined.

(** X26.  [printResults] changes [prevName], so printing the same results
    twice does not give the same rows.  When the first sample carries the
    name in [prevName] (as after [new Profiler('t')], [start()],
    [stop()]), and that name is one that is shown, the first report has
    it under the bare index [0], and the second report, printed right
    after, has it under [0] followed by the name. *)
Theorem second_report_relabels (p : t) (w : world) (r : sample)
    (rest : list sample) :
  results p = r :: rest -> s_name r = prevName p -> shown (s_name r) = true ->
  exists p2 w2 rows1 rows2,
    (printResults None ;;; printResults None)%js (p, w) = (Ok tt, (p2, w2)) /\
    console w2 = (console w ++ [Report (useTable p) (initName p) rows1;
                                Report (useTable p) (initName p) rows2])%list /\
    rows1 !! "0" = Some (row_of (fl w) r) /\
    rows1 !! ("0 " +:+ s_name r) = None /\
    rows2 !! ("0 " +:+ s_name r) = Some (row_of (fl w) r) /\
    rows2 !! "0" = None.
Proof.
  intros Hres Hname Hshown.
  unfold bind. rewrite printResults_logs_report.
  set (p1 := set_prevName _ _). rewrite printResults_logs_report.
  eexists _, _, _, _. split; [reflexivity|]. split.
  { cbn. rewrite <- app_assoc. reflexivity. }
  set (a0 := {| a_secTotal := 0; a_msTotal := 0; a_count := 0; a_rows := ∅;
                a_prevName := prevName p |}).
  set (a1 := {| a_secTotal := 0; a_msTotal := 0; a_count := 0; a_rows := ∅;
                a_prevName := prevName p1 |}).
  (* the label of the first sample, in the first report and in the second *)
  assert (Hl1 : row_name (s_name r) (prevName p) = "").
  { rewrite row_name_shown by done. rewrite Hname. by rewrite String.eqb_refl. }
  assert (Hprev : is_label (prevName p1)).
  { unfold p1, set_prevName. cbn [prevName].
    destruct (report_rows (fl w) p) as (? & ? & _ & ->).
    apply add_results_prev_label. by rewrite Hres. }
  assert (Hl2 : row_name (s_name r) (prevName p1) = " " +:+ s_name r).
  { rewrite row_name_shown by done.
    destruct (String.eqb (s_name r) (prevName p1)) eqn:He; [|done].
    apply String.eqb_eq in He. by apply shown_not_label in He. }
  assert (Hres1 : results p1 = r :: rest) by (unfold p1; cbn; exact Hres).
  (* a row with index 0 carries the first label *)
  assert (Hzero : forall rnd (q : t) (l' : string),
            results q = r :: rest -> is_label l' ->
            l' ≠ row_name (s_name r) (prevName q) ->
            a_rows (report rnd q) !! row_key 0 l' = None).
  { intros rnd q l' Hq Hl' Hne. rewrite report_lookup_row.
    apply eq_None_not_Some. intros Hin.
    apply add_results_keys in Hin as [Hin|(j & l & Hl & Heq)].
    - cbn in Hin. rewrite lookup_empty in Hin. by destruct Hin.
    - pose proof (labels_is_label _ _ _ _ Hl) as Hlab.
      apply row_key_inj in Heq as [Hj ->]; [|done|done].
      cbn in Hj. subst j.
      rewrite Hq in Hl. cbn in Hl. by injection Hl as <-. }
  assert (Hfirst : forall rnd (q : t),
            results q = r :: rest ->
            a_rows (report rnd q) !! row_key 0 (row_name (s_name r) (prevName q))
              = Some (row_of rnd r)).
  { intros rnd q Hq. rewrite report_lookup_row.
    destruct (add_results_lookup rnd (results q)
                {| a_secTotal := 0; a_msTotal := 0; a_count := 0; a_rows := ∅;
                   a_prevName := prevName q |} 0 0 r) as (l & Hl & Hrow).
    { by rewrite Hq. }
    rewrite Hq in Hl. cbn in Hl. injection Hl as <-. exact Hrow. }
  split_and!.
  - pose proof (Hfirst (fl w) p Hres) as H. by rewrite Hl1 in H.
  - apply (Hzero (fl w) p (" " +:+ s_name r)); [done|right; by eexists|].
    by rewrite Hl1.
  - pose proof (Hfirst (fl w) p1 Hres1) as H. by rewrite Hl2 in H.
  - apply (Hzero (fl w) p1 ""); [done|by left|]. by rewrite Hl2.
Qed.

Lemma second_report_relabels_witness :
  exists p2 w2 rows1 rows2,
    (printResults None ;;; printResults None)%js
      (push_result {| s_name := "t"; s_time := 10 |} stopwatch, w_loaded)
      = (Ok tt, (p2, w2)) /\
    console w2 = [UserAgentInfo; Report true "t" rows1; Report true "t" rows2] /\
    rows1 !! "0" = Some {| ms := "10.00"; s := "0.010000" |} /\
    rows1 !! "0 t" = None /\
    rows2 !! "0 t" = Some {| ms := "10.00"; s := "0.010000" |} /\
    rows2 !! "0" = None.
Proof.
  apply (second_report_relabels (push_result {| s_name := "t"; s_time := 10 |} stopwatch)
           w_loaded {| s_name := "t"; s_time := 10 |} []); reflexivity.
Defined.

End ProfilerMore.
